(** * STB Copilot front end: a shallow embedding of [script.js] and [login.js]

    The two scripts of [src/frontend] are embedded as pure functions over an
    explicit page state.

    - JavaScript strings are sequences of UTF-16 code units: [list N].
    - [localStorage] is a finite map from keys to strings.
    - The network is an oracle from the request passed to [fetch] to the
      outcome the script awaits.  An [async] handler is run to completion
      against it: no other event of the page interleaves with the handler
      (the form is disabled while a request is pending).
    - Code that can throw, a property read or a method call on
      [undefined] or [null], returns [option], or a completion that keeps
      the page as the call left it; the exception is the one that the
      surrounding [try]/[catch] handles.
    - The fields of a parsed JSON body have the types of the interface
      ([/login], [/ask]) when they are present, and read [undefined] when
      they are absent.  Bodies that put [null] or a value of another type
      in a field are outside the model.
    - The DOM is kept as the properties the scripts write: the markup
      assigned to [innerHTML] is a string.  How the browser parses that
      markup is not modelled; what the parse decides, the elements that
      [querySelector] finds in a message, is an oracle of the page, like
      the network.  [console] output and the scroll position are left
      out. *)

From Stdlib Require Import NArith ZArith DecimalString Ascii String.
From stdpp Require Import gmap strings list.

(** ** JavaScript strings and the platform functions the scripts call *)
Module Js.

Local Open Scope N_scope.

(** A JavaScript string: its UTF-16 code units. *)
Abbreviation jsstring := (list N).

(** *** String literals

    Literals of the scripts are written as Rocq strings.  The file is UTF-8,
    so a literal is decoded from UTF-8 and re-encoded as UTF-16. *)

Definition utf8_cont (acc b : N) : N := N.lor (N.shiftl acc 6) (N.land b 63).

Fixpoint utf8_decode (bs : list N) : list N :=
  match bs with
  | [] => []
  | b0 :: r =>
      if b0 <? 128 then b0 :: utf8_decode r
      else if b0 <? 224 then
        match r with
        | b1 :: r1 => utf8_cont (N.land b0 31) b1 :: utf8_decode r1
        | _ => []
        end
      else if b0 <? 240 then
        match r with
        | b1 :: b2 :: r2 =>
            utf8_cont (utf8_cont (N.land b0 15) b1) b2 :: utf8_decode r2
        | _ => []
        end
      else
        match r with
        | b1 :: b2 :: b3 :: r3 =>
            utf8_cont (utf8_cont (utf8_cont (N.land b0 7) b1) b2) b3
              :: utf8_decode r3
        | _ => []
        end
  end.

Definition utf16_encode (cp : N) : jsstring :=
  if cp <? 65536 then [cp]
  else
    let c := cp - 65536 in
    [55296 + N.shiftr c 10; 56320 + N.land c 1023].

Definition lit (s : string) : jsstring :=
  flat_map utf16_encode
    (utf8_decode (map N_of_ascii (String.list_ascii_of_string s))).

(** The markup templates of the scripts contain double quotes and no
    apostrophe.  [tpl] reads a template in which every double quote of the
    source is written as an apostrophe, and yields the source's code
    units (34 for each of them). *)
Definition tpl (s : string) : jsstring :=
  map (fun c => if c =? 39 then 34 else c) (lit s).

(** *** Character classes of the regular expressions *)

(** [\d] (without the unicode-sets flag): the ASCII digits. *)
Definition is_digit (c : N) : bool := (48 <=? c) && (c <=? 57).

(** [\s] and [String.prototype.trim]: WhiteSpace and LineTerminator of
    ECMAScript. *)
Definition is_space (c : N) : bool :=
  (c =? 9) || (c =? 10) || (c =? 11) || (c =? 12) || (c =? 13) || (c =? 32)
  || (c =? 160) || (c =? 5760) || ((8192 <=? c) && (c <=? 8202))
  || (c =? 8232) || (c =? 8233) || (c =? 8239) || (c =? 8287)
  || (c =? 12288) || (c =? 65279).

(** *** String.prototype methods *)

Fixpoint drop_spaces (s : jsstring) : jsstring :=
  match s with
  | [] => []
  | c :: r => if is_space c then drop_spaces r else s
  end.

Definition trimStart (s : jsstring) : jsstring := drop_spaces s.
Definition trimEnd (s : jsstring) : jsstring := rev (drop_spaces (rev s)).
Definition trim (s : jsstring) : jsstring := trimEnd (trimStart s).

(** [s.split('\n')] *)
Fixpoint split_lines (s : jsstring) : list jsstring :=
  match s with
  | [] => [[]]
  | c :: r =>
      if c =? 10 then [] :: split_lines r
      else
        match split_lines r with
        | l :: ls => (c :: l) :: ls
        | [] => [[c]]
        end
  end.

(** [a === b] on two strings. *)
Fixpoint str_eqb (a b : jsstring) : bool :=
  match a, b with
  | [], [] => true
  | x :: a', y :: b' => (x =? y) && str_eqb a' b'
  | _, _ => false
  end.

(** A string in a boolean context: the empty string is falsy. *)
Definition truthy (s : jsstring) : bool :=
  match s with [] => false | _ :: _ => true end.

Fixpoint starts_with (p s : jsstring) : bool :=
  match p, s with
  | [], _ => true
  | _ :: _, [] => false
  | a :: p', b :: s' => (a =? b) && starts_with p' s'
  end.

(** [s.includes(p)] *)
Fixpoint includes (p s : jsstring) : bool :=
  starts_with p s ||
  match s with
  | [] => false
  | _ :: r => includes p r
  end.

(** *** Values that are a string or [undefined]

    A field of a parsed JSON body that is absent reads as [undefined]. *)

(** [`${v}`] and [String(v)]. *)
Definition to_string (v : option jsstring) : jsstring :=
  match v with
  | Some s => s
  | None => lit "undefined"
  end.

(** [v || d] for a string-or-undefined [v]. *)
Definition or_default (v : option jsstring) (d : jsstring) : jsstring :=
  match v with
  | Some s => if truthy s then s else d
  | None => d
  end.

(** Decimal rendering of an integer-valued Number (magnitude below 2^53). *)
Definition number_to_string (n : Z) : jsstring :=
  lit (NilZero.string_of_int (Z.to_int n)).

Definition number_opt_to_string (v : option Z) : jsstring :=
  match v with
  | Some n => number_to_string n
  | None => lit "undefined"
  end.

(** *** DOM text serialisation

    [div.textContent = text; div.innerHTML] serialises one text node with
    the HTML fragment serialisation algorithm: the ampersand, the
    no-break space and the two angle brackets are replaced by character
    references, every other code unit is copied. *)
Definition escape_unit (c : N) : jsstring :=
  if c =? 38 then lit "&amp;"
  else if c =? 160 then lit "&nbsp;"
  else if c =? 60 then lit "&lt;"
  else if c =? 62 then lit "&gt;"
  else [c].

Definition serialize_text (s : jsstring) : jsstring := flat_map escape_unit s.

(** The [textContent] setter takes a nullable DOMString: [undefined]
    converts to [null], which sets the empty string. *)
Definition textContent_of (v : option jsstring) : jsstring :=
  match v with
  | Some s => s
  | None => []
  end.

(** *** JSON.stringify of a string (QuoteJSONString) *)

Definition hex_digit (d : N) : N := if d <? 10 then 48 + d else 87 + d.

Definition unicode_escape (c : N) : jsstring :=
  [92; 117; hex_digit (N.land (N.shiftr c 12) 15);
   hex_digit (N.land (N.shiftr c 8) 15);
   hex_digit (N.land (N.shiftr c 4) 15);
   hex_digit (N.land c 15)].

Definition is_lead (c : N) : bool := (55296 <=? c) && (c <=? 56319).
Definition is_trail (c : N) : bool := (56320 <=? c) && (c <=? 57343).

Definition quote_unit (c : N) : jsstring :=
  if c =? 8 then [92; 98]
  else if c =? 9 then [92; 116]
  else if c =? 10 then [92; 110]
  else if c =? 12 then [92; 102]
  else if c =? 13 then [92; 114]
  else if c =? 34 then [92; 34]
  else if c =? 92 then [92; 92]
  else if (c <? 32) || is_lead c || is_trail c then unicode_escape c
  else [c].

Fixpoint quote_units (s : jsstring) : jsstring :=
  match s with
  | [] => []
  | c :: r =>
      if is_lead c then
        match r with
        | d :: r' =>
            if is_trail d then c :: d :: quote_units r'
            else quote_unit c ++ quote_units r
        | [] => quote_unit c
        end
      else quote_unit c ++ quote_units r
  end.

Definition quoteJSONString (s : jsstring) : jsstring :=
  [34] ++ quote_units s ++ [34].

End Js.

(** ** The network, as the scripts observe it *)
Module Net.
Import Js.

(** What [fetch] is called with. *)
Record Request := {
  req_url : jsstring;
  req_method : jsstring;
  req_headers : list (jsstring * jsstring);
  req_body : jsstring
}.

(** What [await fetch(...)] yields: a rejected promise, or a response with
    its status and the result of [response.json()] ([None] when the body
    is not JSON and the promise rejects). *)
Inductive Outcome (D : Type) :=
  | NetworkError
  | Response (status : N) (json : option D).
Arguments NetworkError {D}.
Arguments Response {D} status json.

(** [response.ok] *)
Definition ok (status : N) : bool := ((200 <=? status) && (status <=? 299))%N.

(** A callback scheduled with [setTimeout]. *)
Inductive Timer :=
  | ScrollToBottom (delay : N)
  | Navigate (delay : N) (href : jsstring).

End Net.

(** ** script.js *)
Module Script.
Import Js Net.

(** An entry of [data.sources]: the old format (a string) or the new one
    (an object with metadata; a field that is absent reads [undefined]). *)
Record SourceObject := {
  text : option jsstring;
  document : option jsstring;
  type : option jsstring
}.

Inductive Source :=
  | OldFormat (s : jsstring)
  | NewFormat (o : SourceObject).

(** The parsed body of a response to [/ask]; a field that is absent reads
    [undefined].  [confidence] is an integer, as the interface has it. *)
Record AskData := {
  answer : option jsstring;
  confidence : option Z;
  confidence_label : option jsstring;
  sources : option (list Source)
}.

(** What the lookups of [addAssistantMessage] and of its click handler
    find in a message once the browser has parsed the markup assigned to
    [innerHTML]: whether [messageDiv.querySelector('.source-toggle')] is an
    element, the text of [toggleButton.querySelector('.arrow')] ([None]
    when that is [null]), and for
    [messageDiv.querySelector('.source-content')] whether it is an element
    and carries the class [visible] ([None] when it is [null]).  The markup
    holds the label and the document names as they came, so the first
    element of a class need not be the one [createSourcesHtml] wrote. *)
Record Elements := {
  toggleButton : bool;
  arrow_text : option jsstring;
  sourceContent : option bool
}.

(** A child of [chatMessages].  [listener] tells whether the click handler
    of [addAssistantMessage] is attached; [content_visible] and [arrow] are
    the state of the two elements the handler works on: whether the element
    captured as [sourceContent] carries the class [visible], and the text
    of the [.arrow] element inside the button ([None] for [null]). *)
Record Message := {
  className : jsstring;
  innerHTML : jsstring;
  listener : bool;
  content_visible : option bool;
  arrow : option jsstring
}.

(** The page: the script's two variables, the storage and the DOM
    properties it reads and writes.  [querySelector] is the browser's side
    of the lookups: what they find in a message with the given markup. *)
Record Page := {
  origin : jsstring;
  localStorage : gmap string jsstring;
  sessionToken : option jsstring;
  currentUser : option (option jsstring * option jsstring);
  location_href : option jsstring;
  chatMessages : list Message;
  questionInput_value : jsstring;
  questionInput_disabled : bool;
  questionInput_focused : bool;
  sendButton_disabled : bool;
  loadingIndicator_visible : bool;
  timers : list Timer;
  fetched : list Request;
  querySelector : jsstring -> Elements
}.

Definition set_localStorage v (p : Page) : Page :=
  Build_Page (origin p) v (sessionToken p) (currentUser p) (location_href p)
    (chatMessages p) (questionInput_value p) (questionInput_disabled p)
    (questionInput_focused p) (sendButton_disabled p)
    (loadingIndicator_visible p) (timers p) (fetched p)
    (querySelector p).
Definition set_sessionToken v (p : Page) : Page :=
  Build_Page (origin p) (localStorage p) v (currentUser p) (location_href p)
    (chatMessages p) (questionInput_value p) (questionInput_disabled p)
    (questionInput_focused p) (sendButton_disabled p)
    (loadingIndicator_visible p) (timers p) (fetched p)
    (querySelector p).
Definition set_currentUser v (p : Page) : Page :=
  Build_Page (origin p) (localStorage p) (sessionToken p) v (location_href p)
    (chatMessages p) (questionInput_value p) (questionInput_disabled p)
    (questionInput_focused p) (sendButton_disabled p)
    (loadingIndicator_visible p) (timers p) (fetched p)
    (querySelector p).
Definition set_location_href v (p : Page) : Page :=
  Build_Page (origin p) (localStorage p) (sessionToken p) (currentUser p) v
    (chatMessages p) (questionInput_value p) (questionInput_disabled p)
    (questionInput_focused p) (sendButton_disabled p)
    (loadingIndicator_visible p) (timers p) (fetched p)
    (querySelector p).
Definition set_chatMessages v (p : Page) : Page :=
  Build_Page (origin p) (localStorage p) (sessionToken p) (currentUser p)
    (location_href p) v (questionInput_value p) (questionInput_disabled p)
    (questionInput_focused p) (sendButton_disabled p)
    (loadingIndicator_visible p) (timers p) (fetched p)
    (querySelector p).
Definition set_questionInput_value v (p : Page) : Page :=
  Build_Page (origin p) (localStorage p) (sessionToken p) (currentUser p)
    (location_href p) (chatMessages p) v (questionInput_disabled p)
    (questionInput_focused p) (sendButton_disabled p)
    (loadingIndicator_visible p) (timers p) (fetched p)
    (querySelector p).
Definition set_questionInput_disabled v (p : Page) : Page :=
  Build_Page (origin p) (localStorage p) (sessionToken p) (currentUser p)
    (location_href p) (chatMessages p) (questionInput_value p) v
    (questionInput_focused p) (sendButton_disabled p)
    (loadingIndicator_visible p) (timers p) (fetched p)
    (querySelector p).
Definition set_questionInput_focused v (p : Page) : Page :=
  Build_Page (origin p) (localStorage p) (sessionToken p) (currentUser p)
    (location_href p) (chatMessages p) (questionInput_value p)
    (questionInput_disabled p) v (sendButton_disabled p)
    (loadingIndicator_visible p) (timers p) (fetched p)
    (querySelector p).
Definition set_sendButton_disabled v (p : Page) : Page :=
  Build_Page (origin p) (localStorage p) (sessionToken p) (currentUser p)
    (location_href p) (chatMessages p) (questionInput_value p)
    (questionInput_disabled p) (questionInput_focused p) v
    (loadingIndicator_visible p) (timers p) (fetched p)
    (querySelector p).
Definition set_loadingIndicator_visible v (p : Page) : Page :=
  Build_Page (origin p) (localStorage p) (sessionToken p) (currentUser p)
    (location_href p) (chatMessages p) (questionInput_value p)
    (questionInput_disabled p) (questionInput_focused p)
    (sendButton_disabled p) v (timers p) (fetched p)
    (querySelector p).
Definition set_timers v (p : Page) : Page :=
  Build_Page (origin p) (localStorage p) (sessionToken p) (currentUser p)
    (location_href p) (chatMessages p) (questionInput_value p)
    (questionInput_disabled p) (questionInput_focused p)
    (sendButton_disabled p) (loadingIndicator_visible p) v (fetched p)
    (querySelector p).
Definition set_fetched v (p : Page) : Page :=
  Build_Page (origin p) (localStorage p) (sessionToken p) (currentUser p)
    (location_href p) (chatMessages p) (questionInput_value p)
    (questionInput_disabled p) (questionInput_focused p)
    (sendButton_disabled p) (loadingIndicator_visible p) (timers p) v
    (querySelector p).

(** [const API_URL = window.location.origin.includes('localhost') ? ... ] *)
Definition API_URL (p : Page) : jsstring :=
  if includes (lit "localhost") (origin p) then lit "/api/ask"
  else lit "http://localhost:8000/api/ask".

(** [localStorage.getItem] returns [null] for a missing key; [null] and the
    empty string are falsy. *)
Definition falsy (v : option jsstring) : bool :=
  match v with
  | Some s => negb (truthy s)
  | None => true
  end.

(** [`${v}`] for a value that is a string or [null]. *)
Definition null_to_string (v : option jsstring) : jsstring :=
  match v with
  | Some s => s
  | None => lit "null"
  end.

Definition checkAuthentication (p : Page) : Page :=
  let p := set_sessionToken (localStorage p !! "stb_session_token") p in
  let userName := localStorage p !! "stb_user_name" in
  let userRole := localStorage p !! "stb_user_role" in
  if falsy (sessionToken p) then
    set_location_href (Some (lit "login.html")) p
  else
    set_currentUser (Some (userName, userRole)) p.

(** [escapeHtml(text)] *)
Definition escapeHtml (text : option jsstring) : jsstring :=
  serialize_text (textContent_of text).

Definition scrollToBottom (p : Page) : Page :=
  set_timers (timers p ++ [ScrollToBottom 100]) p.

Definition setInputEnabled (enabled : bool) (p : Page) : Page :=
  set_sendButton_disabled (negb enabled)
    (set_questionInput_disabled (negb enabled) p).

Definition showLoading (p : Page) : Page :=
  scrollToBottom (set_loadingIndicator_visible true p).

Definition hideLoading (p : Page) : Page :=
  set_loadingIndicator_visible false p.

Definition appendChild (m : Message) (p : Page) : Page :=
  set_chatMessages (chatMessages p ++ [m]) p.

Definition addUserMessage (text : jsstring) (p : Page) : Page :=
  let messageDiv := {|
    className := lit "message user-message";
    innerHTML :=
      tpl "
        <div class='message-avatar'>
            <svg width='24' height='24' viewBox='0 0 24 24' fill='none'>
                <circle cx='12' cy='12' r='10' stroke='currentColor' stroke-width='2'/>
                <circle cx='12' cy='10' r='3' fill='currentColor'/>
                <path d='M6 20C6 16 8 14 12 14C16 14 18 16 18 20' stroke='currentColor' stroke-width='2' stroke-linecap='round'/>
            </svg>
        </div>
        <div class='message-content'>
            <div class='message-text'>
                <p>"
      ++ escapeHtml (Some text)
      ++ tpl "</p>
            </div>
        </div>
    ";
    listener := false;
    content_visible := None;
    arrow := None |} in
  scrollToBottom (appendChild messageDiv p).

(** [v === s] for a string-or-undefined [v] and a string literal [s]. *)
Definition strict_eq (v : option jsstring) (s : jsstring) : bool :=
  match v with
  | Some x => str_eqb x s
  | None => false
  end.

Definition createConfidenceBadge (confidence : option Z)
    (label : option jsstring) : jsstring :=
  let colorClass :=
    if strict_eq label (lit "high") then lit "confidence-high"
    else if strict_eq label (lit "medium") then lit "confidence-medium"
    else lit "confidence-low" in
  let icon :=
    if strict_eq label (lit "high") then lit "✓"
    else if strict_eq label (lit "medium") then lit "~"
    else lit "!" in
  tpl "
        <div class='confidence-badge "
  ++ colorClass
  ++ tpl "'>
            <span class='confidence-icon'>"
  ++ icon
  ++ tpl "</span>
            <span class='confidence-text'>Confidence: "
  ++ number_opt_to_string confidence
  ++ tpl "%</span>
            <span class='confidence-label'>("
  ++ to_string label
  ++ tpl ")</span>
        </div>
    ".

(** *** The two regular expressions of [formatAnswer] *)

Fixpoint skip_digits (s : jsstring) : jsstring :=
  match s with
  | [] => []
  | c :: r => if is_digit c then skip_digits r else s
  end.

(** A match of [/^\d+\./] at the start of [s]: what follows the match. *)
Definition match_ordinal (s : jsstring) : option jsstring :=
  match s with
  | c :: r =>
      if is_digit c then
        match skip_digits r with
        | d :: r' => if (d =? 46)%N then Some r' else None
        | [] => None
        end
      else None
  | [] => None
  end.

(** [/^\d+\./.test(s)] *)
Definition test_ordinal (s : jsstring) : bool :=
  match match_ordinal s with Some _ => true | None => false end.

(** [s.replace(/^\d+\.\s*/, '')] *)
Definition replace_ordinal (s : jsstring) : jsstring :=
  match match_ordinal s with
  | Some r => drop_spaces r
  | None => s
  end.

(** The class [[•\-\*]]. *)
Definition is_bullet (c : N) : bool :=
  ((c =? 8226) || (c =? 45) || (c =? 42))%N.

(** A match of [/^[•\-\*]/] at the start of [s]: what follows the match. *)
Definition match_bullet (s : jsstring) : option jsstring :=
  match s with
  | c :: r => if is_bullet c then Some r else None
  | [] => None
  end.

(** [/^[•\-\*]/.test(s)] *)
Definition test_bullet (s : jsstring) : bool :=
  match match_bullet s with Some _ => true | None => false end.

(** [s.replace(/^[•\-\*]\s*/, '')] *)
Definition replace_bullet (s : jsstring) : jsstring :=
  match match_bullet s with
  | Some r => drop_spaces r
  | None => s
  end.

(** [formatAnswer(answer)]; [answer.split] throws on [undefined]. *)
Definition formatAnswer (answer : option jsstring) : option jsstring :=
  match answer with
  | None => None
  | Some answer =>
      let lines := List.filter (fun line => truthy (trim line))
                     (split_lines answer) in
      let isNumberedList := existsb (fun line => test_ordinal (trim line)) lines in
      if isNumberedList then
        let items := concat (map (fun line =>
          let text := trim (replace_ordinal line) in
          tpl "<li>" ++ escapeHtml (Some text) ++ tpl "</li>") lines) in
        Some (tpl "<ol>" ++ items ++ tpl "</ol>")
      else
        let isBulletList := existsb (fun line => test_bullet (trim line)) lines in
        if isBulletList then
          let items := concat (map (fun line =>
            let text := trim (replace_bullet line) in
            tpl "<li>" ++ escapeHtml (Some text) ++ tpl "</li>") lines) in
          Some (tpl "<ul>" ++ items ++ tpl "</ul>")
        else
          let paragraphs := concat (map (fun line =>
            tpl "<p>" ++ escapeHtml (Some line) ++ tpl "</p>") lines) in
          Some paragraphs
  end.

(** [source.document] and [source.type]: a property read on a string
    primitive yields [undefined]. *)
Definition source_document (source : Source) : option jsstring :=
  match source with
  | OldFormat _ => None
  | NewFormat o => document o
  end.

Definition source_type (source : Source) : option jsstring :=
  match source with
  | OldFormat _ => None
  | NewFormat o => type o
  end.

Definition createSourcesHtml (sources : list Source) : jsstring :=
  let sourceItems := concat (imap (fun index source =>
    let text :=
      match source with
      | OldFormat s => Some s
      | NewFormat o => text o
      end in
    let document := or_default (source_document source) (lit "Unknown document") in
    let docType := or_default (source_type source) (lit "procedure") in
    tpl "
            <div class='source-chunk'>
                <div class='source-chunk-header'>
                    <span class='source-chunk-label'>Chunk "
    ++ number_to_string (Z.of_nat index + 1)
    ++ tpl "</span>
                    <span class='source-document-name'>📄 "
    ++ document
    ++ tpl "</span>
                </div>
                <div class='source-chunk-text'>"
    ++ escapeHtml text
    ++ tpl "</div>
            </div>
        ") sources) in
  tpl "
        <div class='source-chunks'>
            <button class='source-toggle'>
                <span class='arrow'>▶</span>
                View "
  ++ number_to_string (Z.of_nat (length sources))
  ++ tpl " source "
  ++ (if (length sources =? 1)%nat then lit "chunk" else lit "chunks")
  ++ tpl "
            </button>
            <div class='source-content'>
                "
  ++ sourceItems
  ++ tpl "
            </div>
        </div>
    ".

(** [sources && sources.length > 0] *)
Definition has_sources (sources : option (list Source)) : bool :=
  match sources with
  | Some (_ :: _) => true
  | _ => false
  end.

(** How a call ended: it returned, or it threw; either way with the page
    as the call left it. *)
Inductive Completion :=
  | Returned (p : Page)
  | Threw (p : Page).

(** [addAssistantMessage(answer, confidence, confidenceLabel, sources)].
    [formatAnswer] throws before the page is touched.  With sources, the
    message is appended first and then searched for [.source-toggle] and
    [.source-content]; [toggleButton.addEventListener] throws when the
    first lookup gave [null], which leaves the message in the chat and
    skips [scrollToBottom]. *)
Definition addAssistantMessage (answer : option jsstring)
    (confidence : option Z) (confidenceLabel : option jsstring)
    (sources : option (list Source)) (p : Page) : Completion :=
  match formatAnswer answer with
  | None => Threw p
  | Some formattedAnswer =>
      let confidenceBadge := createConfidenceBadge confidence confidenceLabel in
      let sourcesHtml :=
        if has_sources sources then createSourcesHtml (default [] sources)
        else [] in
      let markup :=
          tpl "
        <div class='message-avatar'>
            <svg width='24' height='24' viewBox='0 0 24 24' fill='none'>
                <circle cx='12' cy='12' r='10' stroke='currentColor' stroke-width='2'/>
                <path d='M8 14C8 14 9.5 16 12 16C14.5 16 16 14 16 14' stroke='currentColor' stroke-width='2' stroke-linecap='round'/>
                <circle cx='9' cy='9' r='1.5' fill='currentColor'/>
                <circle cx='15' cy='9' r='1.5' fill='currentColor'/>
            </svg>
        </div>
        <div class='message-content'>
            <div class='message-text'>
                "
          ++ formattedAnswer
          ++ tpl "
            </div>
            "
          ++ confidenceBadge
          ++ tpl "
            "
          ++ sourcesHtml
          ++ tpl "
        </div>
    " in
      let messageDiv := {|
        className := lit "message assistant-message";
        innerHTML := markup;
        listener := false;
        content_visible := None;
        arrow := None |} in
      if has_sources sources then
        let found := querySelector p markup in
        if toggleButton found then
          let messageDiv := {|
            className := lit "message assistant-message";
            innerHTML := markup;
            listener := true;
            content_visible := sourceContent found;
            arrow := arrow_text found |} in
          Returned (scrollToBottom (appendChild messageDiv p))
        else Threw (appendChild messageDiv p)
      else Returned (scrollToBottom (appendChild messageDiv p))
  end.

(** The click handler that [addAssistantMessage] attaches to the element
    it found for [.source-toggle].  [sourceContent.classList] throws when
    the second lookup gave [null], before anything changed;
    [arrow.textContent] throws when the button holds no [.arrow], after
    the class was toggled. *)
Definition clickToggle (m : Message) : Message :=
  if listener m then
    match content_visible m with
    | None => m
    | Some visible =>
        {| className := className m;
           innerHTML := innerHTML m;
           listener := true;
           content_visible := Some (negb visible);
           arrow :=
             match arrow m with
             | None => None
             | Some _ => Some (if negb visible then lit "▼" else lit "▶")
             end |}
    end
  else m.

Definition addErrorMessage (message : jsstring) (p : Page) : Page :=
  let messageDiv := {|
    className := lit "message assistant-message";
    innerHTML :=
      tpl "
        <div class='message-avatar'>
            <svg width='24' height='24' viewBox='0 0 24 24' fill='none'>
                <circle cx='12' cy='12' r='10' stroke='currentColor' stroke-width='2'/>
                <path d='M12 8V12' stroke='currentColor' stroke-width='2' stroke-linecap='round'/>
                <circle cx='12' cy='16' r='1' fill='currentColor'/>
            </svg>
        </div>
        <div class='message-content'>
            <div class='message-text'>
                <p style='color: #ef4444;'>⚠️ "
      ++ escapeHtml (Some message)
      ++ tpl "</p>
            </div>
        </div>
    ";
    listener := false;
    content_visible := None;
    arrow := None |} in
  scrollToBottom (appendChild messageDiv p).

(** The request [sendQuestion] passes to [fetch]. *)
Definition ask_request (question : jsstring) (p : Page) : Request := {|
  req_url := API_URL p;
  req_method := lit "POST";
  req_headers :=
    [(lit "Content-Type", lit "application/json");
     (lit "Authorization", tpl "Bearer " ++ null_to_string (sessionToken p))];
  req_body := tpl "{'question':" ++ quoteJSONString question ++ lit "}"
|}.

(** The [catch] block of [sendQuestion]. *)
Definition sendQuestion_catch (p : Page) : Page :=
  setInputEnabled true
    (addErrorMessage
       (lit "Sorry, I encountered an error. Please make sure the backend server is running.")
       (hideLoading p)).

(** [sendQuestion(question)], run to completion against the network
    oracle [net]. *)
Definition sendQuestion (net : Request -> Outcome AskData)
    (question : jsstring) (p : Page) : Page :=
  let request := ask_request question p in
  let p := set_fetched (fetched p ++ [request]) p in
  match net request with
  | NetworkError => sendQuestion_catch p
  | Response status json =>
      if (status =? 401)%N then
        set_location_href (Some (lit "login.html")) (set_localStorage ∅ p)
      else if negb (ok status) then sendQuestion_catch p
      else
        match json with
        | None => sendQuestion_catch p
        | Some data =>
            let p := hideLoading p in
            match addAssistantMessage (answer data) (confidence data)
                    (confidence_label data) (sources data) p with
            | Threw p => sendQuestion_catch p
            | Returned p =>
                set_questionInput_focused true (setInputEnabled true p)
            end
        end
  end.

(** [handleSubmit(event)]; [event.preventDefault()] has no effect on the
    page state. *)
Definition handleSubmit (net : Request -> Outcome AskData) (p : Page) : Page :=
  let question := trim (questionInput_value p) in
  if negb (truthy question) then p
  else
    let p := addUserMessage question p in
    let p := set_questionInput_value [] p in
    let p := setInputEnabled false p in
    let p := showLoading p in
    sendQuestion net question p.

End Script.

(** ** login.js *)
Module Login.
Import Js Net.

(** [data.user] of a login response. *)
Record UserData := {
  name : option jsstring;
  role : option jsstring
}.

(** The parsed body of a response to [/login]; a field that is absent
    reads [undefined]. *)
Record LoginData := {
  success : option bool;
  session_token : option jsstring;
  user : option UserData;
  message : option jsstring
}.

(** The inline style [showError] and [showSuccess] set on [errorMessage]. *)
Record Style := {
  background : jsstring;
  borderColor : jsstring;
  color : jsstring
}.

Record Page := {
  origin : jsstring;
  localStorage : gmap string jsstring;
  location_href : option jsstring;
  emailInput_value : jsstring;
  passwordInput_value : jsstring;
  emailInput_disabled : bool;
  passwordInput_disabled : bool;
  loginButton_disabled : bool;
  loginButton_text : jsstring;
  errorMessage_textContent : jsstring;
  errorMessage_visible : bool;
  errorMessage_style : option Style;
  timers : list Timer;
  fetched : list Request
}.

Definition set_localStorage v (p : Page) : Page :=
  Build_Page (origin p) v (location_href p) (emailInput_value p)
    (passwordInput_value p) (emailInput_disabled p) (passwordInput_disabled p)
    (loginButton_disabled p) (loginButton_text p) (errorMessage_textContent p)
    (errorMessage_visible p) (errorMessage_style p) (timers p) (fetched p).
Definition set_location_href v (p : Page) : Page :=
  Build_Page (origin p) (localStorage p) v (emailInput_value p)
    (passwordInput_value p) (emailInput_disabled p) (passwordInput_disabled p)
    (loginButton_disabled p) (loginButton_text p) (errorMessage_textContent p)
    (errorMessage_visible p) (errorMessage_style p) (timers p) (fetched p).
Definition set_disabled v (p : Page) : Page :=
  Build_Page (origin p) (localStorage p) (location_href p) (emailInput_value p)
    (passwordInput_value p) v v v (loginButton_text p)
    (errorMessage_textContent p) (errorMessage_visible p)
    (errorMessage_style p) (timers p) (fetched p).
Definition set_loginButton_text v (p : Page) : Page :=
  Build_Page (origin p) (localStorage p) (location_href p) (emailInput_value p)
    (passwordInput_value p) (emailInput_disabled p) (passwordInput_disabled p)
    (loginButton_disabled p) v (errorMessage_textContent p)
    (errorMessage_visible p) (errorMessage_style p) (timers p) (fetched p).
Definition set_errorMessage text visible style (p : Page) : Page :=
  Build_Page (origin p) (localStorage p) (location_href p) (emailInput_value p)
    (passwordInput_value p) (emailInput_disabled p) (passwordInput_disabled p)
    (loginButton_disabled p) (loginButton_text p) text visible style
    (timers p) (fetched p).
Definition set_timers v (p : Page) : Page :=
  Build_Page (origin p) (localStorage p) (location_href p) (emailInput_value p)
    (passwordInput_value p) (emailInput_disabled p) (passwordInput_disabled p)
    (loginButton_disabled p) (loginButton_text p) (errorMessage_textContent p)
    (errorMessage_visible p) (errorMessage_style p) v (fetched p).
Definition set_fetched v (p : Page) : Page :=
  Build_Page (origin p) (localStorage p) (location_href p) (emailInput_value p)
    (passwordInput_value p) (emailInput_disabled p) (passwordInput_disabled p)
    (loginButton_disabled p) (loginButton_text p) (errorMessage_textContent p)
    (errorMessage_visible p) (errorMessage_style p) (timers p) v.

Definition API_URL (p : Page) : jsstring :=
  if includes (lit "localhost") (origin p) then lit "/api/login"
  else lit "http://localhost:8000/api/login".

(** [localStorage.setItem(key, value)] *)
Definition setItem (key : string) (value : jsstring) (p : Page) : Page :=
  set_localStorage (<[key := value]> (localStorage p)) p.

Definition checkExistingSession (p : Page) : Page :=
  match localStorage p !! "stb_session_token" with
  | Some sessionToken =>
      if truthy sessionToken then set_location_href (Some (lit "index.html")) p
      else p
  | None => p
  end.

Definition showError (message : jsstring) (p : Page) : Page :=
  set_errorMessage message true
    (Some {| background := lit "rgba(239, 68, 68, 0.1)";
             borderColor := lit "rgba(239, 68, 68, 0.3)";
             color := lit "#ef4444" |}) p.

Definition showSuccess (message : jsstring) (p : Page) : Page :=
  set_errorMessage message true
    (Some {| background := lit "rgba(16, 185, 129, 0.1)";
             borderColor := lit "rgba(16, 185, 129, 0.3)";
             color := lit "#10b981" |}) p.

Definition hideError (p : Page) : Page :=
  set_errorMessage (errorMessage_textContent p) false (errorMessage_style p) p.

Definition setFormEnabled (enabled : bool) (p : Page) : Page :=
  let p := set_disabled (negb enabled) p in
  if enabled then set_loginButton_text (lit "Se connecter") p
  else set_loginButton_text (lit "Connexion...") p.

(** [setTimeout(callback, delay)] *)
Definition setTimeout (t : Timer) (p : Page) : Page :=
  set_timers (timers p ++ [t]) p.

(** The callback of a timer, when it fires. *)
Definition fire (t : Timer) (p : Page) : Page :=
  match t with
  | Navigate _ href => set_location_href (Some href) p
  | ScrollToBottom _ => p
  end.

(** The request [handleLogin] passes to [fetch]. *)
Definition login_request (email password : jsstring) (p : Page) : Request := {|
  req_url := API_URL p;
  req_method := lit "POST";
  req_headers := [(lit "Content-Type", lit "application/json")];
  req_body :=
    tpl "{'email':" ++ quoteJSONString email
    ++ tpl ",'password':" ++ quoteJSONString password ++ lit "}"
|}.

(** The [catch] block of [handleLogin]. *)
Definition handleLogin_catch (p : Page) : Page :=
  setFormEnabled true (showError (lit "Erreur de connexion. Veuillez réessayer.") p).

(** [data.success] in a boolean context. *)
Definition success_truthy (data : LoginData) : bool :=
  match success data with
  | Some b => b
  | None => false
  end.

(** [handleLogin(event)], run to completion against the network oracle
    [net]; [event.preventDefault()] has no effect on the page state. *)
Definition handleLogin (net : Request -> Outcome LoginData) (p : Page) : Page :=
  let email := trim (emailInput_value p) in
  let password := passwordInput_value p in
  if negb (truthy email) || negb (truthy password) then
    showError (lit "Veuillez remplir tous les champs") p
  else
    let p := hideError (setFormEnabled false p) in
    let request := login_request email password p in
    let p := set_fetched (fetched p ++ [request]) p in
    match net request with
    | NetworkError => handleLogin_catch p
    | Response status None => handleLogin_catch p
    | Response status (Some data) =>
        if ok status && success_truthy data then
          let p := setItem "stb_session_token" (to_string (session_token data)) p in
          match user data with
          | None => handleLogin_catch p
          | Some u =>
              let p := setItem "stb_user_name" (to_string (name u)) p in
              let p := setItem "stb_user_role" (to_string (role u)) p in
              let p := showSuccess (lit "Connexion réussie! Redirection...") p in
              setTimeout (Navigate 1000 (lit "index.html")) p
          end
        else
          setFormEnabled true
            (showError
               (or_default (message data) (lit "Email ou mot de passe incorrect")) p)
    end.

End Login.

(** ** The specification's vocabulary *)
Module Spec.
Import Js Net Script.

(** *** Escaped text *)

(** No angle bracket occurs in [s]. *)
Definition no_angle_bracket (s : jsstring) : Prop :=
  Forall (fun c => c <> 60%N /\ c <> 62%N) s.

(** Every ampersand of [s] starts one of the four character references
    that text serialisation produces. *)
Fixpoint amps_are_references (s : jsstring) : bool :=
  match s with
  | [] => true
  | c :: r =>
      (if (c =? 38)%N then
         starts_with (lit "amp;") r || starts_with (lit "lt;") r
         || starts_with (lit "gt;") r || starts_with (lit "nbsp;") r
       else true)
      && amps_are_references r
  end.

(** Reading markup text back: the four character references are decoded,
    every other code unit is kept. *)
Fixpoint parse_text (s : jsstring) : jsstring :=
  match s with
  | [] => []
  | c :: r =>
      if (c =? 38)%N then
        match r with
        | c1 :: c2 :: c3 :: r3 =>
            if ((c1 =? 108) && (c2 =? 116) && (c3 =? 59))%N then 60%N :: parse_text r3
            else if ((c1 =? 103) && (c2 =? 116) && (c3 =? 59))%N then 62%N :: parse_text r3
            else
              match r3 with
              | c4 :: r4 =>
                  if ((c1 =? 97) && (c2 =? 109) && (c3 =? 112) && (c4 =? 59))%N
                  then 38%N :: parse_text r4
                  else
                    match r4 with
                    | c5 :: r5 =>
                        if ((c1 =? 110) && (c2 =? 98) && (c3 =? 115)
                            && (c4 =? 112) && (c5 =? 59))%N
                        then 160%N :: parse_text r5
                        else c :: parse_text r
                    | [] => c :: parse_text r
                    end
              | [] => c :: parse_text r
              end
        | _ => c :: parse_text r
        end
      else c :: parse_text r
  end.

(** *** Reading a JSON string back (the inverse of QuoteJSONString) *)

Definition unhex (c : N) : option N :=
  if ((48 <=? c) && (c <=? 57))%N then Some (c - 48)%N
  else if ((97 <=? c) && (c <=? 102))%N then Some (c - 87)%N
  else if ((65 <=? c) && (c <=? 70))%N then Some (c - 55)%N
  else None.

Definition unescape_simple (e : N) : option N :=
  if (e =? 98)%N then Some 8%N
  else if (e =? 116)%N then Some 9%N
  else if (e =? 110)%N then Some 10%N
  else if (e =? 102)%N then Some 12%N
  else if (e =? 114)%N then Some 13%N
  else if (e =? 34)%N then Some 34%N
  else if (e =? 92)%N then Some 92%N
  else if (e =? 47)%N then Some 47%N
  else None.

Fixpoint unquote_units (s : jsstring) : option jsstring :=
  match s with
  | [] => Some []
  | c :: r =>
      if (c =? 92)%N then
        match r with
        | e :: r1 =>
            if (e =? 117)%N then
              match r1 with
              | h1 :: h2 :: h3 :: h4 :: r2 =>
                  match unhex h1, unhex h2, unhex h3, unhex h4 with
                  | Some a, Some b, Some c', Some d =>
                      cons (4096 * a + 256 * b + 16 * c' + d)%N
                        <$> unquote_units r2
                  | _, _, _, _ => None
                  end
              | _ => None
              end
            else
              match unescape_simple e with
              | Some x => cons x <$> unquote_units r1
              | None => None
              end
        | [] => None
        end
      else if ((c =? 34) || (c <? 32))%N then None
      else cons c <$> unquote_units r
  end.

Definition parseJSONString (s : jsstring) : option jsstring :=
  match s with
  | q :: r =>
      match rev r with
      | q' :: b => if ((q =? 34) && (q' =? 34))%N then unquote_units (rev b) else None
      | [] => None
      end
  | [] => None
  end.

(** *** Lines and markers *)

(** Empty or made of white space only. *)
Definition blank (s : jsstring) : Prop := Forall (fun c => is_space c = true) s.

(** The lines of an answer that are not blank. *)
Definition nonblank_lines (answer : jsstring) : list jsstring :=
  List.filter (fun line => truthy (trim line)) (split_lines answer).

(** [line] starts with an ordinal marker, one or more digits and a period,
    and [rest] follows the marker. *)
Inductive ordinal_marker : jsstring -> jsstring -> Prop :=
  | ordinal_marker_intro ds rest :
      ds <> [] -> Forall (fun c => is_digit c = true) ds ->
      ordinal_marker (ds ++ 46%N :: rest) rest.

(** [line] starts with a bullet character, and [rest] follows it. *)
Inductive bullet_marker : jsstring -> jsstring -> Prop :=
  | bullet_marker_intro c rest :
      is_bullet c = true -> bullet_marker (c :: rest) rest.

Definition marked (marker : jsstring -> jsstring -> Prop) (line : jsstring) : Prop :=
  exists rest, marker line rest.

(** The text of the list item a line renders as: the marker and the white
    space around what follows it are stripped from a line that begins with
    the marker; a line without a marker is trimmed. *)
Inductive list_item (marker : jsstring -> jsstring -> Prop) :
    jsstring -> jsstring -> Prop :=
  | list_item_stripped line rest :
      marker line rest -> list_item marker line (trim rest)
  | list_item_unmarked line :
      ~ marked marker (trim line) -> list_item marker line (trim line).

(** A line whose marker comes after leading white space. *)
Definition indented_marker (marker : jsstring -> jsstring -> Prop)
    (line : jsstring) : Prop :=
  ~ marked marker line /\ marked marker (trim line).

Definition items_markup (texts : list jsstring) : jsstring :=
  concat (map (fun t => tpl "<li>" ++ escapeHtml (Some t) ++ tpl "</li>") texts).

Definition paragraphs_markup (lines : list jsstring) : jsstring :=
  concat (map (fun l => tpl "<p>" ++ escapeHtml (Some l) ++ tpl "</p>") lines).

(** The number of occurrences of [pat] in [s]. *)
Fixpoint occurrences (pat s : jsstring) : nat :=
  match s with
  | [] => if starts_with pat [] then 1 else 0
  | _ :: r => (if starts_with pat s then 1 else 0) + occurrences pat r
  end.

(** The number of list items of a piece of markup. *)
Definition list_item_count (html : jsstring) : nat :=
  occurrences (lit "<li>") html.

(** [line] starts with an ordinal or a bullet marker. *)
Definition starts_with_marker (line : jsstring) : bool :=
  test_ordinal line || test_bullet line.

(** The request that carries [question] for the holder of [token]. *)
Definition expected_request (p : Page) (token question : jsstring) : Request := {|
  req_url := API_URL p;
  req_method := lit "POST";
  req_headers :=
    [(lit "Content-Type", lit "application/json");
     (lit "Authorization", lit "Bearer " ++ token)];
  req_body := tpl "{'question':" ++ quoteJSONString question ++ lit "}"
|}.

(** Typing [question] into the input and submitting the form. *)
Definition submit (net : Request -> Outcome AskData) (question : jsstring)
    (p : Page) : Page :=
  handleSubmit net (set_questionInput_value question p).

(** The elements [createSourcesHtml] wrote, as the lookups find them when
    nothing ahead of them in the markup carries their classes or swallows
    them: the button, its arrow [▶], and the content without the class
    [visible]. *)
Definition written_elements : Elements := {|
  toggleButton := true;
  arrow_text := Some (lit "▶");
  sourceContent := Some false
|}.

(** The message of an answer with the markup [markup], without a click
    handler. *)
Definition plain_message (markup : jsstring) : Message := {|
  className := lit "message assistant-message";
  innerHTML := markup;
  listener := false;
  content_visible := None;
  arrow := None
|}.

(** The message of an answer with the markup [markup], its click handler
    on the elements [found]. *)
Definition toggle_message (markup : jsstring) (found : Elements) : Message := {|
  className := lit "message assistant-message";
  innerHTML := markup;
  listener := true;
  content_visible := sourceContent found;
  arrow := arrow_text found
|}.

(** The page a call left, whether it returned or threw. *)
Definition page_left (c : Completion) : Page :=
  match c with
  | Returned p => p
  | Threw p => p
  end.

(** The arrow that goes with the state of the content. *)
Definition arrow_for (visible : bool) : jsstring :=
  if visible then lit "▼" else lit "▶".

(** A click on the element of the [i]-th message that carries the click
    handler. *)
Definition click (i : nat) (p : Page) : Page :=
  set_chatMessages (alter clickToggle i (chatMessages p)) p.

(** The pages the user can bring about from the page [p0] as it is loaded:
    the script initialises, then questions are submitted and toggles are
    clicked, in any order and against any network. *)
Inductive reachable (p0 : Page) : Page -> Prop :=
  | reachable_loaded : reachable p0 (checkAuthentication p0)
  | reachable_submit p net question :
      reachable p0 p -> reachable p0 (submit net question p)
  | reachable_click p i :
      reachable p0 p -> reachable p0 (click i p).

(** *** The sources section *)

(** What the entry of a source is rendered from: the shape
    [{text, document, type}] of the interface, with the defaults that
    [createSourcesHtml] applies. *)
Record NormalizedSource := {
  n_text : option jsstring;
  n_document : jsstring;
  n_type : jsstring
}.

Definition normalizeSource (source : Source) : NormalizedSource :=
  match source with
  | OldFormat s =>
      {| n_text := Some s;
         n_document := lit "Unknown document";
         n_type := lit "procedure" |}
  | NewFormat o =>
      {| n_text := text o;
         n_document := or_default (document o) (lit "Unknown document");
         n_type := or_default (type o) (lit "procedure") |}
  end.

(** The entry of one normalized source. *)
Definition renderChunk (index : nat) (n : NormalizedSource) : jsstring :=
  tpl "
            <div class='source-chunk'>
                <div class='source-chunk-header'>
                    <span class='source-chunk-label'>Chunk "
  ++ number_to_string (Z.of_nat index + 1)
  ++ tpl "</span>
                    <span class='source-document-name'>📄 "
  ++ n_document n
  ++ tpl "</span>
                </div>
                <div class='source-chunk-text'>"
  ++ escapeHtml (n_text n)
  ++ tpl "</div>
            </div>
        ".

(** The sources section, from normalized sources only. *)
Definition renderSources (ns : list NormalizedSource) : jsstring :=
  tpl "
        <div class='source-chunks'>
            <button class='source-toggle'>
                <span class='arrow'>▶</span>
                View "
  ++ number_to_string (Z.of_nat (length ns))
  ++ tpl " source "
  ++ (if (length ns =? 1)%nat then lit "chunk" else lit "chunks")
  ++ tpl "
            </button>
            <div class='source-content'>
                "
  ++ concat (imap renderChunk ns)
  ++ tpl "
            </div>
        </div>
    ".

End Spec.

(** ** The vocabulary of the login claims *)
Module LoginSpec.
Import Js Net Login.

(** The request a filled-in form sends. *)
Definition sent_request (p : Page) : Request :=
  login_request (trim (emailInput_value p)) (passwordInput_value p)
    (hideError (setFormEnabled false p)).

(** The form is filled in: [handleLogin] gets as far as [fetch]. *)
Definition filled_in (p : Page) : Prop :=
  truthy (trim (emailInput_value p)) = true
  /\ truthy (passwordInput_value p) = true.

(** A response that reports a successful login: an OK status and a body
    [{success: true, session_token, user: {name, role}}]. *)
Definition successful_login (status : N) (data : LoginData)
    (token userName userRole : jsstring) : Prop :=
  ok status = true
  /\ success data = Some true
  /\ session_token data = Some token
  /\ user data = Some {| name := Some userName; role := Some userRole |}.

(** A response that reports a failed login: a status that is not OK, or a
    body whose [success] is not true. *)
Definition failed_login (status : N) (json : option LoginData) : Prop :=
  ok status = false
  \/ exists data, json = Some data /\ success_truthy data = false.

(** The message shown for a failed login: the one of the body when it gives
    one, otherwise a fixed one. *)
Definition failure_message (json : option LoginData) : jsstring :=
  match json with
  | Some data =>
      match message data with
      | Some (c :: m) => c :: m
      | _ => lit "Email ou mot de passe incorrect"
      end
  | None => lit "Erreur de connexion. Veuillez réessayer."
  end.

End LoginSpec.

(** ** Sample pages and responses *)
Module Sample.
Import Js Net.

(** The chat page as it is loaded for a logged-in user. *)
Definition chat_page : Script.Page := {|
  Script.origin := lit "http://localhost:8000";
  Script.localStorage :=
    <["stb_user_role" := lit "agent"]>
      (<["stb_user_name" := lit "Amira"]>
         (<["stb_session_token" := lit "tok-1"]> ∅));
  Script.sessionToken := Some (lit "tok-1");
  Script.currentUser := Some (Some (lit "Amira"), Some (lit "agent"));
  Script.location_href := None;
  Script.chatMessages := [];
  Script.questionInput_value := [];
  Script.questionInput_disabled := false;
  Script.questionInput_focused := false;
  Script.sendButton_disabled := false;
  Script.loadingIndicator_visible := false;
  Script.timers := [];
  Script.fetched := [];
  Script.querySelector := fun _ => Spec.written_elements
|}.

Definition ask_data : Script.AskData := {|
  Script.answer := Some (lit "1. ID card
2. Proof of address");
  Script.confidence := Some 87%Z;
  Script.confidence_label := Some (lit "high");
  Script.sources :=
    Some [Script.NewFormat
            {| Script.text := Some (lit "Bring an ID card & a proof of address.");
               Script.document := Some (lit "open_account_procedure.txt");
               Script.type := Some (lit "procedure") |};
          Script.OldFormat (lit "a <b> chunk")]
|}.

(** A body whose label opens a comment that nothing closes. *)
Definition comment_data : Script.AskData := {|
  Script.answer := Some (lit "ID card");
  Script.confidence := Some 87%Z;
  Script.confidence_label := Some (lit "<!--");
  Script.sources := Some [Script.OldFormat (lit "Bring an ID card.")]
|}.

(** A body whose label holds a button of the class [source-toggle], with
    no arrow inside. *)
Definition button_data : Script.AskData := {|
  Script.answer := Some (lit "ID card");
  Script.confidence := Some 87%Z;
  Script.confidence_label := Some (tpl "<button class='source-toggle'>x</button>");
  Script.sources := Some [Script.OldFormat (lit "Bring an ID card.")]
|}.

(** Lookups as a browser answers them for the bodies above: the comment
    swallows the sources section, so no [.source-toggle] is found; the
    button of the label is met before the one [createSourcesHtml] wrote. *)
Definition parse (markup : jsstring) : Script.Elements :=
  if includes (lit "<!--") markup then
    {| Script.toggleButton := false;
       Script.arrow_text := None;
       Script.sourceContent := None |}
  else if includes (tpl "(<button class='source-toggle'>x</button>)") markup then
    {| Script.toggleButton := true;
       Script.arrow_text := None;
       Script.sourceContent := Some false |}
  else Spec.written_elements.

(** The chat page with these lookups. *)
Definition parsed_page : Script.Page := {|
  Script.origin := lit "http://localhost:8000";
  Script.localStorage := <["stb_session_token" := lit "tok-1"]> ∅;
  Script.sessionToken := Some (lit "tok-1");
  Script.currentUser := Some (None, None);
  Script.location_href := None;
  Script.chatMessages := [];
  Script.questionInput_value := [];
  Script.questionInput_disabled := false;
  Script.questionInput_focused := false;
  Script.sendButton_disabled := false;
  Script.loadingIndicator_visible := false;
  Script.timers := [];
  Script.fetched := [];
  Script.querySelector := parse
|}.

(** A server that rejects every token. *)
Definition net_401 (_ : Request) : Outcome Script.AskData :=
  Response 401 None.

(** A server that answers every question with [ask_data]. *)
Definition net_200 (_ : Request) : Outcome Script.AskData :=
  Response 200 (Some ask_data).

(** The login page as it is loaded, the form filled in. *)
Definition login_page : Login.Page := {|
  Login.origin := lit "http://localhost:8000";
  Login.localStorage := ∅;
  Login.location_href := None;
  Login.emailInput_value := lit " amira@stb.tn ";
  Login.passwordInput_value := lit "secret";
  Login.emailInput_disabled := false;
  Login.passwordInput_disabled := false;
  Login.loginButton_disabled := false;
  Login.loginButton_text := lit "Se connecter";
  Login.errorMessage_textContent := [];
  Login.errorMessage_visible := false;
  Login.errorMessage_style := None;
  Login.timers := [];
  Login.fetched := []
|}.

Definition login_ok_data : Login.LoginData := {|
  Login.success := Some true;
  Login.session_token := Some (lit "tok-1");
  Login.user := Some {| Login.name := Some (lit "Amira");
                        Login.role := Some (lit "agent") |};
  Login.message := None
|}.

Definition login_ko_data : Login.LoginData := {|
  Login.success := Some false;
  Login.session_token := None;
  Login.user := None;
  Login.message := Some (lit "Compte inconnu")
|}.

Definition net_login_ok (_ : Request) : Outcome Login.LoginData :=
  Response 200 (Some login_ok_data).

Definition net_login_ko (_ : Request) : Outcome Login.LoginData :=
  Response 401 (Some login_ko_data).

End Sample.

(** ** The vocabulary of the properties beyond the claims *)
Module Flow.
Import Js Net.

(** The three keys the scripts use in [localStorage]. *)
Definition session_key (key : string) : Prop :=
  key = "stb_session_token" \/ key = "stb_user_name" \/ key = "stb_user_role".

(** The page [handleLogin] passes to [fetch]: the form is disabled, the
    error hidden and the request recorded. *)
Definition login_pending (p : Login.Page) : Login.Page :=
  Login.set_fetched (Login.fetched p ++ [LoginSpec.sent_request p])
    (Login.hideError (Login.setFormEnabled false p)).

(** The form is enabled and shows an error. *)
Definition login_form_open (p : Login.Page) : Prop :=
  Login.emailInput_disabled p = false
  /\ Login.passwordInput_disabled p = false
  /\ Login.loginButton_disabled p = false
  /\ Login.loginButton_text p = lit "Se connecter"
  /\ Login.errorMessage_visible p = true
  /\ (Login.color <$> Login.errorMessage_style p) = Some (lit "#ef4444").

(** The form is disabled and shows the success text. *)
Definition login_form_closed (p : Login.Page) : Prop :=
  Login.emailInput_disabled p = true
  /\ Login.passwordInput_disabled p = true
  /\ Login.loginButton_disabled p = true
  /\ Login.loginButton_text p = lit "Connexion..."
  /\ Login.errorMessage_visible p = true
  /\ Login.errorMessage_textContent p = lit "Connexion réussie! Redirection..."
  /\ (Login.color <$> Login.errorMessage_style p) = Some (lit "#10b981").

(** The ways a question fails other than by a 401: the request is
    rejected, the status is not OK, the body is not JSON, or the body has
    no answer. *)
Definition ask_failure (o : Outcome Script.AskData) : Prop :=
  o = NetworkError
  \/ exists status json,
       o = Response status json /\ status <> 401%N
       /\ (ok status = false \/ json = None
           \/ exists data, json = Some data /\ Script.answer data = None).

(** The page [handleSubmit] passes to [sendQuestion]: the question is in
    the chat, the input is empty and disabled, the loading indicator
    shows. *)
Definition ask_pending (p : Script.Page) : Script.Page :=
  Script.showLoading
    (Script.setInputEnabled false
       (Script.set_questionInput_value []
          (Script.addUserMessage (trim (Script.questionInput_value p)) p))).

(** The request a page sends for the question typed in its input. *)
Definition typed_request (p : Script.Page) : Request :=
  Script.ask_request (trim (Script.questionInput_value p)) p.

(** The arrow of a message agrees with the state of its content; where
    the handler has no content or no arrow to work on, there is nothing to
    agree. *)
Definition arrow_agrees (m : Script.Message) : Prop :=
  match Script.content_visible m, Script.arrow m with
  | Some visible, Some text => text = Spec.arrow_for visible
  | _, _ => True
  end.

(** The handler of a message works on the elements a lookup in its markup
    finds, in the state the markup gives them: no click has changed
    them. *)
Definition as_found (p : Script.Page) (m : Script.Message) : Prop :=
  Script.listener m = true
  /\ Script.content_visible m
     = Script.sourceContent (Script.querySelector p (Script.innerHTML m))
  /\ Script.arrow m
     = Script.arrow_text (Script.querySelector p (Script.innerHTML m)).

(** A message without a click handler. *)
Definition inert (m : Script.Message) : Prop :=
  Script.listener m = false
  /\ Script.content_visible m = None
  /\ Script.arrow m = None.

(** A message as it is appended: without a click handler, or with a
    handler on elements no click has changed. *)
Definition appended (p : Script.Page) (m : Script.Message) : Prop :=
  inert m \/ as_found p m.

(** A message kept up by its handler: it is as it was appended, or a click
    has set its arrow by the state of its content. *)
Definition settled (p : Script.Page) (m : Script.Message) : Prop :=
  appended p m \/ (Script.listener m = true /\ arrow_agrees m).

(** The text of the list item a line renders as, in full: a line that
    begins with the marker loses it, any other line is trimmed and keeps
    what it has, a marker after leading white space included. *)
Definition rendered_item (marker : jsstring -> jsstring -> Prop)
    (line text : jsstring) : Prop :=
  (exists rest, marker line rest /\ text = trim rest)
  \/ (~ Spec.marked marker line /\ text = trim line).

(** The markup of an answer: one ordered list when some non-blank line,
    trimmed, starts with an ordinal marker; otherwise one unordered list
    when some non-blank line, trimmed, starts with a bullet; otherwise
    paragraphs.  The items and the paragraphs are the non-blank lines of
    the answer, in order. *)
Definition formatted (answer html : jsstring) : Prop :=
  (Exists (fun line => Spec.marked Spec.ordinal_marker (trim line))
     (Spec.nonblank_lines answer)
   /\ exists texts,
        Forall2 (rendered_item Spec.ordinal_marker)
          (Spec.nonblank_lines answer) texts
        /\ html = tpl "<ol>" ++ Spec.items_markup texts ++ tpl "</ol>")
  \/ (~ Exists (fun line => Spec.marked Spec.ordinal_marker (trim line))
          (Spec.nonblank_lines answer)
      /\ Exists (fun line => Spec.marked Spec.bullet_marker (trim line))
           (Spec.nonblank_lines answer)
      /\ exists texts,
           Forall2 (rendered_item Spec.bullet_marker)
             (Spec.nonblank_lines answer) texts
           /\ html = tpl "<ul>" ++ Spec.items_markup texts ++ tpl "</ul>")
  \/ (~ Exists (fun line => Spec.marked Spec.ordinal_marker (trim line))
          (Spec.nonblank_lines answer)
      /\ ~ Exists (fun line => Spec.marked Spec.bullet_marker (trim line))
            (Spec.nonblank_lines answer)
      /\ html = Spec.paragraphs_markup (Spec.nonblank_lines answer)).

(** Text that escaping leaves as it is: no ampersand, no angle bracket and
    no no-break space. *)
Definition plain_text (s : jsstring) : Prop :=
  Forall (fun c => c <> 38%N /\ c <> 60%N /\ c <> 62%N /\ c <> 160%N) s.

(** The text of a source, whichever format it has. *)
Definition source_text (source : Script.Source) : option jsstring :=
  match source with
  | Script.OldFormat s => Some s
  | Script.NewFormat o => Script.text o
  end.

(** The document name a source is shown with. *)
Definition shown_document (source : Script.Source) : jsstring :=
  or_default (Script.source_document source) (lit "Unknown document").

(** A body that reports success and has no [user]. *)
Definition login_no_user_data : Login.LoginData := {|
  Login.success := Some true;
  Login.session_token := Some (lit "tok-1");
  Login.user := None;
  Login.message := None
|}.

Definition net_login_no_user (_ : Request) : Outcome Login.LoginData :=
  Response 200 (Some login_no_user_data).

End Flow.

(** * Properties *)

(** ** Strings *)
Section Strings.
Import Js.

Lemma drop_spaces_nil_iff (s : jsstring) :
  drop_spaces s = [] <-> Forall (fun c => is_space c = true) s.
Proof.
  induction s as [|c s IH]; simpl.
  - split; auto.
  - destruct (is_space c) eqn:E.
    + rewrite IH. split; [intros H; constructor; auto | inversion 1; auto].
    + split; [discriminate | inversion 1; congruence].
Qed.

Lemma drop_spaces_head (s : jsstring) c r :
  drop_spaces s = c :: r -> is_space c = false.
Proof.
  induction s as [|d s IH]; simpl; [discriminate|].
  destruct (is_space d) eqn:E; [auto | intros [= <- <-]; exact E].
Qed.

(** A string trims to the empty string exactly when it is empty or made
    of white space only. *)
Lemma trim_blank (s : jsstring) :
  truthy (trim s) = false <-> Forall (fun c => is_space c = true) s.
Proof.
  unfold trim, trimEnd, trimStart.
  split.
  - intros H.
    assert (Hn : drop_spaces (rev (drop_spaces s)) = []).
    { destruct (drop_spaces (rev (drop_spaces s))) as [|x l] eqn:E; [easy|].
      exfalso. simpl in H. destruct (rev l); discriminate. }
    apply drop_spaces_nil_iff in Hn.
    destruct (drop_spaces s) as [|c r] eqn:E.
    + now apply drop_spaces_nil_iff.
    + exfalso. pose proof (drop_spaces_head _ _ _ E) as Hc.
      rewrite Forall_forall in Hn.
      specialize (Hn c). rewrite Hn in Hc; [discriminate|].
      apply list_elem_of_In, in_rev. rewrite rev_involutive. left; reflexivity.
  - intros H. apply drop_spaces_nil_iff in H. now rewrite H.
Qed.

End Strings.

(** ** The chat page: submitting a question *)
Section Chat.
Import Js Net Script Spec.

Local Arguments lit : simpl never.
Local Arguments tpl : simpl never.
Local Arguments trim : simpl never.
Local Arguments quoteJSONString : simpl never.
Local Arguments API_URL : simpl never.

(** A blank question leaves the page as it is. *)
Lemma handleSubmit_blank net (p : Page) :
  blank (questionInput_value p) -> handleSubmit net p = p.
Proof.
  intros H. apply trim_blank in H. unfold handleSubmit. now rewrite H.
Qed.

(** The page after a 401: it is built from the page before and the
    request alone. *)
Lemma sendQuestion_401 net question (p : Page) json :
  net (ask_request question p) = Response 401 json ->
  sendQuestion net question p =
    set_location_href (Some (lit "login.html"))
      (set_localStorage ∅
         (set_fetched (fetched p ++ [ask_request question p]) p)).
Proof. intros H. unfold sendQuestion. now rewrite H. Qed.

(** C1. When the response to the [/ask] request has status 401, the
    client clears the whole of [localStorage] (session token and user data
    with it) and navigates to the login page; no message is added to the
    chat, and the resulting page does not depend on the body of the
    response. *)
Theorem C1_unauthorized_clears_session net question (p : Page) json :
  net (ask_request question p) = Response 401 json ->
  localStorage (sendQuestion net question p) = ∅
  /\ location_href (sendQuestion net question p) = Some (lit "login.html")
  /\ chatMessages (sendQuestion net question p) = chatMessages p
  /\ sendQuestion net question p =
       sendQuestion (fun _ => Response 401 None) question p.
Proof.
  intros H.
  rewrite (sendQuestion_401 net question p json H).
  rewrite (sendQuestion_401 (fun _ => Response 401 None) question p None eq_refl).
  repeat split.
Qed.

Lemma C1_unauthorized_clears_session_witness :
  Sample.net_401 (ask_request (lit "Quels documents ?") Sample.chat_page)
    = Response 401 None
  /\ localStorage
       (sendQuestion Sample.net_401 (lit "Quels documents ?") Sample.chat_page) = ∅.
Proof.
  split; [reflexivity|].
  apply (C1_unauthorized_clears_session Sample.net_401
           (lit "Quels documents ?") Sample.chat_page None).
  reflexivity.
Defined.

(** C4, as the claim states it, fails: a blank question sends no request,
    but nothing is surfaced either, the page stays exactly as it was. *)
Lemma C4_blank_question_not_surfaced :
  ~ (forall net (p : Page),
       blank (questionInput_value p) ->
       fetched (handleSubmit net p) = fetched p /\ handleSubmit net p <> p).
Proof.
  intros H.
  destruct (H Sample.net_200
              (set_questionInput_value (lit "  ") Sample.chat_page)) as [_ Hne].
  - repeat constructor.
  - apply Hne, handleSubmit_blank. repeat constructor.
Qed.

(** C4 (amended). For every question that is empty or made of white space
    only, submission is rejected by the handler before anything else
    happens: no [/ask] request is sent, no message is added to the chat and
    the page is left exactly as it was (no error is shown). *)
Theorem C4_blank_question_rejected net (p : Page) :
  blank (questionInput_value p) ->
  handleSubmit net p = p
  /\ fetched (handleSubmit net p) = fetched p
  /\ chatMessages (handleSubmit net p) = chatMessages p.
Proof.
  intros H. rewrite (handleSubmit_blank net p H). repeat split.
Qed.

Lemma C4_blank_question_rejected_witness :
  blank (questionInput_value
           (set_questionInput_value (lit "  ") Sample.chat_page))
  /\ handleSubmit Sample.net_200
       (set_questionInput_value (lit "  ") Sample.chat_page)
     = set_questionInput_value (lit "  ") Sample.chat_page.
Proof.
  split; [repeat constructor|].
  apply (C4_blank_question_rejected Sample.net_200
           (set_questionInput_value (lit "  ") Sample.chat_page)).
  repeat constructor.
Defined.

End Chat.

(** ** The login page *)
Section LoginPage.
Import Js Net Login LoginSpec.

Local Arguments lit : simpl never.
Local Arguments tpl : simpl never.
Local Arguments trim : simpl never.
Local Arguments quoteJSONString : simpl never.
Local Arguments API_URL : simpl never.

(** C6. For every successful login response, the handler stores the
    session token, the user name and the user role under their three keys,
    changes no other key of the storage, and schedules the navigation to
    the main page, which happens when that timer fires. *)
Theorem C6_successful_login_stores_session net (p : Page) status data
    token userName userRole :
  filled_in p ->
  net (sent_request p) = Response status (Some data) ->
  successful_login status data token userName userRole ->
  localStorage (handleLogin net p) =
    <["stb_user_role" := userRole]>
      (<["stb_user_name" := userName]>
         (<["stb_session_token" := token]> (localStorage p)))
  /\ (forall key, key <> "stb_session_token" -> key <> "stb_user_name" ->
        key <> "stb_user_role" ->
        localStorage (handleLogin net p) !! key = localStorage p !! key)
  /\ timers (handleLogin net p) = timers p ++ [Navigate 1000 (lit "index.html")]
  /\ location_href (fire (Navigate 1000 (lit "index.html")) (handleLogin net p))
       = Some (lit "index.html").
Proof.
  intros [He Hp] Hnet (Hok & Hs & Ht & Hu).
  unfold sent_request in Hnet.
  assert (E : handleLogin net p =
    setTimeout (Navigate 1000 (lit "index.html"))
      (showSuccess (lit "Connexion réussie! Redirection...")
        (setItem "stb_user_role" userRole
          (setItem "stb_user_name" userName
            (setItem "stb_session_token" token
              (set_fetched (fetched p ++ [sent_request p])
                 (hideError (setFormEnabled false p)))))))).
  { unfold handleLogin. rewrite He, Hp. cbn [negb orb].
    rewrite Hnet. unfold success_truthy. rewrite Hok, Hs, Ht, Hu.
    reflexivity. }
  rewrite E. split; [reflexivity|]. split; [|split; reflexivity].
  intros key H1 H2 H3. cbn.
  now rewrite !lookup_insert_ne by congruence.
Qed.

Lemma C6_successful_login_stores_session_witness :
  localStorage (handleLogin Sample.net_login_ok Sample.login_page) =
    <["stb_user_role" := lit "agent"]>
      (<["stb_user_name" := lit "Amira"]>
         (<["stb_session_token" := lit "tok-1"]> ∅)).
Proof.
  apply (C6_successful_login_stores_session Sample.net_login_ok
           Sample.login_page 200%N Sample.login_ok_data
           (lit "tok-1") (lit "Amira") (lit "agent")).
  - split; reflexivity.
  - reflexivity.
  - split; [reflexivity|]. split; [reflexivity|]. split; reflexivity.
Defined.

(** C7. For every failed login response, the handler leaves the storage
    unchanged, shows the message of the response, or a fixed message when
    the response gives none, enables the form again, and neither
    navigates nor schedules a navigation. *)
Theorem C7_failed_login_shows_message net (p : Page) status json :
  filled_in p ->
  net (sent_request p) = Response status json ->
  failed_login status json ->
  localStorage (handleLogin net p) = localStorage p
  /\ errorMessage_textContent (handleLogin net p) = failure_message json
  /\ errorMessage_visible (handleLogin net p) = true
  /\ emailInput_disabled (handleLogin net p) = false
  /\ passwordInput_disabled (handleLogin net p) = false
  /\ loginButton_disabled (handleLogin net p) = false
  /\ loginButton_text (handleLogin net p) = lit "Se connecter"
  /\ location_href (handleLogin net p) = location_href p
  /\ timers (handleLogin net p) = timers p.
Proof.
  intros [He Hp] Hnet Hfail.
  unfold sent_request in Hnet.
  unfold handleLogin. rewrite He, Hp. cbn [negb orb]. rewrite Hnet.
  destruct json as [data|].
  - assert (Hb : ok status && success_truthy data = false).
    { destruct Hfail as [H | (d & [= <-] & H)]; rewrite H;
        [reflexivity | apply andb_false_r]. }
    rewrite Hb. unfold failure_message, or_default. cbn.
    repeat (split; [reflexivity|]). split; [|repeat split].
    destruct (message data) as [[|c m]|]; reflexivity.
  - unfold failure_message. cbn. repeat split.
Qed.

Lemma C7_failed_login_shows_message_witness :
  localStorage (handleLogin Sample.net_login_ko Sample.login_page) = ∅
  /\ errorMessage_textContent (handleLogin Sample.net_login_ko Sample.login_page)
     = lit "Compte inconnu".
Proof.
  assert (H := C7_failed_login_shows_message Sample.net_login_ko
                 Sample.login_page 401%N (Some Sample.login_ko_data)).
  destruct H as (H1 & H2 & _).
  - split; reflexivity.
  - reflexivity.
  - left; reflexivity.
  - split; [exact H1 | exact H2].
Defined.

End LoginPage.

(** ** Escaped text *)
Section Escaping.
Import Js Net Script Spec.

Lemma serialize_text_cons c (s : jsstring) :
  serialize_text (c :: s) = escape_unit c ++ serialize_text s.
Proof. reflexivity. Qed.

(** The five shapes of [escape_unit]. *)
Lemma escape_unit_cases (c : N) :
  (c = 38%N /\ escape_unit c = lit "&amp;")
  \/ (c = 160%N /\ escape_unit c = lit "&nbsp;")
  \/ (c = 60%N /\ escape_unit c = lit "&lt;")
  \/ (c = 62%N /\ escape_unit c = lit "&gt;")
  \/ (c <> 38%N /\ c <> 60%N /\ c <> 62%N /\ c <> 160%N /\ escape_unit c = [c]).
Proof.
  unfold escape_unit.
  destruct (N.eqb_spec c 38); [left; split; [assumption | reflexivity]|].
  destruct (N.eqb_spec c 160); [right; left; split; [assumption | reflexivity]|].
  destruct (N.eqb_spec c 60); [right; right; left; split; [assumption | reflexivity]|].
  destruct (N.eqb_spec c 62);
    [right; right; right; left; split; [assumption | reflexivity]|].
  right; right; right; right. repeat split; assumption.
Qed.

Lemma serialize_text_no_angle_bracket (s : jsstring) :
  no_angle_bracket (serialize_text s).
Proof.
  unfold no_angle_bracket.
  induction s as [|c s IH]; [constructor|].
  rewrite serialize_text_cons. apply Forall_app. split; [|exact IH].
  destruct (escape_unit_cases c)
    as [[_ ->]|[[_ ->]|[[_ ->]|[[_ ->]|(_ & H1 & H2 & _ & ->)]]]];
    repeat constructor; try discriminate; assumption.
Qed.

Lemma serialize_text_amps (s : jsstring) :
  amps_are_references (serialize_text s) = true.
Proof.
  induction s as [|c s IH]; [reflexivity|].
  rewrite serialize_text_cons.
  destruct (escape_unit_cases c)
    as [[_ ->]|[[_ ->]|[[_ ->]|[[_ ->]|(H & _ & _ & _ & ->)]]]];
    try exact IH.
  cbn [app amps_are_references].
  apply N.eqb_neq in H. now rewrite H, IH.
Qed.

Lemma parse_serialize_text (s : jsstring) :
  parse_text (serialize_text s) = s.
Proof.
  induction s as [|c s IH]; [reflexivity|].
  rewrite serialize_text_cons.
  revert IH. generalize (serialize_text s). intros t IH.
  destruct (escape_unit_cases c)
    as [[-> ->]|[[-> ->]|[[-> ->]|[[-> ->]|(H & _ & _ & _ & ->)]]]].
  - change (lit "&amp;") with [38; 97; 109; 112; 59]%N. cbn. now rewrite IH.
  - change (lit "&nbsp;") with [38; 110; 98; 115; 112; 59]%N. cbn. now rewrite IH.
  - change (lit "&lt;") with [38; 108; 116; 59]%N. cbn. now rewrite IH.
  - change (lit "&gt;") with [38; 103; 116; 59]%N. cbn. now rewrite IH.
  - cbn [app parse_text].
    apply N.eqb_neq in H. now rewrite H, IH.
Qed.

(** What [escapeHtml] returns: no angle bracket, ampersands only as the
    start of a character reference, and the text can be read back. *)
Lemma escapeHtml_escaped (text : option jsstring) :
  no_angle_bracket (escapeHtml text)
  /\ amps_are_references (escapeHtml text) = true
  /\ parse_text (escapeHtml text) = textContent_of text.
Proof.
  unfold escapeHtml. split; [apply serialize_text_no_angle_bracket|].
  split; [apply serialize_text_amps | apply parse_serialize_text].
Qed.

End Escaping.

(** ** Answer formatting *)
Section Formatting.
Import Js Net Script Spec.

Local Arguments lit : simpl never.
Local Arguments tpl : simpl never.
Local Arguments trim : simpl never.

Lemma skip_digits_split (s : jsstring) :
  exists ds, s = ds ++ skip_digits s /\ Forall (fun c => is_digit c = true) ds.
Proof.
  induction s as [|c s (ds & E & F)]; [exists []; split; [reflexivity | constructor]|].
  simpl. destruct (is_digit c) eqn:D.
  - exists (c :: ds). split; [simpl; congruence | constructor; assumption].
  - exists []. split; [reflexivity | constructor].
Qed.

Lemma skip_digits_app (ds rest : jsstring) :
  Forall (fun c => is_digit c = true) ds ->
  skip_digits (ds ++ 46%N :: rest) = 46%N :: rest.
Proof.
  induction 1 as [|c ds Hc _ IH]; [reflexivity|].
  simpl. now rewrite Hc.
Qed.

(** The matcher of [/^\d+\./] finds an ordinal marker, and nothing else. *)
Lemma match_ordinal_spec (s rest : jsstring) :
  match_ordinal s = Some rest <-> ordinal_marker s rest.
Proof.
  split.
  - unfold match_ordinal. destruct s as [|c r]; [discriminate|].
    destruct (is_digit c) eqn:D; [|discriminate].
    destruct (skip_digits_split r) as (ds & E & F).
    destruct (skip_digits r) as [|d r'] eqn:S; [discriminate|].
    destruct (N.eqb_spec d 46) as [->|]; [|discriminate].
    intros [= <-]. rewrite E.
    apply (ordinal_marker_intro (c :: ds) r'); [discriminate|].
    constructor; assumption.
  - intros [ds r Hne F]. destruct F as [|c ds Hc F]; [congruence|].
    unfold match_ordinal. simpl. rewrite Hc.
    now rewrite (skip_digits_app ds r F).
Qed.

Lemma test_ordinal_spec (s : jsstring) :
  test_ordinal s = true <-> marked ordinal_marker s.
Proof.
  unfold test_ordinal, marked. split.
  - destruct (match_ordinal s) as [rest|] eqn:E; [|discriminate].
    intros _. exists rest. now apply match_ordinal_spec.
  - intros (rest & H). apply match_ordinal_spec in H. now rewrite H.
Qed.

(** The matcher of [/^[•\-\*]/] finds a bullet marker, and nothing else. *)
Lemma match_bullet_spec (s rest : jsstring) :
  match_bullet s = Some rest <-> bullet_marker s rest.
Proof.
  split.
  - unfold match_bullet. destruct s as [|c r]; [discriminate|].
    destruct (is_bullet c) eqn:B; [|discriminate].
    intros [= <-]. now constructor.
  - intros [c r B]. unfold match_bullet. now rewrite B.
Qed.

Lemma test_bullet_spec (s : jsstring) :
  test_bullet s = true <-> marked bullet_marker s.
Proof.
  unfold test_bullet, marked. split.
  - destruct (match_bullet s) as [rest|] eqn:E; [|discriminate].
    intros _. exists rest. now apply match_bullet_spec.
  - intros (rest & H). apply match_bullet_spec in H. now rewrite H.
Qed.

Lemma drop_spaces_idem (s : jsstring) :
  drop_spaces (drop_spaces s) = drop_spaces s.
Proof.
  induction s as [|c s IH]; [reflexivity|].
  simpl. destruct (is_space c) eqn:E; [exact IH|]. simpl. now rewrite E.
Qed.

Lemma trim_drop_spaces (s : jsstring) : trim (drop_spaces s) = trim s.
Proof. unfold trim, trimStart. now rewrite drop_spaces_idem. Qed.

(** What a line becomes as a list item, for a marker given by its matcher
    and its replacement. *)
Lemma list_item_of_replace (marker : jsstring -> jsstring -> Prop)
    (matcher : jsstring -> option jsstring) (line : jsstring) :
  (forall s rest, matcher s = Some rest <-> marker s rest) ->
  indented_marker marker line
  \/ list_item marker line
       (trim (match matcher line with
              | Some r => drop_spaces r
              | None => line
              end)).
Proof.
  intros Hspec.
  destruct (matcher line) as [rest|] eqn:E.
  - right. rewrite trim_drop_spaces. apply list_item_stripped. now apply Hspec.
  - assert (Hn : ~ marked marker line).
    { intros (rest & H). apply Hspec in H. congruence. }
    destruct (matcher (trim line)) as [rest|] eqn:E'.
    + left. split; [exact Hn|]. exists rest. now apply Hspec.
    + right. apply list_item_unmarked.
      intros (rest & H). apply Hspec in H. congruence.
Qed.

Lemma existsb_marked (test : jsstring -> bool)
    (marker : jsstring -> jsstring -> Prop) (lines : list jsstring) :
  (forall s, test s = true <-> marked marker s) ->
  existsb (fun line => test (trim line)) lines = true
  <-> Exists (fun line => marked marker (trim line)) lines.
Proof.
  intros Hspec. rewrite existsb_exists, Exists_exists. split.
  - intros (l & Hin & H). exists l. split; [now apply list_elem_of_In|].
    now apply Hspec.
  - intros (l & Hin & H). exists l. split; [now apply list_elem_of_In|].
    now apply Hspec.
Qed.

(** The lines that are rendered are the lines of the answer that are not
    blank. *)
Lemma nonblank_lines_spec (answer line : jsstring) :
  In line (nonblank_lines answer)
  <-> In line (split_lines answer) /\ ~ blank line.
Proof.
  unfold nonblank_lines. rewrite filter_In.
  split; intros [H1 H2]; (split; [exact H1|]).
  - intros Hb. apply trim_blank in Hb. congruence.
  - destruct (truthy (trim line)) eqn:E; [reflexivity|].
    exfalso. apply H2. now apply trim_blank.
Qed.

(** [split_lines] cuts at the line feeds and loses nothing. *)
Lemma split_lines_join (s : jsstring) :
  exists l ls, split_lines s = l :: ls
    /\ s = l ++ flat_map (fun x => 10%N :: x) ls
    /\ Forall (Forall (fun c => c <> 10%N)) (l :: ls).
Proof.
  induction s as [|c s (l & ls & E & J & F)].
  - exists [], []. repeat split. repeat constructor.
  - simpl. destruct (N.eqb_spec c 10) as [->|Hc].
    + exists [], (l :: ls). rewrite E. split; [reflexivity|].
      split; [simpl; congruence|]. constructor; [constructor | exact F].
    + rewrite E. exists (c :: l), ls. split; [reflexivity|].
      split; [simpl; congruence|].
      inversion F; subst. constructor; [constructor; assumption | assumption].
Qed.

(** [formatAnswer] returns for every string. *)
Lemma formatAnswer_total (answer : jsstring) :
  exists html, formatAnswer (Some answer) = Some html.
Proof.
  unfold formatAnswer.
  destruct (existsb _ _); [eauto|]. destruct (existsb _ _); eauto.
Qed.

Lemma items_of_replace (marker : jsstring -> jsstring -> Prop)
    (matcher : jsstring -> option jsstring) (lines : list jsstring) :
  (forall s rest, matcher s = Some rest <-> marker s rest) ->
  exists texts,
    Forall2 (fun line text =>
               indented_marker marker line \/ list_item marker line text)
      lines texts
    /\ concat (map (fun line =>
          let text := trim (match matcher line with
                            | Some r => drop_spaces r
                            | None => line
                            end) in
          tpl "<li>" ++ escapeHtml (Some text) ++ tpl "</li>") lines)
       = items_markup texts.
Proof.
  intros Hspec.
  exists (map (fun line => trim (match matcher line with
                                 | Some r => drop_spaces r
                                 | None => line
                                 end)) lines).
  split.
  - induction lines as [|l ls IH]; constructor; [|exact IH].
    now apply list_item_of_replace.
  - unfold items_markup. now rewrite map_map.
Qed.

(** C2 (amended). The format is chosen once for the whole answer, by rules
    in priority order over its non-blank lines.  If some line, trimmed,
    starts with digits followed by a period, every non-blank line renders
    as an item of one ordered list.  Otherwise, if some line, trimmed,
    starts with a bullet character, every non-blank line renders as an
    item of one unordered list.  Otherwise every non-blank line renders as
    a paragraph.  In a list, a line that begins with the marker renders
    without the marker and trimmed, and a line that has no marker renders
    trimmed; nothing is said of a line whose marker comes after leading
    white space. *)
Theorem C2_format_chosen_per_answer (answer : jsstring) :
  (Exists (fun line => marked ordinal_marker (trim line)) (nonblank_lines answer)
   /\ exists texts,
        Forall2 (fun line text =>
                   indented_marker ordinal_marker line
                   \/ list_item ordinal_marker line text)
          (nonblank_lines answer) texts
        /\ formatAnswer (Some answer)
           = Some (tpl "<ol>" ++ items_markup texts ++ tpl "</ol>"))
  \/ (~ Exists (fun line => marked ordinal_marker (trim line))
          (nonblank_lines answer)
      /\ Exists (fun line => marked bullet_marker (trim line))
           (nonblank_lines answer)
      /\ exists texts,
           Forall2 (fun line text =>
                      indented_marker bullet_marker line
                      \/ list_item bullet_marker line text)
             (nonblank_lines answer) texts
           /\ formatAnswer (Some answer)
              = Some (tpl "<ul>" ++ items_markup texts ++ tpl "</ul>"))
  \/ (~ Exists (fun line => marked ordinal_marker (trim line))
          (nonblank_lines answer)
      /\ ~ Exists (fun line => marked bullet_marker (trim line))
            (nonblank_lines answer)
      /\ formatAnswer (Some answer)
         = Some (paragraphs_markup (nonblank_lines answer))).
Proof.
  unfold formatAnswer. fold (nonblank_lines answer).
  pose proof (existsb_marked test_ordinal ordinal_marker
                (nonblank_lines answer) test_ordinal_spec) as Ho.
  pose proof (existsb_marked test_bullet bullet_marker
                (nonblank_lines answer) test_bullet_spec) as Hb.
  destruct (existsb (fun line => test_ordinal (trim line)) (nonblank_lines answer)).
  - left. split; [now apply Ho|].
    destruct (items_of_replace ordinal_marker match_ordinal
                (nonblank_lines answer) match_ordinal_spec) as (texts & F & E).
    exists texts. split; [exact F|]. rewrite <- E. reflexivity.
  - right.
    assert (Hno : ~ Exists (fun line => marked ordinal_marker (trim line))
                    (nonblank_lines answer)).
    { intros H. apply Ho in H. discriminate. }
    destruct (existsb (fun line => test_bullet (trim line)) (nonblank_lines answer)).
    + left. split; [exact Hno|]. split; [now apply Hb|].
      destruct (items_of_replace bullet_marker match_bullet
                  (nonblank_lines answer) match_bullet_spec) as (texts & F & E).
      exists texts. split; [exact F|]. rewrite <- E. reflexivity.
    + right. split; [exact Hno|]. split; [|reflexivity].
      intros H. apply Hb in H. discriminate.
Qed.

(** C2, as the claim states it, fails: in the answer below only the second
    line starts with a marker, and both lines render as list items. *)
Lemma C2_list_items_beyond_marker_lines :
  ~ (forall answer html,
       formatAnswer (Some answer) = Some html ->
       list_item_count html
       = length (List.filter starts_with_marker (nonblank_lines answer))).
Proof.
  intros H.
  assert (E : formatAnswer (Some (lit "Steps:
1. A")) = Some (lit "<ol><li>Steps:</li><li>A</li></ol>"))
    by (vm_compute; reflexivity).
  apply H in E. vm_compute in E. discriminate.
Qed.

(** What a line renders as in a list, in full. *)
Lemma rendered_item_of_replace (marker : jsstring -> jsstring -> Prop)
    (matcher : jsstring -> option jsstring) (line : jsstring) :
  (forall s rest, matcher s = Some rest <-> marker s rest) ->
  Flow.rendered_item marker line
    (trim (match matcher line with
           | Some r => drop_spaces r
           | None => line
           end)).
Proof.
  intros Hspec. destruct (matcher line) as [rest|] eqn:E.
  - left. exists rest. split; [now apply Hspec | apply trim_drop_spaces].
  - right. split; [|reflexivity].
    intros (rest & H). apply Hspec in H. congruence.
Qed.

Lemma rendered_items_of_replace (marker : jsstring -> jsstring -> Prop)
    (matcher : jsstring -> option jsstring) (lines : list jsstring) :
  (forall s rest, matcher s = Some rest <-> marker s rest) ->
  exists texts,
    Forall2 (Flow.rendered_item marker) lines texts
    /\ concat (map (fun line =>
          let text := trim (match matcher line with
                            | Some r => drop_spaces r
                            | None => line
                            end) in
          tpl "<li>" ++ escapeHtml (Some text) ++ tpl "</li>") lines)
       = items_markup texts.
Proof.
  intros Hspec.
  exists (map (fun line => trim (match matcher line with
                                 | Some r => drop_spaces r
                                 | None => line
                                 end)) lines).
  split.
  - induction lines as [|l ls IH]; constructor; [|exact IH].
    now apply rendered_item_of_replace.
  - unfold items_markup. now rewrite map_map.
Qed.

(** [formatAnswer] returns the markup of the answer. *)
Lemma formatAnswer_formatted (answer : jsstring) :
  exists html : jsstring,
    formatAnswer (Some answer) = Some html /\ Flow.formatted answer html.
Proof.
  unfold formatAnswer, Flow.formatted. fold (nonblank_lines answer).
  pose proof (existsb_marked test_ordinal ordinal_marker
                (nonblank_lines answer) test_ordinal_spec) as Ho.
  pose proof (existsb_marked test_bullet bullet_marker
                (nonblank_lines answer) test_bullet_spec) as Hb.
  destruct (existsb (fun line => test_ordinal (trim line)) (nonblank_lines answer)).
  - destruct (rendered_items_of_replace ordinal_marker match_ordinal
                (nonblank_lines answer) match_ordinal_spec) as (texts & F & E).
    eexists. split; [reflexivity|]. left. split; [now apply Ho|].
    exists texts. split; [exact F|]. unfold replace_ordinal. now rewrite <- E.
  - assert (Hno : ~ Exists (fun line => marked ordinal_marker (trim line))
                    (nonblank_lines answer)).
    { intros H. apply Ho in H. discriminate. }
    destruct (existsb (fun line => test_bullet (trim line)) (nonblank_lines answer)).
    + destruct (rendered_items_of_replace bullet_marker match_bullet
                  (nonblank_lines answer) match_bullet_spec) as (texts & F & E).
      eexists. split; [reflexivity|]. right. left.
      split; [exact Hno|]. split; [now apply Hb|].
      exists texts. split; [exact F|]. unfold replace_bullet. now rewrite <- E.
    + eexists. split; [reflexivity|]. right. right.
      split; [exact Hno|]. split; [|reflexivity].
      intros H. apply Hb in H. discriminate.
Qed.

End Formatting.

(** ** The confidence badge *)
Section Badge.
Import Js Net Script Spec.

(** C8. For each of the labels high, medium and low the badge carries its
    own style class and icon (confidence-high and ✓, confidence-medium
    and ~, confidence-low and !), the three classes are pairwise distinct,
    and the badge text shows the confidence followed by a percent sign
    and the label in parentheses; the rest of the markup is the same for
    every confidence and label. *)
Theorem C8_confidence_badge_styles :
  exists a b c d e : jsstring,
    (forall confidence : Z,
       createConfidenceBadge (Some confidence) (Some (lit "high"))
       = a ++ tpl "<div class='confidence-badge confidence-high'>"
         ++ b ++ tpl "<span class='confidence-icon'>✓</span>"
         ++ c ++ tpl "<span class='confidence-text'>Confidence: "
         ++ number_to_string confidence ++ tpl "%</span>"
         ++ d ++ tpl "<span class='confidence-label'>(high)</span>" ++ e
       /\ createConfidenceBadge (Some confidence) (Some (lit "medium"))
          = a ++ tpl "<div class='confidence-badge confidence-medium'>"
            ++ b ++ tpl "<span class='confidence-icon'>~</span>"
            ++ c ++ tpl "<span class='confidence-text'>Confidence: "
            ++ number_to_string confidence ++ tpl "%</span>"
            ++ d ++ tpl "<span class='confidence-label'>(medium)</span>" ++ e
       /\ createConfidenceBadge (Some confidence) (Some (lit "low"))
          = a ++ tpl "<div class='confidence-badge confidence-low'>"
            ++ b ++ tpl "<span class='confidence-icon'>!</span>"
            ++ c ++ tpl "<span class='confidence-text'>Confidence: "
            ++ number_to_string confidence ++ tpl "%</span>"
            ++ d ++ tpl "<span class='confidence-label'>(low)</span>" ++ e)
    /\ lit "confidence-high" <> lit "confidence-medium"
    /\ lit "confidence-high" <> lit "confidence-low"
    /\ lit "confidence-medium" <> lit "confidence-low".
Proof.
  exists (tpl "
        "), (tpl "
            "), (tpl "
            "), (tpl "
            "), (tpl "
        </div>
    ").
  split.
  - intros confidence. unfold createConfidenceBadge, number_opt_to_string.
    generalize (number_to_string confidence). intros n.
    split; [|split]; vm_compute; reflexivity.
  - split; [|split]; intros H; vm_compute in H; discriminate.
Qed.

(** The badge of the sample response. *)
Example createConfidenceBadge_sample :
  createConfidenceBadge (Some 87%Z) (Some (lit "high"))
  = tpl "
        <div class='confidence-badge confidence-high'>
            <span class='confidence-icon'>✓</span>
            <span class='confidence-text'>Confidence: 87%</span>
            <span class='confidence-label'>(high)</span>
        </div>
    ".
Proof. vm_compute. reflexivity. Qed.

(** Any other label, or none, gets the style of low. *)
Example createConfidenceBadge_other_label :
  createConfidenceBadge (Some 50%Z) (Some (lit "HIGH"))
  = tpl "
        <div class='confidence-badge confidence-low'>
            <span class='confidence-icon'>!</span>
            <span class='confidence-text'>Confidence: 50%</span>
            <span class='confidence-label'>(HIGH)</span>
        </div>
    ".
Proof. vm_compute. reflexivity. Qed.

End Badge.

(** ** The sources section *)
Section Sources.
Import Js Net Script Spec.

Local Opaque lit tpl number_to_string serialize_text.

Lemma normalizeSource_text (source : Source) :
  n_text (normalizeSource source)
  = match source with
    | OldFormat s => Some s
    | NewFormat o => text o
    end.
Proof. destruct source; reflexivity. Qed.

Lemma normalizeSource_document (source : Source) :
  n_document (normalizeSource source)
  = or_default (source_document source) (lit "Unknown document").
Proof. destruct source; reflexivity. Qed.

(** The markup [createSourcesHtml] returns, in terms of the text and the
    shown document name of every source. *)
Lemma createSourcesHtml_normalized (sources : list Source) :
  createSourcesHtml sources = renderSources (map normalizeSource sources).
Proof.
  unfold createSourcesHtml, renderSources.
  rewrite length_map, imap_fmap.
  erewrite imap_ext; [reflexivity|].
  intros i source _. unfold renderChunk, compose.
  now rewrite normalizeSource_text, normalizeSource_document.
Qed.

Lemma starts_with_app (pat s : jsstring) : starts_with pat (pat ++ s) = true.
Proof.
  induction pat as [|c pat IH]; [reflexivity|].
  simpl. now rewrite N.eqb_refl, IH.
Qed.

Lemma includes_app (pat a b : jsstring) : includes pat (a ++ pat ++ b) = true.
Proof.
  induction a as [|c a IH].
  - simpl. destruct (pat ++ b) eqn:E; simpl; rewrite <- E, starts_with_app;
      reflexivity.
  - simpl. rewrite IH. apply orb_true_r.
Qed.

Lemma starts_with_inv (pat s : jsstring) :
  starts_with pat s = true -> exists b, s = pat ++ b.
Proof.
  revert s. induction pat as [|c pat IH]; intros s H; [now exists s|].
  destruct s as [|d s]; [discriminate|]. simpl in H.
  apply andb_true_iff in H as [E H]. apply N.eqb_eq in E. subst d.
  destruct (IH s H) as [b ->]. now exists b.
Qed.

Lemma includes_inv (pat s : jsstring) :
  includes pat s = true -> exists a b, s = a ++ pat ++ b.
Proof.
  induction s as [|c s IH]; simpl; intros H.
  - rewrite orb_false_r in H. destruct (starts_with_inv _ _ H) as [b E].
    now exists [], b.
  - apply orb_true_iff in H as [H|H].
    + destruct (starts_with_inv _ _ H) as [b E]. now exists [], b.
    + destruct (IH H) as (a & b & ->). now exists (c :: a), b.
Qed.

(** What a part of the markup includes, the markup includes. *)
Lemma includes_within (pat a x b : jsstring) :
  includes pat x = true -> includes pat (a ++ x ++ b) = true.
Proof.
  intros H. destruct (includes_inv _ _ H) as (a' & b' & ->).
  replace (a ++ (a' ++ pat ++ b') ++ b)
    with ((a ++ a') ++ pat ++ (b' ++ b)) by (now rewrite <- !app_assoc).
  apply includes_app.
Qed.



End Sources.

(** ** The body of a request *)
Section Json.
Import Js Net Script Spec.

Lemma unhex_hex_digit (d : N) : (d < 16)%N -> unhex (hex_digit d) = Some d.
Proof.
  intros H. unfold hex_digit, unhex.
  destruct (N.ltb_spec d 10).
  - replace ((48 <=? 48 + d) && (48 + d <=? 57))%N with true
      by (symmetry; apply andb_true_intro; split; apply N.leb_le; lia).
    f_equal. lia.
  - replace ((48 <=? 87 + d) && (87 + d <=? 57))%N with false
      by (symmetry; apply andb_false_intro2; apply N.leb_gt; lia).
    replace ((97 <=? 87 + d) && (87 + d <=? 102))%N with true
      by (symmetry; apply andb_true_intro; split; apply N.leb_le; lia).
    f_equal. lia.
Qed.

Lemma nibble_lt (x : N) : (N.land x 15 < 16)%N.
Proof.
  change 15%N with (N.ones 4). rewrite N.land_ones.
  apply N.mod_lt. discriminate.
Qed.

Lemma nibbles_recombine (c : N) :
  (c < 65536)%N ->
  (4096 * N.land (N.shiftr c 12) 15 + 256 * N.land (N.shiftr c 8) 15
   + 16 * N.land (N.shiftr c 4) 15 + N.land c 15 = c)%N.
Proof.
  intros H. change 15%N with (N.ones 4).
  rewrite !N.land_ones, !N.shiftr_div_pow2.
  change (2 ^ 4)%N with 16%N. change (2 ^ 8)%N with 256%N.
  change (2 ^ 12)%N with 4096%N.
  zify. Z.to_euclidean_division_equations. lia.
Qed.

Lemma unquote_unicode_escape (c : N) (t : jsstring) :
  (c < 65536)%N ->
  unquote_units (unicode_escape c ++ t) = cons c <$> unquote_units t.
Proof.
  intros H. unfold unicode_escape.
  cbn [app unquote_units N.eqb Pos.eqb].
  rewrite !unhex_hex_digit by apply nibble_lt.
  now rewrite nibbles_recombine.
Qed.

Lemma unquote_quote_unit (c : N) (t : jsstring) :
  unquote_units (quote_unit c ++ t) = cons c <$> unquote_units t.
Proof.
  unfold quote_unit.
  destruct (N.eqb_spec c 8) as [->|]; [reflexivity|].
  destruct (N.eqb_spec c 9) as [->|]; [reflexivity|].
  destruct (N.eqb_spec c 10) as [->|]; [reflexivity|].
  destruct (N.eqb_spec c 12) as [->|]; [reflexivity|].
  destruct (N.eqb_spec c 13) as [->|]; [reflexivity|].
  destruct (N.eqb_spec c 34) as [->|]; [reflexivity|].
  destruct (N.eqb_spec c 92) as [->|]; [reflexivity|].
  destruct ((c <? 32) || is_lead c || is_trail c)%N eqn:E.
  - apply unquote_unicode_escape.
    unfold is_lead, is_trail in E.
    apply orb_true_iff in E as [E|E]; [apply orb_true_iff in E as [E|E]|].
    + apply N.ltb_lt in E. lia.
    + apply andb_true_iff in E as [_ E]. apply N.leb_le in E. lia.
    + apply andb_true_iff in E as [_ E]. apply N.leb_le in E. lia.
  - apply orb_false_iff in E as [E _]. apply orb_false_iff in E as [E _].
    cbn [app unquote_units].
    replace (c =? 92)%N with false by (symmetry; now apply N.eqb_neq).
    replace (c =? 34)%N with false by (symmetry; now apply N.eqb_neq).
    now rewrite E.
Qed.

Lemma unquote_surrogate_pair (c d : N) (t : jsstring) :
  is_lead c = true -> is_trail d = true ->
  unquote_units (c :: d :: t) = (fun r => c :: d :: r) <$> unquote_units t.
Proof.
  unfold is_lead, is_trail. intros Hc Hd.
  apply andb_true_iff in Hc as [Hc _]. apply N.leb_le in Hc.
  apply andb_true_iff in Hd as [Hd _]. apply N.leb_le in Hd.
  cbn [unquote_units].
  replace (c =? 92)%N with false by (symmetry; apply N.eqb_neq; lia).
  replace (c =? 34)%N with false by (symmetry; apply N.eqb_neq; lia).
  replace (c <? 32)%N with false by (symmetry; apply N.ltb_ge; lia).
  replace (d =? 92)%N with false by (symmetry; apply N.eqb_neq; lia).
  replace (d =? 34)%N with false by (symmetry; apply N.eqb_neq; lia).
  replace (d <? 32)%N with false by (symmetry; apply N.ltb_ge; lia).
  cbn [orb]. now destruct (unquote_units t).
Qed.

Lemma unquote_quote_units (s : jsstring) :
  unquote_units (quote_units s) = Some s.
Proof.
  remember (length s) as n eqn:Hn.
  revert s Hn. induction n as [n IH] using lt_wf_ind. intros s Hn.
  destruct s as [|c r]; [reflexivity|].
  cbn [quote_units].
  assert (Hr : unquote_units (quote_unit c ++ quote_units r) = Some (c :: r)).
  { rewrite unquote_quote_unit, (IH (length r)); [reflexivity| |reflexivity].
    subst n. simpl. lia. }
  destruct (is_lead c) eqn:Hc; [|exact Hr].
  destruct r as [|d r'].
  - rewrite <- (app_nil_r (quote_unit c)). now rewrite unquote_quote_unit.
  - destruct (is_trail d) eqn:Hd; [|exact Hr].
    rewrite (unquote_surrogate_pair c d _ Hc Hd), (IH (length r'));
      [reflexivity| |reflexivity].
    subst n. simpl. lia.
Qed.

(** The string that [JSON.stringify] writes for [s] reads back as [s]. *)
Lemma parse_quoteJSONString (s : jsstring) :
  parseJSONString (quoteJSONString s) = Some s.
Proof.
  unfold quoteJSONString, parseJSONString.
  cbn [app]. rewrite rev_app_distr. cbn [rev app].
  rewrite rev_involutive. apply unquote_quote_units.
Qed.

End Json.

(** ** Messages of the chat *)
Section Messages.
Import Js Net Script Spec.

Local Opaque lit tpl number_to_string serialize_text.

(** The badge shows the confidence and the label it was given. *)
Lemma createConfidenceBadge_shows (confidence : option Z)
    (label : option jsstring) :
  includes
    (tpl "<span class='confidence-text'>Confidence: "
     ++ number_opt_to_string confidence ++ tpl "%</span>")
    (createConfidenceBadge confidence label) = true
  /\ includes
       (tpl "<span class='confidence-label'>(" ++ to_string label
        ++ tpl ")</span>")
       (createConfidenceBadge confidence label) = true.
Proof.
  unfold createConfidenceBadge.
  generalize (number_opt_to_string confidence). intros n.
  generalize (to_string label). intros l.
  generalize (if strict_eq label (lit "high") then lit "confidence-high"
              else if strict_eq label (lit "medium") then lit "confidence-medium"
              else lit "confidence-low"). intros colorClass.
  generalize (if strict_eq label (lit "high") then lit "✓"
              else if strict_eq label (lit "medium") then lit "~"
              else lit "!"). intros icon.
  split.
  - set (pat := tpl "<span class='confidence-text'>Confidence: " ++ n
                ++ tpl "%</span>").
    match goal with |- includes _ ?x = true => replace x with
      ((tpl "
        <div class='confidence-badge " ++ colorClass ++ tpl "'>
            <span class='confidence-icon'>" ++ icon ++ tpl "</span>
            ") ++ pat ++ tpl "
            <span class='confidence-label'>(" ++ l ++ tpl ")</span>
        </div>
    ") end; [apply includes_app|].
    subst pat. rewrite <- !app_assoc. vm_compute. reflexivity.
  - set (pat := tpl "<span class='confidence-label'>(" ++ l ++ tpl ")</span>").
    match goal with |- includes _ ?x = true => replace x with
      ((tpl "
        <div class='confidence-badge " ++ colorClass ++ tpl "'>
            <span class='confidence-icon'>" ++ icon ++ tpl "</span>
            <span class='confidence-text'>Confidence: " ++ n ++ tpl "%</span>
            ") ++ pat ++ tpl "
        </div>
    ") end; [apply includes_app|].
    subst pat. rewrite <- !app_assoc. vm_compute. reflexivity.
Qed.

(** The message [addAssistantMessage] builds: the markup around the
    formatted answer, the badge and the sources section is fixed, and the
    formatted answer is what the element of class [message-text] holds.
    Without sources the message has no click handler.  With sources it
    gets one on what the lookup in its markup finds, unless that is no
    button: then the call throws, with the message in the chat. *)
Lemma addAssistantMessage_markup :
  exists pre mid1 mid2 post : jsstring,
    (forall html rest : jsstring,
       includes
         (tpl "<div class='message-text'>
                " ++ html ++ tpl "
            </div>")
         (pre ++ html ++ mid1 ++ rest) = true)
    /\ forall answer html confidence label sources (p : Page),
         formatAnswer answer = Some html ->
         addAssistantMessage answer confidence label sources p
         = let markup :=
             pre ++ html ++ mid1 ++ createConfidenceBadge confidence label
             ++ mid2
             ++ (if has_sources sources
                 then createSourcesHtml (default [] sources) else [])
             ++ post in
           if has_sources sources then
             if toggleButton (querySelector p markup) then
               Returned (scrollToBottom (appendChild
                 (toggle_message markup (querySelector p markup)) p))
             else Threw (appendChild (plain_message markup) p)
           else Returned (scrollToBottom (appendChild (plain_message markup) p)).
Proof.
  exists (tpl "
        <div class='message-avatar'>
            <svg width='24' height='24' viewBox='0 0 24 24' fill='none'>
                <circle cx='12' cy='12' r='10' stroke='currentColor' stroke-width='2'/>
                <path d='M8 14C8 14 9.5 16 12 16C14.5 16 16 14 16 14' stroke='currentColor' stroke-width='2' stroke-linecap='round'/>
                <circle cx='9' cy='9' r='1.5' fill='currentColor'/>
                <circle cx='15' cy='9' r='1.5' fill='currentColor'/>
            </svg>
        </div>
        <div class='message-content'>
            <div class='message-text'>
                "), (tpl "
            </div>
            "), (tpl "
            "), (tpl "
        </div>
    ").
  split.
  - intros html rest.
    set (pat := tpl "<div class='message-text'>
                " ++ html ++ tpl "
            </div>").
    match goal with |- includes _ ?x = true => replace x with
      ((tpl "
        <div class='message-avatar'>
            <svg width='24' height='24' viewBox='0 0 24 24' fill='none'>
                <circle cx='12' cy='12' r='10' stroke='currentColor' stroke-width='2'/>
                <path d='M8 14C8 14 9.5 16 12 16C14.5 16 16 14 16 14' stroke='currentColor' stroke-width='2' stroke-linecap='round'/>
                <circle cx='9' cy='9' r='1.5' fill='currentColor'/>
                <circle cx='15' cy='9' r='1.5' fill='currentColor'/>
            </svg>
        </div>
        <div class='message-content'>
            ") ++ pat ++ (tpl "
            " ++ rest)) end; [apply includes_app|].
    subst pat. rewrite <- !app_assoc. vm_compute. reflexivity.
  - intros answer html confidence label sources p H.
    unfold addAssistantMessage. rewrite H. reflexivity.
Qed.

(** The message of an answer holds what it was given: the answer in its
    markup, the confidence and the label in the badge, and the sources
    section when there are sources.  The call returns with the message
    appended unless there are sources and the lookup finds no button for
    the handler; then it throws, with the message appended. *)
Lemma addAssistantMessage_renders (a : jsstring) (confidence : option Z)
    (label : option jsstring) (sources : option (list Source)) (p : Page) :
  exists (m : Message) (html : jsstring),
    Flow.formatted a html
    /\ includes
         (tpl "<div class='message-text'>
                " ++ html ++ tpl "
            </div>")
         (innerHTML m) = true
    /\ includes
         (tpl "<span class='confidence-text'>Confidence: "
          ++ number_opt_to_string confidence ++ tpl "%</span>")
         (innerHTML m) = true
    /\ includes
         (tpl "<span class='confidence-label'>(" ++ to_string label
          ++ tpl ")</span>")
         (innerHTML m) = true
    /\ (forall s l, sources = Some (s :: l) ->
          includes (renderSources (map normalizeSource (s :: l)))
            (innerHTML m) = true)
    /\ ((has_sources sources
         && negb (toggleButton (querySelector p (innerHTML m))) = false
         /\ Flow.appended p m
         /\ addAssistantMessage (Some a) confidence label sources p
            = Returned (scrollToBottom (appendChild m p)))
        \/ (has_sources sources
            && negb (toggleButton (querySelector p (innerHTML m))) = true
            /\ Flow.inert m
            /\ addAssistantMessage (Some a) confidence label sources p
               = Threw (appendChild m p))).
Proof.
  destruct addAssistantMessage_markup as (pre & mid1 & mid2 & post & Hi & Hm).
  destruct (formatAnswer_formatted a) as (html & Hf & Hfmt).
  specialize (Hm (Some a) html confidence label sources p Hf).
  cbv zeta in Hm.
  destruct (createConfidenceBadge_shows confidence label) as (Hc & Hl).
  assert (Hb : forall pat rest,
                 includes pat (createConfidenceBadge confidence label) = true ->
                 includes pat
                   (pre ++ html ++ mid1
                    ++ createConfidenceBadge confidence label ++ rest) = true).
  { intros pat rest H.
    replace (pre ++ html ++ mid1
             ++ createConfidenceBadge confidence label ++ rest)
      with ((pre ++ html ++ mid1)
            ++ createConfidenceBadge confidence label ++ rest)
      by (now rewrite <- !app_assoc).
    now apply includes_within. }
  assert (Hs : forall s l, sources = Some (s :: l) ->
                 includes (renderSources (map normalizeSource (s :: l)))
                   (pre ++ html ++ mid1
                    ++ createConfidenceBadge confidence label ++ mid2
                    ++ (if has_sources sources
                        then createSourcesHtml (default [] sources) else [])
                    ++ post) = true).
  { intros s l ->. cbn [has_sources].
    change (default [] (Some (s :: l))) with (s :: l).
    rewrite createSourcesHtml_normalized.
    replace (pre ++ html ++ mid1
             ++ createConfidenceBadge confidence label ++ mid2
             ++ renderSources (map normalizeSource (s :: l)) ++ post)
      with ((pre ++ html ++ mid1
             ++ createConfidenceBadge confidence label ++ mid2)
            ++ renderSources (map normalizeSource (s :: l)) ++ post)
      by (now rewrite <- !app_assoc).
    apply includes_app. }
  set (markup := pre ++ html ++ mid1
                 ++ createConfidenceBadge confidence label ++ mid2
                 ++ (if has_sources sources
                     then createSourcesHtml (default [] sources) else [])
                 ++ post) in *.
  destruct (has_sources sources) eqn:Hh;
    [destruct (toggleButton (querySelector p markup)) eqn:Ht|].
  - exists (toggle_message markup (querySelector p markup)), html.
    cbn [innerHTML toggle_message]. rewrite Ht.
    split; [exact Hfmt|]. split; [apply Hi|].
    split; [now apply Hb|]. split; [now apply Hb|]. split; [exact Hs|].
    left. split; [reflexivity|]. split; [|exact Hm].
    right. repeat split.
  - exists (plain_message markup), html.
    cbn [innerHTML plain_message]. rewrite Ht.
    split; [exact Hfmt|]. split; [apply Hi|].
    split; [now apply Hb|]. split; [now apply Hb|]. split; [exact Hs|].
    right. split; [reflexivity|]. split; [|exact Hm]. repeat split.
  - exists (plain_message markup), html.
    cbn [innerHTML plain_message].
    split; [exact Hfmt|]. split; [apply Hi|].
    split; [now apply Hb|]. split; [now apply Hb|]. split; [exact Hs|].
    left. split; [reflexivity|]. split; [|exact Hm].
    left. repeat split.
Qed.




(** The message [addUserMessage] appends: the markup around the escaped
    text is fixed. *)
Lemma addUserMessage_markup :
  exists pre post : jsstring,
  forall (text : jsstring) (p : Page),
    addUserMessage text p
    = scrollToBottom (appendChild
        {| className := lit "message user-message";
           innerHTML := pre ++ escapeHtml (Some text) ++ post;
           listener := false;
           content_visible := None;
           arrow := None |} p).
Proof. do 2 eexists. intros text p. reflexivity. Qed.

(** The message [addUserMessage] appends holds the escaped text in a
    paragraph. *)
Lemma addUserMessage_shows (text : jsstring) :
  exists u : Message,
    Flow.inert u
    /\ includes
         (tpl "<p>" ++ escapeHtml (Some text) ++ tpl "</p>")
         (innerHTML u) = true
    /\ forall p : Page,
         addUserMessage text p = scrollToBottom (appendChild u p).
Proof.
  eexists. split; [|split; [|intros p; reflexivity]]; [repeat split|].
  cbn [innerHTML].
  generalize (escapeHtml (Some text)). intros esc.
  set (pat := tpl "<p>" ++ esc ++ tpl "</p>").
  match goal with |- includes _ ?x = true => replace x with
    ((tpl "
        <div class='message-avatar'>
            <svg width='24' height='24' viewBox='0 0 24 24' fill='none'>
                <circle cx='12' cy='12' r='10' stroke='currentColor' stroke-width='2'/>
                <circle cx='12' cy='10' r='3' fill='currentColor'/>
                <path d='M6 20C6 16 8 14 12 14C16 14 18 16 18 20' stroke='currentColor' stroke-width='2' stroke-linecap='round'/>
            </svg>
        </div>
        <div class='message-content'>
            <div class='message-text'>
                ") ++ pat ++ tpl "
            </div>
        </div>
    ") end; [apply includes_app|].
  subst pat. rewrite <- !app_assoc.
  vm_compute. reflexivity.
Qed.

(** C10. The question text, every answer line or extracted list-item text
    and every source text enters the markup only as the result of
    [escapeHtml], and that result contains no angle bracket and no
    ampersand other than the start of a character reference (and reads
    back as the text). *)
Theorem C10_texts_enter_markup_escaped :
  (forall text : option jsstring,
     no_angle_bracket (escapeHtml text)
     /\ amps_are_references (escapeHtml text) = true
     /\ parse_text (escapeHtml text) = textContent_of text)
  /\ (exists pre post : jsstring,
      forall (text : jsstring) (p : Page),
      exists m : Message,
        chatMessages (addUserMessage text p) = chatMessages p ++ [m]
        /\ innerHTML m = pre ++ escapeHtml (Some text) ++ post)
  /\ (forall answer : jsstring,
      exists texts : list jsstring,
        formatAnswer (Some answer)
        = Some (tpl "<ol>" ++ items_markup texts ++ tpl "</ol>")
        \/ formatAnswer (Some answer)
           = Some (tpl "<ul>" ++ items_markup texts ++ tpl "</ul>")
        \/ formatAnswer (Some answer) = Some (paragraphs_markup texts))
  /\ (exists (head : nat -> jsstring -> jsstring) (tail : jsstring),
      forall sources : list Source,
        createSourcesHtml sources
        = renderSources (map normalizeSource sources)
        /\ forall (i : nat) (n : NormalizedSource),
             renderChunk i n
             = head i (n_document n) ++ escapeHtml (n_text n) ++ tail).
Proof.
  split; [apply escapeHtml_escaped|]. split; [|split].
  - destruct addUserMessage_markup as (pre & post & H).
    exists pre, post. intros text p. eexists. rewrite H. split; reflexivity.
  - intros answer. unfold formatAnswer. fold (nonblank_lines answer).
    destruct (existsb _ _).
    + destruct (items_of_replace ordinal_marker match_ordinal
                  (nonblank_lines answer) match_ordinal_spec) as (texts & _ & E).
      exists texts. left. rewrite <- E. reflexivity.
    + destruct (existsb _ _).
      * destruct (items_of_replace bullet_marker match_bullet
                    (nonblank_lines answer) match_bullet_spec) as (texts & _ & E).
        exists texts. right. left. rewrite <- E. reflexivity.
      * exists (nonblank_lines answer). right. right. reflexivity.
  - exists (fun i doc =>
      tpl "
            <div class='source-chunk'>
                <div class='source-chunk-header'>
                    <span class='source-chunk-label'>Chunk "
      ++ number_to_string (Z.of_nat i + 1)
      ++ tpl "</span>
                    <span class='source-document-name'>📄 "
      ++ doc
      ++ tpl "</span>
                </div>
                <div class='source-chunk-text'>").
    eexists. intros sources. split; [apply createSourcesHtml_normalized|].
    intros i n. unfold renderChunk. rewrite <- !app_assoc. reflexivity.
Qed.

End Messages.

(** ** The [/ask] request and its answer *)
Section Ask.
Import Js Net Script Spec.

Local Opaque lit tpl number_to_string serialize_text trim quoteJSONString
  includes createConfidenceBadge createSourcesHtml formatAnswer.

(** [addAssistantMessage] touches the chat and the timers only. *)
Lemma addAssistantMessage_left answer confidence label sources (p : Page) :
  let q := page_left (addAssistantMessage answer confidence label sources p) in
  fetched q = fetched p
  /\ sessionToken q = sessionToken p
  /\ origin q = origin p
  /\ querySelector q = querySelector p
  /\ localStorage q = localStorage p
  /\ location_href q = location_href p
  /\ currentUser q = currentUser p
  /\ questionInput_value q = questionInput_value p.
Proof.
  unfold addAssistantMessage.
  destruct (formatAnswer answer); [|repeat split].
  destruct (has_sources sources); [|repeat split].
  match goal with
  | |- context [toggleButton ?x] => destruct (toggleButton x)
  end; repeat split.
Qed.

(** Every run of [sendQuestion] sends one request. *)
Lemma fetched_sendQuestion net question (p : Page) :
  fetched (sendQuestion net question p)
  = fetched p ++ [ask_request question p].
Proof.
  unfold sendQuestion.
  destruct (net (ask_request question p)) as [|status json]; [reflexivity|].
  destruct (status =? 401)%N; [reflexivity|].
  destruct (negb (ok status)); [reflexivity|].
  destruct json as [data|]; [|reflexivity].
  match goal with
  | |- context [addAssistantMessage ?a ?c ?l ?s ?x] =>
      destruct (addAssistantMessage_left a c l s x) as (H & _);
      destruct (addAssistantMessage a c l s x)
  end; exact H.
Qed.

(** The page on which [handleSubmit] calls [sendQuestion]. *)
Lemma handleSubmit_nonblank net (p : Page) :
  truthy (trim (questionInput_value p)) = true ->
  handleSubmit net p
  = sendQuestion net (trim (questionInput_value p))
      (showLoading (setInputEnabled false
         (set_questionInput_value []
            (addUserMessage (trim (questionInput_value p)) p)))).
Proof. intros H. unfold handleSubmit. rewrite H. reflexivity. Qed.

Lemma ask_request_expected (p p' : Page) (token question : jsstring) :
  origin p' = origin p -> sessionToken p' = Some token ->
  ask_request question p' = expected_request p token question.
Proof.
  intros Ho Hs. unfold ask_request, expected_request, API_URL.
  rewrite Ho, Hs. reflexivity.
Qed.

Lemma checkAuthentication_reads_token (p0 : Page) (token : jsstring) :
  localStorage p0 !! "stb_session_token" = Some token ->
  sessionToken (checkAuthentication p0) = Some token
  /\ origin (checkAuthentication p0) = origin p0
  /\ fetched (checkAuthentication p0) = fetched p0
  /\ chatMessages (checkAuthentication p0) = chatMessages p0.
Proof.
  intros H. unfold checkAuthentication.
  cbn [sessionToken set_sessionToken localStorage]. rewrite H.
  destruct (falsy (Some token)); repeat split.
Qed.

(** The page after a response with an OK status and a body that has an
    answer: the message of the answer is in the chat; the input has the
    focus unless the handler of the sources found no button, in which
    case the [catch] block ran on the page with the message. *)
Lemma sendQuestion_answered net question (p : Page) status data a :
  net (ask_request question p) = Response status (Some data) ->
  status <> 401%N -> ok status = true -> answer data = Some a ->
  exists (m : Message) (html : jsstring),
    Flow.formatted a html
    /\ includes
         (tpl "<div class='message-text'>
                " ++ html ++ tpl "
            </div>")
         (innerHTML m) = true
    /\ includes
         (tpl "<span class='confidence-text'>Confidence: "
          ++ number_opt_to_string (confidence data) ++ tpl "%</span>")
         (innerHTML m) = true
    /\ includes
         (tpl "<span class='confidence-label'>("
          ++ to_string (confidence_label data) ++ tpl ")</span>")
         (innerHTML m) = true
    /\ (forall s l, sources data = Some (s :: l) ->
          includes (renderSources (map normalizeSource (s :: l)))
            (innerHTML m) = true)
    /\ ((has_sources (sources data)
         && negb (toggleButton (querySelector p (innerHTML m))) = false
         /\ Flow.appended p m
         /\ sendQuestion net question p
            = set_questionInput_focused true
                (setInputEnabled true
                   (scrollToBottom
                      (appendChild m
                         (hideLoading
                            (set_fetched
                               (fetched p ++ [ask_request question p]) p))))))
        \/ (has_sources (sources data)
            && negb (toggleButton (querySelector p (innerHTML m))) = true
            /\ Flow.inert m
            /\ sendQuestion net question p
               = sendQuestion_catch
                   (appendChild m
                      (hideLoading
                         (set_fetched
                            (fetched p ++ [ask_request question p]) p))))).
Proof.
  intros Hnet Hs Hok Ha.
  destruct (addAssistantMessage_renders a (confidence data)
              (confidence_label data) (sources data)
              (hideLoading
                 (set_fetched (fetched p ++ [ask_request question p]) p)))
    as (m & html & Hf & H1 & H2 & H3 & H4 & H).
  exists m, html.
  split; [exact Hf|]. split; [exact H1|]. split; [exact H2|].
  split; [exact H3|]. split; [exact H4|].
  unfold sendQuestion. rewrite Hnet.
  apply N.eqb_neq in Hs. rewrite Hs, Hok. cbn [negb]. cbv zeta. rewrite Ha.
  destruct H as [(Hq & Hp & ->)|(Hq & Hp & ->)].
  - left. split; [exact Hq|]. split; [exact Hp | reflexivity].
  - right. split; [exact Hq|]. split; [exact Hp | reflexivity].
Qed.

(** [sendQuestion] assigns neither [sessionToken] nor the origin. *)
Lemma sendQuestion_keeps_token net question (p : Page) :
  sessionToken (sendQuestion net question p) = sessionToken p
  /\ origin (sendQuestion net question p) = origin p.
Proof.
  unfold sendQuestion.
  destruct (net (ask_request question p)) as [|status json];
    [split; reflexivity|].
  destruct (status =? 401)%N; [split; reflexivity|].
  destruct (negb (ok status)); [split; reflexivity|].
  destruct json as [data|]; [|split; reflexivity].
  match goal with
  | |- context [addAssistantMessage ?a ?c ?l ?s ?x] =>
      destruct (addAssistantMessage_left a c l s x) as (_ & H1 & H2 & _);
      destruct (addAssistantMessage a c l s x)
  end; split; assumption.
Qed.

Lemma handleSubmit_keeps_token net (p : Page) :
  sessionToken (handleSubmit net p) = sessionToken p
  /\ origin (handleSubmit net p) = origin p.
Proof.
  unfold handleSubmit.
  destruct (negb (truthy (trim (questionInput_value p))));
    [split; reflexivity|].
  cbv zeta.
  match goal with
  | |- context [sendQuestion net ?q ?x] =>
      destruct (sendQuestion_keeps_token net q x) as [-> ->]
  end.
  split; reflexivity.
Qed.

(** The script never touches the way the browser parses markup. *)
Lemma handleSubmit_querySelector net (p : Page) :
  querySelector (handleSubmit net p) = querySelector p.
Proof.
  unfold handleSubmit.
  destruct (negb (truthy (trim (questionInput_value p)))); [reflexivity|].
  cbv zeta. unfold sendQuestion.
  match goal with
  | |- context [net ?r] => destruct (net r) as [|status json]
  end; [reflexivity|].
  destruct (status =? 401)%N; [reflexivity|].
  destruct (negb (ok status)); [reflexivity|].
  destruct json as [data|]; [|reflexivity].
  match goal with
  | |- context [addAssistantMessage ?a ?c ?l ?s ?x] =>
      destruct (addAssistantMessage_left a c l s x) as (_ & _ & _ & H & _);
      destruct (addAssistantMessage a c l s x)
  end; exact H.
Qed.

(** On every reachable page the script holds the token that was stored
    when the page was loaded. *)
Lemma reachable_token (p0 p : Page) (token : jsstring) :
  localStorage p0 !! "stb_session_token" = Some token ->
  reachable p0 p ->
  sessionToken p = Some token /\ origin p = origin p0.
Proof.
  intros Htok. induction 1 as [|p net question _ [IH1 IH2]|p i _ [IH1 IH2]].
  - destruct (checkAuthentication_reads_token p0 token Htok) as (H1 & H2 & _).
    split; assumption.
  - unfold submit.
    destruct (handleSubmit_keeps_token net
                (set_questionInput_value question p)) as [-> ->].
    split; assumption.
  - split; assumption.
Qed.

(** C5. On every page reachable from the page as it was loaded with a
    stored session token, submitting a question that is not blank sends
    exactly one request: a POST whose Authorization header is Bearer
    followed by the stored token and whose body is the JSON object with
    the one field question, holding the trimmed question text.  When the
    response has status 200 and a body with an answer, the chat gains the
    user's message, holding the escaped question, and after it the message
    of the answer, whose markup holds the answer field formatted, the
    confidence field followed by a percent sign, the confidence_label
    field in parentheses and, when the sources field is a non-empty
    sequence, the sources section of these sources.  Nothing follows that
    message, except the error text when there are sources and the lookup
    in the message finds no button for their handler. *)
Theorem C5_ask_request_and_rendering net (p0 p : Page)
    (token question : jsstring) :
  localStorage p0 !! "stb_session_token" = Some token ->
  reachable p0 p ->
  ~ blank question ->
  fetched (submit net question p)
  = fetched p ++ [expected_request p0 token (trim question)]
  /\ parseJSONString (quoteJSONString (trim question)) = Some (trim question)
  /\ forall data a,
       net (expected_request p0 token (trim question))
         = Response 200 (Some data) ->
       answer data = Some a ->
       exists (u m e : Message) (html : jsstring),
         chatMessages (submit net question p)
         = chatMessages p ++ u :: m
             :: (if has_sources (sources data)
                    && negb (toggleButton (querySelector p (innerHTML m)))
                 then [e] else [])
         /\ includes
              (tpl "<p>" ++ escapeHtml (Some (trim question)) ++ tpl "</p>")
              (innerHTML u) = true
         /\ Flow.formatted a html
         /\ includes
              (tpl "<div class='message-text'>
                " ++ html ++ tpl "
            </div>")
              (innerHTML m) = true
         /\ includes
              (tpl "<span class='confidence-text'>Confidence: "
               ++ number_opt_to_string (confidence data) ++ tpl "%</span>")
              (innerHTML m) = true
         /\ includes
              (tpl "<span class='confidence-label'>("
               ++ to_string (confidence_label data) ++ tpl ")</span>")
              (innerHTML m) = true
         /\ (forall s l, sources data = Some (s :: l) ->
               includes (renderSources (map normalizeSource (s :: l)))
                 (innerHTML m) = true).
Proof.
  intros Htok Hreach Hq.
  assert (Ht : truthy (trim question) = true).
  { destruct (truthy (trim question)) eqn:E; [reflexivity|].
    exfalso. apply Hq. now apply trim_blank. }
  destruct (reachable_token p0 p token Htok Hreach) as (Hs & Ho).
  unfold submit.
  rewrite (handleSubmit_nonblank net (set_questionInput_value question p) Ht).
  cbn [questionInput_value set_questionInput_value].
  destruct (addUserMessage_shows (trim question)) as (u & _ & Hi & Hu).
  rewrite Hu.
  match goal with |- context [sendQuestion net (trim question) ?x] => set (p4 := x) end.
  assert (Hreq : ask_request (trim question) p4
                 = expected_request p0 token (trim question)).
  { apply ask_request_expected; [exact Ho | exact Hs]. }
  split; [|split].
  - rewrite fetched_sendQuestion, Hreq. reflexivity.
  - apply parse_quoteJSONString.
  - intros data a Hnet Ha. rewrite <- Hreq in Hnet.
    destruct (sendQuestion_answered net (trim question) p4 200%N data a Hnet)
      as (m & html & Hf & H1 & H2 & H3 & H4 & H);
      [discriminate | reflexivity | exact Ha|].
    exists u, m.
    eexists. exists html.
    split; [|split; [exact Hi|]; split; [exact Hf|]; split; [exact H1|];
              split; [exact H2|]; split; [exact H3 | exact H4]].
    change (querySelector p4) with (querySelector p) in H.
    destruct H as [(-> & _ & ->)|(-> & _ & ->)].
    + subst p4. cbn [chatMessages showLoading
        setInputEnabled set_questionInput_value set_sendButton_disabled
        set_questionInput_disabled set_questionInput_focused scrollToBottom
        set_timers appendChild set_chatMessages set_loadingIndicator_visible
        hideLoading set_fetched].
      rewrite <- !app_assoc. reflexivity.
    + subst p4. unfold sendQuestion_catch, addErrorMessage.
      cbn [chatMessages showLoading
        setInputEnabled set_questionInput_value set_sendButton_disabled
        set_questionInput_disabled set_questionInput_focused scrollToBottom
        set_timers appendChild set_chatMessages set_loadingIndicator_visible
        hideLoading set_fetched].
      rewrite <- !app_assoc. reflexivity.
Qed.

Lemma C5_ask_request_and_rendering_witness :
  fetched (submit Sample.net_200 (lit " Quels documents ? ")
             (checkAuthentication Sample.chat_page))
  = [expected_request Sample.chat_page (lit "tok-1") (lit "Quels documents ?")]
  /\ exists (u m : Message) (html : jsstring),
       chatMessages (submit Sample.net_200 (lit " Quels documents ? ")
                       (checkAuthentication Sample.chat_page))
       = [u; m]
       /\ Flow.formatted (lit "1. ID card
2. Proof of address") html
       /\ includes
            (tpl "<div class='message-text'>
                " ++ html ++ tpl "
            </div>")
            (innerHTML m) = true
       /\ includes (tpl "<span class='confidence-text'>Confidence: 87%</span>")
            (innerHTML m) = true
       /\ includes (tpl "<span class='confidence-label'>(high)</span>")
            (innerHTML m) = true
       /\ includes
            (renderSources (map normalizeSource
               (default [] (sources Sample.ask_data))))
            (innerHTML m) = true.
Proof.
  destruct (C5_ask_request_and_rendering Sample.net_200 Sample.chat_page
              (checkAuthentication Sample.chat_page)
              (lit "tok-1") (lit " Quels documents ? ")) as (H1 & _ & H3).
  - reflexivity.
  - apply reachable_loaded.
  - intros H. apply trim_blank in H. vm_compute in H. discriminate.
  - split; [exact H1|].
    destruct (H3 Sample.ask_data _ eq_refl eq_refl)
      as (u & m & e & html & Hc & _ & Hf & Ha & Hn & Hl & Hs).
    exists u, m, html.
    split; [exact Hc|]. split; [exact Hf|]. split; [exact Ha|].
    split; [exact Hn|]. split; [exact Hl|]. exact (Hs _ _ eq_refl).
Defined.

End Ask.

(** ** Scenarios *)
Section Scenarios.
Import Js Net Spec.

(** How literals are read. *)
Example lit_utf16 : lit "é•📄" = [233; 8226; 55357; 56516]%N.
Proof. vm_compute. reflexivity. Qed.

Example tpl_double_quotes :
  tpl "<p id='a'>" = [60; 112; 32; 105; 100; 61; 34; 97; 34; 62]%N.
Proof. vm_compute. reflexivity. Qed.

Example number_to_string_samples :
  number_to_string 0 = lit "0" /\ number_to_string 100 = lit "100"
  /\ number_to_string (-5) = lit "-5".
Proof. split; [|split]; vm_compute; reflexivity. Qed.

Example trim_sample : trim (lit "  1. A 	") = lit "1. A".
Proof. vm_compute. reflexivity. Qed.

Example split_lines_sample :
  split_lines (lit "a

b
") = [lit "a"; []; lit "b"; []].
Proof. vm_compute. reflexivity. Qed.

Example quoteJSONString_sample :
  quoteJSONString (lit "a	'b") = [34; 97; 92; 116; 39; 98; 34]%N
  /\ quoteJSONString [34; 55357; 10]%N
     = [34; 92; 34; 92; 117; 100; 56; 51; 100; 92; 110; 34]%N.
Proof. split; vm_compute; reflexivity. Qed.

(** An ordered list: the markers are stripped, the text is escaped. *)
Example formatAnswer_ordered :
  Script.formatAnswer (Some (lit "1. ID card
2.  Proof of <address>

10.Deposit & fees"))
  = Some (lit "<ol><li>ID card</li><li>Proof of &lt;address&gt;</li><li>Deposit &amp; fees</li></ol>").
Proof. vm_compute. reflexivity. Qed.

Example formatAnswer_unordered :
  Script.formatAnswer (Some (lit "• ID card
- Proof of address
*Deposit"))
  = Some (lit "<ul><li>ID card</li><li>Proof of address</li><li>Deposit</li></ul>").
Proof. vm_compute. reflexivity. Qed.

Example formatAnswer_prose :
  Script.formatAnswer (Some (lit "No relevant information found.
 Try again."))
  = Some (lit "<p>No relevant information found.</p><p> Try again.</p>").
Proof. vm_compute. reflexivity. Qed.

(** One ordinal line makes the whole answer an ordered list: the heading
    and the bullet line become items too, the bullet kept. *)
Example formatAnswer_mixed :
  Script.formatAnswer (Some (lit "Steps:
1. A
- B"))
  = Some (lit "<ol><li>Steps:</li><li>A</li><li>- B</li></ol>").
Proof. vm_compute. reflexivity. Qed.

(** A marker after leading white space is detected, since the test runs
    on the trimmed line, and is not stripped, since the replacement runs on
    the line itself. *)
Example formatAnswer_indented_marker :
  Script.formatAnswer (Some (lit "  1. A
  2. B"))
  = Some (lit "<ol><li>1. A</li><li>2. B</li></ol>").
Proof. vm_compute. reflexivity. Qed.

Example formatAnswer_undefined : Script.formatAnswer None = None.
Proof. reflexivity. Qed.

(** One source in the old format. *)
Example createSourcesHtml_one_string :
  Script.createSourcesHtml [Script.OldFormat (lit "a <b> chunk")]
  = tpl "
        <div class='source-chunks'>
            <button class='source-toggle'>
                <span class='arrow'>▶</span>
                View 1 source chunk
            </button>
            <div class='source-content'>
                
            <div class='source-chunk'>
                <div class='source-chunk-header'>
                    <span class='source-chunk-label'>Chunk 1</span>
                    <span class='source-document-name'>📄 Unknown document</span>
                </div>
                <div class='source-chunk-text'>a &lt;b&gt; chunk</div>
            </div>
        
            </div>
        </div>
    ".
Proof. vm_compute. reflexivity. Qed.

(** A question answered with status 200: the chat holds the question and
    the answer, the click handler is attached, the form is enabled again
    and the input focused. *)
Example submit_answered :
  let p := submit Sample.net_200 (lit "Quels documents ?") Sample.chat_page in
  length (Script.chatMessages p) = 2
  /\ (Script.listener <$> Script.chatMessages p) = [false; true]
  /\ (Script.content_visible <$> Script.chatMessages p) = [None; Some false]
  /\ (Script.content_visible <$> Script.chatMessages (click 1 p))
     = [None; Some true]
  /\ (Script.arrow <$> Script.chatMessages (click 1 p))
     = [None; Some (lit "▼")]
  /\ Script.questionInput_value p = []
  /\ Script.questionInput_disabled p = false
  /\ Script.sendButton_disabled p = false
  /\ Script.questionInput_focused p = true
  /\ Script.loadingIndicator_visible p = false
  /\ Script.location_href p = None.
Proof. vm_compute. repeat split. Qed.

(** A label that opens a comment: the lookup finds no button, the handler
    throws after the answer is in the chat, and the [catch] block adds the
    error text; no message has a click handler, the form is enabled and
    the input is not focused. *)
Example submit_label_opens_comment :
  let p := submit (fun _ => Response 200 (Some Sample.comment_data))
             (lit "Quels documents ?") Sample.parsed_page in
  length (Script.chatMessages p) = 3
  /\ (Script.listener <$> Script.chatMessages p) = [false; false; false]
  /\ Script.chatMessages (click 1 p) = Script.chatMessages p
  /\ Script.questionInput_disabled p = false
  /\ Script.sendButton_disabled p = false
  /\ Script.questionInput_focused p = false
  /\ Script.loadingIndicator_visible p = false.
Proof. vm_compute. repeat split. Qed.

(** A label that holds a button of the class of the toggle: the handler
    goes on that button, which has no arrow; a click shows the entries
    and leaves the arrows as they are. *)
Example submit_label_holds_button :
  let p := submit (fun _ => Response 200 (Some Sample.button_data))
             (lit "Quels documents ?") Sample.parsed_page in
  (Script.listener <$> Script.chatMessages p) = [false; true]
  /\ (Script.content_visible <$> Script.chatMessages p) = [None; Some false]
  /\ (Script.content_visible <$> Script.chatMessages (click 1 p))
     = [None; Some true]
  /\ (Script.arrow <$> Script.chatMessages (click 1 p)) = [None; None]
  /\ Script.questionInput_focused p = true.
Proof. vm_compute. repeat split. Qed.

(** The same question answered with status 401: only the question is in
    the chat, the storage is empty and the page navigates to the login
    page. *)
Example submit_unauthorized :
  let p := submit Sample.net_401 (lit "Quels documents ?") Sample.chat_page in
  length (Script.chatMessages p) = 1
  /\ Script.localStorage p = ∅
  /\ Script.location_href p = Some (lit "login.html").
Proof. vm_compute. repeat split. Qed.

(** A body without an answer: [formatAnswer] throws, the [catch] block
    shows the error message. *)
Example submit_body_without_answer :
  let data := {| Script.answer := None; Script.confidence := None;
                 Script.confidence_label := None; Script.sources := None |} in
  let p := submit (fun _ => Response 200 (Some data)) (lit "Quels documents ?")
             Sample.chat_page in
  (Script.innerHTML <$> Script.chatMessages p)
  = Script.innerHTML <$>
      Script.chatMessages
        (Script.addErrorMessage
           (lit "Sorry, I encountered an error. Please make sure the backend server is running.")
           (Script.addUserMessage (lit "Quels documents ?") Sample.chat_page)).
Proof. vm_compute. reflexivity. Qed.

(** A successful body without [user]: the token is stored before the read
    of [data.user.name] throws, and the [catch] block shows its message. *)
Example handleLogin_user_missing :
  let data := {| Login.success := Some true;
                 Login.session_token := Some (lit "tok-1");
                 Login.user := None; Login.message := None |} in
  let p := Login.handleLogin (fun _ => Response 200 (Some data)) Sample.login_page in
  Login.localStorage p !! "stb_session_token" = Some (lit "tok-1")
  /\ Login.errorMessage_textContent p = lit "Erreur de connexion. Veuillez réessayer."
  /\ Login.timers p = [].
Proof. vm_compute. repeat split. Qed.

(** An empty password: no request, the form asks for all fields. *)
Example handleLogin_empty_field :
  let p := Login.handleLogin Sample.net_login_ok
             (Login.set_errorMessage [] false None
                (Login.Build_Page (lit "http://localhost:8000") ∅ None
                   (lit "amira@stb.tn") [] false false false
                   (lit "Se connecter") [] false None [] [])) in
  Login.fetched p = []
  /\ Login.errorMessage_textContent p = lit "Veuillez remplir tous les champs".
Proof. vm_compute. repeat split. Qed.

End Scenarios.

(** * Properties beyond the claims *)

(** ** The login handler, over all its outcomes *)
Section LoginOutcomes.
Import Js Net Login LoginSpec Spec Flow.

Local Opaque lit tpl trim quoteJSONString includes.

(** The five ways [handleLogin] ends. *)
Lemma handleLogin_outcomes net (p : Page) :
  (~ filled_in p
   /\ handleLogin net p = showError (lit "Veuillez remplir tous les champs") p)
  \/ (filled_in p
      /\ (net (sent_request p) = NetworkError
          \/ exists status, net (sent_request p) = Response status None)
      /\ handleLogin net p = handleLogin_catch (login_pending p))
  \/ (exists status data u,
        filled_in p
        /\ net (sent_request p) = Response status (Some data)
        /\ ok status && success_truthy data = true /\ user data = Some u
        /\ handleLogin net p
           = setTimeout (Navigate 1000 (lit "index.html"))
               (showSuccess (lit "Connexion réussie! Redirection...")
                  (setItem "stb_user_role" (to_string (role u))
                     (setItem "stb_user_name" (to_string (name u))
                        (setItem "stb_session_token"
                           (to_string (session_token data))
                           (login_pending p))))))
  \/ (exists status data,
        filled_in p
        /\ net (sent_request p) = Response status (Some data)
        /\ ok status && success_truthy data = true /\ user data = None
        /\ handleLogin net p
           = handleLogin_catch
               (setItem "stb_session_token" (to_string (session_token data))
                  (login_pending p)))
  \/ (exists status data,
        filled_in p
        /\ net (sent_request p) = Response status (Some data)
        /\ ok status && success_truthy data = false
        /\ handleLogin net p
           = setFormEnabled true
               (showError
                  (or_default (message data)
                     (lit "Email ou mot de passe incorrect"))
                  (login_pending p))).
Proof.
  unfold handleLogin, filled_in.
  destruct (truthy (trim (emailInput_value p))) eqn:He;
    [|left; split; [intros [H _]; discriminate | reflexivity]].
  destruct (truthy (passwordInput_value p)) eqn:Hp;
    [|left; split; [intros [_ H]; discriminate | reflexivity]].
  right. cbn [negb orb]. cbv zeta.
  fold (sent_request p). fold (login_pending p).
  destruct (net (sent_request p)) as [|status [data|]] eqn:Hnet.
  - left. split; [split; reflexivity|]. split; [now left | reflexivity].
  - right.
    destruct (ok status && success_truthy data) eqn:Hok.
    + destruct (user data) as [u|] eqn:Hu.
      * left. exists status, data, u.
        split; [split; reflexivity|]. split; [reflexivity|].
        split; [exact Hok|]. split; [exact Hu|]. reflexivity.
      * right. left. exists status, data.
        split; [split; reflexivity|]. split; [reflexivity|].
        split; [exact Hok|]. split; [exact Hu|]. reflexivity.
    + right. right. exists status, data.
      split; [split; reflexivity|]. split; [reflexivity|].
      split; [exact Hok | reflexivity].
  - left. split; [split; reflexivity|].
    split; [right; now exists status | reflexivity].
Qed.

Lemma login_pending_fields (p : Page) :
  localStorage (login_pending p) = localStorage p
  /\ location_href (login_pending p) = location_href p
  /\ timers (login_pending p) = timers p
  /\ fetched (login_pending p) = fetched p ++ [sent_request p]
  /\ emailInput_value (login_pending p) = emailInput_value p
  /\ passwordInput_value (login_pending p) = passwordInput_value p.
Proof. repeat split. Qed.

Lemma not_session_key (key : string) :
  ~ session_key key ->
  key <> "stb_session_token" /\ key <> "stb_user_name" /\ key <> "stb_user_role".
Proof. unfold session_key. intros H. repeat split; intros ->; apply H; auto. Qed.

(** Whatever the network answers, [handleLogin] writes no key of the
    storage other than the three session keys, never assigns the location
    itself, leaves the two fields as typed, schedules nothing but the one
    redirect to the main page and sends at most the one login request. *)
Theorem handleLogin_footprint net (p : Page) :
  (forall key, ~ session_key key ->
     localStorage (handleLogin net p) !! key = localStorage p !! key)
  /\ location_href (handleLogin net p) = location_href p
  /\ emailInput_value (handleLogin net p) = emailInput_value p
  /\ passwordInput_value (handleLogin net p) = passwordInput_value p
  /\ (timers (handleLogin net p) = timers p
      \/ timers (handleLogin net p)
         = timers p ++ [Navigate 1000 (lit "index.html")])
  /\ (fetched (handleLogin net p) = fetched p
      \/ fetched (handleLogin net p) = fetched p ++ [sent_request p]).
Proof.
  destruct (handleLogin_outcomes net p)
    as [[_ ->]|[(_ & _ & ->)|[(st & d & u & _ & _ & _ & _ & ->)
       |[(st & d & _ & _ & _ & _ & ->)|(st & d & _ & _ & _ & ->)]]]].
  - split; [reflexivity|]. repeat (split; [reflexivity|]).
    split; left; reflexivity.
  - split; [reflexivity|]. repeat (split; [reflexivity|]).
    split; [left | right]; reflexivity.
  - split.
    + intros key Hk. apply not_session_key in Hk as (H1 & H2 & H3). cbn.
      now rewrite !lookup_insert_ne by congruence.
    + repeat (split; [reflexivity|]). split; right; reflexivity.
  - split.
    + intros key Hk. apply not_session_key in Hk as (H1 & H2 & H3). cbn.
      now rewrite !lookup_insert_ne by congruence.
    + repeat (split; [reflexivity|]). split; [left | right]; reflexivity.
  - split; [reflexivity|]. repeat (split; [reflexivity|]).
    split; [left | right]; reflexivity.
Qed.

(** [handleLogin] sends its request exactly when the email has a character
    that is not white space and the password is not empty: the email is
    trimmed, the password is taken as typed, so a password of spaces
    counts.  Otherwise it only shows the text asking for all fields.  The
    request is a POST with the one header Content-Type and a JSON body of
    the trimmed email and the password as typed. *)
Theorem handleLogin_sends_iff_filled net (p : Page) :
  ((blank (emailInput_value p) \/ passwordInput_value p = [])
   /\ handleLogin net p = showError (lit "Veuillez remplir tous les champs") p
   /\ fetched (handleLogin net p) = fetched p)
  \/ (~ blank (emailInput_value p) /\ passwordInput_value p <> []
      /\ fetched (handleLogin net p) = fetched p ++ [sent_request p]
      /\ req_url (sent_request p) = API_URL p
      /\ req_method (sent_request p) = lit "POST"
      /\ req_headers (sent_request p)
         = [(lit "Content-Type", lit "application/json")]
      /\ req_body (sent_request p)
         = tpl "{'email':" ++ quoteJSONString (trim (emailInput_value p))
           ++ tpl ",'password':" ++ quoteJSONString (passwordInput_value p)
           ++ lit "}"
      /\ parseJSONString (quoteJSONString (trim (emailInput_value p)))
         = Some (trim (emailInput_value p))
      /\ parseJSONString (quoteJSONString (passwordInput_value p))
         = Some (passwordInput_value p)).
Proof.
  destruct (truthy (trim (emailInput_value p))) eqn:He.
  - destruct (truthy (passwordInput_value p)) eqn:Hp.
    + right.
      split; [intros H; apply trim_blank in H; congruence|].
      split; [intros H; rewrite H in Hp; discriminate|].
      split.
      * destruct (handleLogin_outcomes net p)
          as [[Hn _]|[(_ & _ & ->)|[(st & d & u & _ & _ & _ & _ & ->)
             |[(st & d & _ & _ & _ & _ & ->)|(st & d & _ & _ & _ & ->)]]]];
          try reflexivity.
        exfalso. apply Hn. split; assumption.
      * repeat (split; [reflexivity|]).
        split; apply parse_quoteJSONString.
    + left. split; [right; now destruct (passwordInput_value p)|].
      unfold handleLogin. rewrite He, Hp. split; reflexivity.
  - left. split; [left; now apply trim_blank|].
    unfold handleLogin. rewrite He. split; reflexivity.
Qed.

(** Once the request is sent, the form is left disabled only when the
    redirect to the main page is scheduled, the success text showing; in
    every other outcome (network failure, a body that is not JSON, a
    refusal, a success without [user]) the form is enabled again and a
    text is shown as an error. *)
Theorem handleLogin_form_state net (p : Page) :
  filled_in p ->
  (login_form_closed (handleLogin net p)
   /\ timers (handleLogin net p)
      = timers p ++ [Navigate 1000 (lit "index.html")])
  \/ (login_form_open (handleLogin net p)
      /\ timers (handleLogin net p) = timers p).
Proof.
  intros Hf.
  destruct (handleLogin_outcomes net p)
    as [[Hn _]|[(_ & _ & ->)|[(st & d & u & _ & _ & _ & _ & ->)
       |[(st & d & _ & _ & _ & _ & ->)|(st & d & _ & _ & _ & ->)]]]].
  - contradiction.
  - right. split; [|reflexivity]. repeat split.
  - left. split; [|reflexivity]. repeat split.
  - right. split; [|reflexivity]. repeat split.
  - right. split; [|reflexivity]. repeat split.
Qed.

Lemma handleLogin_form_state_witness :
  login_form_open (handleLogin (fun _ => NetworkError) Sample.login_page)
  /\ timers (handleLogin (fun _ => NetworkError) Sample.login_page) = [].
Proof.
  destruct (handleLogin_form_state (fun _ => NetworkError) Sample.login_page)
    as [[H _]|H].
  - split; reflexivity.
  - destruct H as (_ & _ & H & _). vm_compute in H. discriminate.
  - exact H.
Defined.

End LoginOutcomes.

(** ** The session, from the login page to the chat page and back *)
Section Session.
Import Js Net Spec LoginSpec Flow.

Local Opaque lit tpl trim quoteJSONString includes.

(** The storage a successful login leaves. *)
Lemma handleLogin_success_storage net (lp : Login.Page) status data
    token userName userRole :
  filled_in lp ->
  net (sent_request lp) = Response status (Some data) ->
  successful_login status data token userName userRole ->
  Login.localStorage (Login.handleLogin net lp)
  = <["stb_user_role" := userRole]>
      (<["stb_user_name" := userName]>
         (<["stb_session_token" := token]> (Login.localStorage lp))).
Proof.
  intros [He Hp] Hnet (Hok & Hs & Ht & Hu).
  unfold sent_request in Hnet. unfold Login.handleLogin.
  rewrite He, Hp. cbn [negb orb]. rewrite Hnet.
  unfold Login.success_truthy. rewrite Hok, Hs, Ht, Hu. reflexivity.
Qed.

(** What [checkAuthentication] does with a stored token. *)
Lemma checkAuthentication_token (cp : Script.Page) (token : jsstring) :
  Script.localStorage cp !! "stb_session_token" = Some token ->
  Script.sessionToken (Script.checkAuthentication cp) = Some token
  /\ (truthy token = true ->
      Script.currentUser (Script.checkAuthentication cp)
      = Some (Script.localStorage cp !! "stb_user_name",
              Script.localStorage cp !! "stb_user_role")
      /\ Script.location_href (Script.checkAuthentication cp)
         = Script.location_href cp)
  /\ (token = [] ->
      Script.location_href (Script.checkAuthentication cp)
      = Some (lit "login.html")
      /\ Script.currentUser (Script.checkAuthentication cp)
         = Script.currentUser cp).
Proof.
  intros H. unfold Script.checkAuthentication.
  cbn [Script.sessionToken Script.set_sessionToken Script.localStorage].
  rewrite H. cbn [Script.falsy]. split.
  - destruct (truthy token); reflexivity.
  - split.
    + intros ->. split; reflexivity.
    + intros ->. split; reflexivity.
Qed.

(** The token a successful login stores is the token the chat page reads
    when it loads on that storage and sends with every question: the page
    keeps the user and does not leave.  With an empty token the chat page
    sends the user back to the login page. *)
Theorem login_then_chat net (lp : Login.Page) status data
    token userName userRole (cp : Script.Page) :
  filled_in lp ->
  net (sent_request lp) = Response status (Some data) ->
  successful_login status data token userName userRole ->
  Script.localStorage cp = Login.localStorage (Login.handleLogin net lp) ->
  Script.sessionToken (Script.checkAuthentication cp) = Some token
  /\ (truthy token = true ->
      Script.currentUser (Script.checkAuthentication cp)
      = Some (Some userName, Some userRole)
      /\ Script.location_href (Script.checkAuthentication cp)
         = Script.location_href cp)
  /\ (token = [] ->
      Script.location_href (Script.checkAuthentication cp)
      = Some (lit "login.html"))
  /\ (forall (p : Script.Page) net' question,
        reachable cp p -> ~ blank question ->
        Script.fetched (submit net' question p)
        = Script.fetched p ++ [expected_request cp token (trim question)]).
Proof.
  intros Hf Hnet Hs Hcp.
  rewrite (handleLogin_success_storage net lp status data token userName
             userRole Hf Hnet Hs) in Hcp.
  assert (Ht : Script.localStorage cp !! "stb_session_token" = Some token).
  { rewrite Hcp. now rewrite !lookup_insert_ne, lookup_insert_eq by discriminate. }
  assert (Hn : Script.localStorage cp !! "stb_user_name" = Some userName).
  { rewrite Hcp. now rewrite lookup_insert_ne, lookup_insert_eq by discriminate. }
  assert (Hr : Script.localStorage cp !! "stb_user_role" = Some userRole).
  { rewrite Hcp. now rewrite lookup_insert_eq. }
  destruct (checkAuthentication_token cp token Ht) as (H1 & H2 & H3).
  split; [exact H1|]. split; [|split].
  - intros Htr. destruct (H2 Htr) as [Hu Hl]. rewrite Hu, Hn, Hr. now split.
  - intros He. now destruct (H3 He).
  - intros p net' question Hreach Hq.
    assert (Htq : truthy (trim question) = true).
    { destruct (truthy (trim question)) eqn:E; [reflexivity|].
      exfalso. apply Hq. now apply trim_blank. }
    destruct (reachable_token cp p token Ht Hreach) as (Hs' & Ho).
    unfold submit.
    rewrite (handleSubmit_nonblank net' (Script.set_questionInput_value question p) Htq).
    rewrite fetched_sendQuestion.
    cbn [Script.questionInput_value Script.set_questionInput_value].
    erewrite ask_request_expected; [reflexivity | exact Ho | exact Hs'].
Qed.

Lemma login_then_chat_witness :
  Script.sessionToken (Script.checkAuthentication Sample.chat_page)
  = Some (lit "tok-1").
Proof.
  apply (login_then_chat Sample.net_login_ok Sample.login_page 200%N
           Sample.login_ok_data (lit "tok-1") (lit "Amira") (lit "agent")
           Sample.chat_page).
  - split; reflexivity.
  - reflexivity.
  - split; [reflexivity|]. split; [reflexivity|]. split; reflexivity.
  - vm_compute. reflexivity.
Defined.

(** After a 401 the storage is such that a chat page loading on it goes
    to the login page, with neither token nor user, and the login page
    loading on it stays where it is: there is no redirect back.  The page
    that received the 401 keeps the token in its variable, its form
    disabled and the loading indicator as it was. *)
Theorem unauthorized_then_reload net question (p : Script.Page) json
    (cp : Script.Page) (lp : Login.Page) :
  net (Script.ask_request question p) = Response 401 json ->
  Script.localStorage cp
    = Script.localStorage (Script.sendQuestion net question p) ->
  Login.localStorage lp
    = Script.localStorage (Script.sendQuestion net question p) ->
  Script.location_href (Script.checkAuthentication cp) = Some (lit "login.html")
  /\ Script.sessionToken (Script.checkAuthentication cp) = None
  /\ Script.currentUser (Script.checkAuthentication cp) = Script.currentUser cp
  /\ Login.checkExistingSession lp = lp
  /\ Script.sessionToken (Script.sendQuestion net question p)
     = Script.sessionToken p
  /\ Script.questionInput_disabled (Script.sendQuestion net question p)
     = Script.questionInput_disabled p
  /\ Script.loadingIndicator_visible (Script.sendQuestion net question p)
     = Script.loadingIndicator_visible p.
Proof.
  intros Hnet Hcp Hlp.
  rewrite (sendQuestion_401 net question p json Hnet) in *.
  cbn [Script.localStorage Script.set_location_href Script.set_localStorage]
    in Hcp, Hlp.
  split; [|split; [|split; [|split]]].
  - unfold Script.checkAuthentication.
    cbn [Script.sessionToken Script.set_sessionToken Script.localStorage].
    now rewrite Hcp, lookup_empty.
  - unfold Script.checkAuthentication.
    cbn [Script.sessionToken Script.set_sessionToken Script.localStorage].
    now rewrite Hcp, lookup_empty.
  - unfold Script.checkAuthentication.
    cbn [Script.sessionToken Script.set_sessionToken Script.localStorage].
    now rewrite Hcp, lookup_empty.
  - unfold Login.checkExistingSession. now rewrite Hlp, lookup_empty.
  - repeat split.
Qed.

Lemma unauthorized_then_reload_witness :
  Script.location_href
    (Script.checkAuthentication
       (Script.set_localStorage ∅ Sample.chat_page))
  = Some (lit "login.html").
Proof.
  apply (unauthorized_then_reload Sample.net_401 (lit "Quels documents ?")
           Sample.chat_page None
           (Script.set_localStorage ∅ Sample.chat_page)
           (Login.set_localStorage ∅ Sample.login_page));
    reflexivity.
Defined.

(** A response that reports success but has no [user]: the session token
    is stored before the read of [data.user.name] throws, the name and the
    role are not, no redirect is scheduled and the form shows the
    connection error.  The stored token is enough for both pages: the
    login page loading on that storage goes to the main page, and the chat
    page stays and sends the token. *)
Theorem login_without_user_keeps_token net (lp : Login.Page) status data token
    (lp' : Login.Page) (cp : Script.Page) :
  filled_in lp ->
  net (sent_request lp) = Response status (Some data) ->
  ok status = true -> Login.success data = Some true ->
  Login.session_token data = Some token -> Login.user data = None ->
  truthy token = true ->
  Login.localStorage lp' = Login.localStorage (Login.handleLogin net lp) ->
  Script.localStorage cp = Login.localStorage (Login.handleLogin net lp) ->
  Login.localStorage (Login.handleLogin net lp)
  = <["stb_session_token" := token]> (Login.localStorage lp)
  /\ Login.timers (Login.handleLogin net lp) = Login.timers lp
  /\ login_form_open (Login.handleLogin net lp)
  /\ Login.errorMessage_textContent (Login.handleLogin net lp)
     = lit "Erreur de connexion. Veuillez réessayer."
  /\ Login.checkExistingSession lp'
     = Login.set_location_href (Some (lit "index.html")) lp'
  /\ Script.sessionToken (Script.checkAuthentication cp) = Some token
  /\ Script.location_href (Script.checkAuthentication cp)
     = Script.location_href cp.
Proof.
  intros [He Hp] Hnet Hok Hs Ht Hu Htr Hlp Hcp.
  assert (E : Login.handleLogin net lp
              = Login.handleLogin_catch
                  (Login.setItem "stb_session_token" token (login_pending lp))).
  { unfold sent_request in Hnet. unfold Login.handleLogin.
    rewrite He, Hp. cbn [negb orb]. rewrite Hnet.
    unfold Login.success_truthy. rewrite Hok, Hs, Ht, Hu. reflexivity. }
  rewrite E in *.
  cbn [Login.localStorage Login.handleLogin_catch Login.setFormEnabled
       Login.set_loginButton_text Login.set_disabled Login.showError
       Login.set_errorMessage Login.setItem Login.set_localStorage
       login_pending Login.set_fetched Login.hideError] in Hlp, Hcp.
  split; [reflexivity|]. split; [reflexivity|].
  split; [repeat split|]. split; [reflexivity|].
  split; [|split].
  - unfold Login.checkExistingSession.
    now rewrite Hlp, lookup_insert_eq, Htr.
  - apply checkAuthentication_token. now rewrite Hcp, lookup_insert_eq.
  - apply (checkAuthentication_token cp token); [|exact Htr].
    now rewrite Hcp, lookup_insert_eq.
Qed.

Lemma login_without_user_keeps_token_witness :
  Login.localStorage (Login.handleLogin net_login_no_user Sample.login_page)
  = <["stb_session_token" := lit "tok-1"]> ∅.
Proof.
  apply (login_without_user_keeps_token net_login_no_user
           Sample.login_page 200%N login_no_user_data (lit "tok-1")
           (Login.set_localStorage (<["stb_session_token" := lit "tok-1"]> ∅)
              Sample.login_page)
           (Script.set_localStorage (<["stb_session_token" := lit "tok-1"]> ∅)
              Sample.chat_page));
    try reflexivity.
  split; reflexivity.
Defined.

End Session.

(** ** The submit handler, over all its outcomes *)
Section SubmitOutcomes.
Import Js Net Script Spec Flow.

Local Opaque lit tpl trim quoteJSONString includes formatAnswer
  createConfidenceBadge createSourcesHtml serialize_text.

Lemma formatAnswer_None (answer : option jsstring) :
  formatAnswer answer = None <-> answer = None.
Proof.
  split.
  - destruct answer as [a|]; [|reflexivity].
    destruct (formatAnswer_total a) as (html & ->). discriminate.
  - intros ->. Local Transparent formatAnswer. reflexivity.
Qed.

Local Opaque formatAnswer.

(** The ways [sendQuestion] ends: a 401, a failure, and an answer, after
    which the call returns or, where the handler of the sources found no
    button, runs its [catch] block on the page with the answer. *)
Lemma sendQuestion_outcomes net question (p : Page) :
  ((exists json, net (ask_request question p) = Response 401 json)
   /\ sendQuestion net question p
      = set_location_href (Some (lit "login.html"))
          (set_localStorage ∅
             (set_fetched (fetched p ++ [ask_request question p]) p)))
  \/ (ask_failure (net (ask_request question p))
      /\ sendQuestion net question p
         = sendQuestion_catch
             (set_fetched (fetched p ++ [ask_request question p]) p))
  \/ (exists status data a m,
        net (ask_request question p) = Response status (Some data)
        /\ status <> 401%N /\ ok status = true
        /\ answer data = Some a
        /\ ((has_sources (sources data)
             && negb (toggleButton (querySelector p (innerHTML m))) = false
             /\ appended p m
             /\ sendQuestion net question p
                = set_questionInput_focused true
                    (setInputEnabled true
                       (scrollToBottom
                          (appendChild m
                             (hideLoading
                                (set_fetched
                                   (fetched p ++ [ask_request question p])
                                   p))))))
            \/ (has_sources (sources data)
                && negb (toggleButton (querySelector p (innerHTML m))) = true
                /\ inert m
                /\ sendQuestion net question p
                   = sendQuestion_catch
                       (appendChild m
                          (hideLoading
                             (set_fetched
                                (fetched p ++ [ask_request question p])
                                p)))))).
Proof.
  destruct (net (ask_request question p)) as [|status json] eqn:Hnet.
  - right. left. split; [now left|]. unfold sendQuestion. now rewrite Hnet.
  - destruct (N.eqb_spec status 401) as [->|Hs].
    + left. split; [now exists json|]. unfold sendQuestion. now rewrite Hnet.
    + right. destruct (ok status) eqn:Hok.
      * destruct json as [data|].
        -- destruct (answer data) as [a|] eqn:Ea.
           ++ right.
              destruct (sendQuestion_answered net question p status data a
                          Hnet Hs Hok Ea) as (m & _ & _ & _ & _ & _ & _ & H).
              exists status, data, a, m.
              split; [reflexivity|]. split; [exact Hs|]. split; [exact Hok|].
              split; [exact Ea | exact H].
           ++ left. split.
              ** right. exists status, (Some data). split; [reflexivity|].
                 split; [exact Hs|]. right. right. exists data.
                 split; [reflexivity | exact Ea].
              ** unfold sendQuestion. rewrite Hnet.
                 apply N.eqb_neq in Hs. rewrite Hs, Hok. cbn [negb]. cbv zeta.
                 unfold addAssistantMessage.
                 rewrite Ea, (proj2 (formatAnswer_None None) eq_refl).
                 reflexivity.
        -- left. split.
           ++ right. exists status, None. split; [reflexivity|].
              split; [exact Hs|]. right. now left.
           ++ unfold sendQuestion. rewrite Hnet.
              apply N.eqb_neq in Hs. now rewrite Hs, Hok.
      * left. split.
        -- right. exists status, json. split; [reflexivity|].
           split; [exact Hs|]. now left.
        -- unfold sendQuestion. rewrite Hnet.
           apply N.eqb_neq in Hs. now rewrite Hs, Hok.
Qed.

(** The message [addErrorMessage] appends for the fixed error text. *)
Lemma addErrorMessage_markup :
  exists e : Message,
    inert e
    /\ forall p : Page,
         addErrorMessage
           (lit "Sorry, I encountered an error. Please make sure the backend server is running.")
           p
         = scrollToBottom (appendChild e p).
Proof.
  eexists. split; [|intros p; reflexivity]. repeat split.
Qed.

(** The page after a failure does not tell the causes apart: a rejected
    request, a status that is not OK (other than 401), a body that is not
    JSON and a body without an answer all leave the page a network error
    leaves, with the one fixed error text in the chat. *)
Theorem sendQuestion_failures_alike net question (p : Page) :
  ask_failure (net (ask_request question p)) ->
  sendQuestion net question p
  = sendQuestion (fun _ => NetworkError) question p
  /\ sendQuestion net question p
     = setInputEnabled true
         (addErrorMessage
            (lit "Sorry, I encountered an error. Please make sure the backend server is running.")
            (hideLoading
               (set_fetched (fetched p ++ [ask_request question p]) p))).
Proof.
  intros Hfail.
  assert (E : sendQuestion net question p
              = sendQuestion_catch
                  (set_fetched (fetched p ++ [ask_request question p]) p)).
  { destruct (sendQuestion_outcomes net question p)
      as [[(json & H) _]|[[_ H]|(status & data & a & m & H & Hs & Hok & Ha & _)]].
    - exfalso. destruct Hfail as [Hf|(st & js & Hf & Hne & _)];
        rewrite H in Hf; [discriminate|]. injection Hf as <- _. now apply Hne.
    - exact H.
    - exfalso. destruct Hfail as [Hf|(st & js & Hf & Hne & Hc)];
        rewrite H in Hf; [discriminate|]. injection Hf as <- <-.
      destruct Hc as [Hc|[Hc|(d & [= <-] & Hc)]]; congruence. }
  split; [|exact E]. rewrite E. reflexivity.
Qed.

Lemma sendQuestion_failures_alike_witness :
  sendQuestion (fun _ => Response 500 None) (lit "Quels documents ?")
    Sample.chat_page
  = sendQuestion (fun _ => NetworkError) (lit "Quels documents ?")
      Sample.chat_page.
Proof.
  apply (sendQuestion_failures_alike (fun _ => Response 500 None)
           (lit "Quels documents ?") Sample.chat_page).
  right. exists 500%N, None. split; [reflexivity|].
  split; [discriminate|]. left. reflexivity.
Defined.

(** What [sendQuestion] does to the fields of the page it starts from. *)
Lemma sendQuestion_fields net question (p : Page) :
  questionInput_value (sendQuestion net question p) = questionInput_value p
  /\ sessionToken (sendQuestion net question p) = sessionToken p
  /\ currentUser (sendQuestion net question p) = currentUser p
  /\ (((exists json, net (ask_request question p) = Response 401 json)
       /\ localStorage (sendQuestion net question p) = ∅
       /\ location_href (sendQuestion net question p) = Some (lit "login.html")
       /\ chatMessages (sendQuestion net question p) = chatMessages p
       /\ questionInput_disabled (sendQuestion net question p)
          = questionInput_disabled p
       /\ sendButton_disabled (sendQuestion net question p)
          = sendButton_disabled p
       /\ loadingIndicator_visible (sendQuestion net question p)
          = loadingIndicator_visible p
       /\ questionInput_focused (sendQuestion net question p)
          = questionInput_focused p)
      \/ (ask_failure (net (ask_request question p))
          /\ localStorage (sendQuestion net question p) = localStorage p
          /\ location_href (sendQuestion net question p) = location_href p
          /\ (exists e, inert e
                /\ chatMessages (sendQuestion net question p)
                   = chatMessages p ++ [e])
          /\ questionInput_disabled (sendQuestion net question p) = false
          /\ sendButton_disabled (sendQuestion net question p) = false
          /\ loadingIndicator_visible (sendQuestion net question p) = false
          /\ questionInput_focused (sendQuestion net question p)
             = questionInput_focused p)
      \/ ((exists status data a m,
             net (ask_request question p) = Response status (Some data)
             /\ status <> 401%N /\ ok status = true
             /\ answer data = Some a
             /\ appended p m
             /\ ((has_sources (sources data)
                  && negb (toggleButton (querySelector p (innerHTML m)))
                  = false
                  /\ chatMessages (sendQuestion net question p)
                     = chatMessages p ++ [m]
                  /\ questionInput_focused (sendQuestion net question p)
                     = true)
                 \/ (has_sources (sources data)
                     && negb (toggleButton (querySelector p (innerHTML m)))
                     = true
                     /\ inert m
                     /\ (exists e, inert e
                           /\ chatMessages (sendQuestion net question p)
                              = chatMessages p ++ [m; e])
                     /\ questionInput_focused (sendQuestion net question p)
                        = questionInput_focused p)))
          /\ localStorage (sendQuestion net question p) = localStorage p
          /\ location_href (sendQuestion net question p) = location_href p
          /\ questionInput_disabled (sendQuestion net question p) = false
          /\ sendButton_disabled (sendQuestion net question p) = false
          /\ loadingIndicator_visible (sendQuestion net question p) = false)).
Proof.
  destruct addErrorMessage_markup as (e & He & Hem).
  destruct (sendQuestion_outcomes net question p)
    as [[H ->]|[[H ->]
       |(status & data & a & m & H & Hs & Hok & Ha
         & [(Hc & Hm & ->)|(Hc & Hm & ->)])]].
  - repeat (split; [reflexivity|]). left. split; [exact H|].
    repeat (split; [reflexivity|]). reflexivity.
  - unfold sendQuestion_catch. rewrite Hem.
    repeat (split; [reflexivity|]). right. left. split; [exact H|].
    split; [reflexivity|]. split; [reflexivity|].
    split; [exists e; split; [exact He | reflexivity]|].
    repeat (split; [reflexivity|]). reflexivity.
  - repeat (split; [reflexivity|]). right. right. split.
    + exists status, data, a, m. split; [exact H|]. split; [exact Hs|].
      split; [exact Hok|]. split; [exact Ha|]. split; [exact Hm|].
      left. split; [exact Hc|]. split; reflexivity.
    + repeat (split; [reflexivity|]). reflexivity.
  - unfold sendQuestion_catch. rewrite Hem.
    repeat (split; [reflexivity|]). right. right. split.
    + exists status, data, a, m. split; [exact H|]. split; [exact Hs|].
      split; [exact Hok|]. split; [exact Ha|]. split; [now left|].
      right. split; [exact Hc|]. split; [exact Hm|]. split; [|reflexivity].
      exists e. split; [exact He|].
      cbn [chatMessages scrollToBottom set_timers appendChild
           set_chatMessages setInputEnabled set_sendButton_disabled
           set_questionInput_disabled hideLoading
           set_loadingIndicator_visible set_fetched].
      now rewrite <- app_assoc.
    + repeat (split; [reflexivity|]). reflexivity.
Qed.

Lemma handleSubmit_pending net (p : Page) :
  ~ blank (questionInput_value p) ->
  handleSubmit net p
  = sendQuestion net (trim (questionInput_value p)) (ask_pending p)
  /\ ask_request (trim (questionInput_value p)) (ask_pending p)
     = typed_request p.
Proof.
  intros Hq.
  assert (Ht : truthy (trim (questionInput_value p)) = true).
  { destruct (truthy (trim (questionInput_value p))) eqn:E; [reflexivity|].
    exfalso. apply Hq. now apply trim_blank. }
  split; [apply (handleSubmit_nonblank net p Ht) | reflexivity].
Qed.

Lemma ask_pending_fields (p : Page) :
  (exists u : Message,
     inert u /\ chatMessages (ask_pending p) = chatMessages p ++ [u])
  /\ localStorage (ask_pending p) = localStorage p
  /\ location_href (ask_pending p) = location_href p
  /\ sessionToken (ask_pending p) = sessionToken p
  /\ currentUser (ask_pending p) = currentUser p
  /\ fetched (ask_pending p) = fetched p
  /\ questionInput_value (ask_pending p) = []
  /\ questionInput_disabled (ask_pending p) = true
  /\ sendButton_disabled (ask_pending p) = true
  /\ loadingIndicator_visible (ask_pending p) = true
  /\ questionInput_focused (ask_pending p) = questionInput_focused p.
Proof.
  destruct addUserMessage_markup as (pre & post & Hu).
  unfold ask_pending. rewrite Hu. split; [|repeat split].
  eexists. split; [|reflexivity]. repeat split.
Qed.

(** Whatever the network answers, a question that is not blank leaves the
    input empty, and the form in one of three states.  After a 401 the
    input and the button stay disabled and the loading indicator stays
    visible.  After a failure both are enabled, the indicator is hidden
    and the focus is where it was.  After an answer both are enabled, the
    indicator is hidden and the message of the answer follows the
    question in the chat; the input then has the focus, unless the answer
    has sources and the lookup in its message finds no button for their
    handler: then the focus is where it was. *)
Theorem handleSubmit_form_state net (p : Page) :
  ~ blank (questionInput_value p) ->
  questionInput_value (handleSubmit net p) = []
  /\ (((exists json, net (typed_request p) = Response 401 json)
       /\ questionInput_disabled (handleSubmit net p) = true
       /\ sendButton_disabled (handleSubmit net p) = true
       /\ loadingIndicator_visible (handleSubmit net p) = true
       /\ questionInput_focused (handleSubmit net p) = questionInput_focused p)
      \/ (ask_failure (net (typed_request p))
          /\ questionInput_disabled (handleSubmit net p) = false
          /\ sendButton_disabled (handleSubmit net p) = false
          /\ loadingIndicator_visible (handleSubmit net p) = false
          /\ questionInput_focused (handleSubmit net p) = questionInput_focused p)
      \/ ((exists status data a m,
             net (typed_request p) = Response status (Some data)
             /\ status <> 401%N /\ ok status = true
             /\ answer data = Some a
             /\ chatMessages (handleSubmit net p)
                  !! S (length (chatMessages p)) = Some m
             /\ questionInput_focused (handleSubmit net p)
                = if has_sources (sources data)
                     && negb (toggleButton (querySelector p (innerHTML m)))
                  then questionInput_focused p else true)
          /\ questionInput_disabled (handleSubmit net p) = false
          /\ sendButton_disabled (handleSubmit net p) = false
          /\ loadingIndicator_visible (handleSubmit net p) = false)).
Proof.
  intros Hq. destruct (handleSubmit_pending net p Hq) as [-> Hr].
  destruct (ask_pending_fields p)
    as ((u & _ & Hc) & _ & _ & _ & _ & _ & Hv & Hd & Hb & Hl & Hfo).
  destruct (sendQuestion_fields net (trim (questionInput_value p))
              (ask_pending p)) as (-> & _ & _ & H).
  rewrite Hr in H. split; [exact Hv|].
  destruct H as [(H & _ & _ & _ & -> & -> & -> & ->)
                |[(H & _ & _ & _ & -> & -> & -> & ->)
                 |((status & data & a & m & H & Hs & Hok & Ha & _ & Hm)
                   & _ & _ & -> & -> & ->)]].
  - left. split; [exact H|]. split; [exact Hd|]. split; [exact Hb|].
    split; [exact Hl | exact Hfo].
  - right. left. split; [exact H|]. repeat (split; [reflexivity|]). exact Hfo.
  - right. right. split; [|repeat split].
    exists status, data, a, m. split; [exact H|]. split; [exact Hs|].
    split; [exact Hok|]. split; [exact Ha|].
    change (querySelector (ask_pending p)) with (querySelector p) in Hm.
    destruct Hm as [(-> & -> & ->)|(-> & _ & (e & _ & ->) & ->)]; rewrite Hc.
    + split; [|reflexivity].
      rewrite lookup_app_r by (rewrite length_app; cbn; lia).
      rewrite length_app. cbn [length].
      replace (S (length (chatMessages p)) - (length (chatMessages p) + 1))
        with 0 by lia.
      reflexivity.
    + split; [|exact Hfo].
      rewrite lookup_app_r by (rewrite length_app; cbn; lia).
      rewrite length_app. cbn [length].
      replace (S (length (chatMessages p)) - (length (chatMessages p) + 1))
        with 0 by lia.
      reflexivity.
Qed.

Lemma handleSubmit_form_state_witness :
  questionInput_value
    (handleSubmit Sample.net_200
       (set_questionInput_value (lit "Quels documents ?") Sample.chat_page))
  = [].
Proof.
  apply (handleSubmit_form_state Sample.net_200
           (set_questionInput_value (lit "Quels documents ?") Sample.chat_page)).
  intros H. apply trim_blank in H. vm_compute in H. discriminate.
Defined.

(** [handleSubmit] reads the storage and never writes to it: the storage
    and the location stay as they are, except that a 401 empties the
    storage and sends the page to the login page.  The token and the user
    the script holds never change. *)
Theorem handleSubmit_storage_and_location net (p : Page) :
  sessionToken (handleSubmit net p) = sessionToken p
  /\ currentUser (handleSubmit net p) = currentUser p
  /\ ((localStorage (handleSubmit net p) = localStorage p
       /\ location_href (handleSubmit net p) = location_href p)
      \/ (localStorage (handleSubmit net p) = ∅
          /\ location_href (handleSubmit net p) = Some (lit "login.html")
          /\ ~ blank (questionInput_value p)
          /\ exists json, net (typed_request p) = Response 401 json)).
Proof.
  destruct (truthy (trim (questionInput_value p))) eqn:Ht.
  - assert (Hq : ~ blank (questionInput_value p)).
    { intros H. apply trim_blank in H. congruence. }
    destruct (handleSubmit_pending net p Hq) as [-> Hr].
    destruct (ask_pending_fields p) as (_ & Hs & Hl & Hk & Hu & _).
    destruct (sendQuestion_fields net (trim (questionInput_value p))
                (ask_pending p)) as (_ & -> & -> & H).
    rewrite Hr in H. split; [exact Hk|]. split; [exact Hu|].
    destruct H as [(H & -> & -> & _)|[(H & -> & -> & _)|(H & -> & -> & _)]].
    + right. split; [reflexivity|]. split; [reflexivity|].
      split; [exact Hq | exact H].
    + left. split; [exact Hs | exact Hl].
    + left. split; [exact Hs | exact Hl].
  - unfold handleSubmit. rewrite Ht. cbn [negb].
    split; [reflexivity|]. split; [reflexivity|]. left. split; reflexivity.
Qed.

(** What a submit adds to the chat. *)
Lemma handleSubmit_appends net (p : Page) :
  exists new : list Message,
    chatMessages (handleSubmit net p) = chatMessages p ++ new
    /\ Forall (appended p) new
    /\ ((blank (questionInput_value p) /\ new = [])
        \/ (~ blank (questionInput_value p)
            /\ (exists json, net (typed_request p) = Response 401 json)
            /\ length new = 1)
        \/ (~ blank (questionInput_value p)
            /\ ask_failure (net (typed_request p))
            /\ length new = 2)
        \/ (~ blank (questionInput_value p)
            /\ exists status data a m,
                 net (typed_request p) = Response status (Some data)
                 /\ status <> 401%N /\ ok status = true
                 /\ answer data = Some a
                 /\ new !! 1 = Some m
                 /\ if has_sources (sources data)
                       && negb (toggleButton (querySelector p (innerHTML m)))
                    then length new = 3 /\ Forall inert new
                    else length new = 2)).
Proof.
  destruct (truthy (trim (questionInput_value p))) eqn:Ht.
  - assert (Hq : ~ blank (questionInput_value p)).
    { intros H. apply trim_blank in H. congruence. }
    destruct (handleSubmit_pending net p Hq) as [-> Hr].
    destruct (ask_pending_fields p) as ((u & Hu & Hc) & _).
    destruct (sendQuestion_fields net (trim (questionInput_value p))
                (ask_pending p)) as (_ & _ & _ & H).
    rewrite Hr in H.
    destruct H as [(H & _ & _ & -> & _)
                  |[(H & _ & _ & (e & He & ->) & _)
                   |((status & data & a & m & H & Hs & Hok & Ha & Hm & Hcase)
                     & _)]].
    + rewrite Hc. exists [u]. split; [reflexivity|].
      split; [constructor; [now left | constructor]|].
      right. left. split; [exact Hq|]. split; [exact H | reflexivity].
    + rewrite Hc. exists [u; e]. split; [now rewrite <- app_assoc|].
      split; [repeat (constructor; [now left|]); constructor|].
      right. right. left. split; [exact Hq|]. split; [exact H | reflexivity].
    + change (querySelector (ask_pending p)) with (querySelector p) in Hcase.
      change (appended (ask_pending p) m) with (appended p m) in Hm.
      destruct Hcase as [(Hcond & -> & _)|(Hcond & Hi & (e & He & ->) & _)];
        rewrite Hc.
      * exists [u; m]. split; [now rewrite <- app_assoc|].
        split; [constructor; [now left|]; constructor; [exact Hm | constructor]|].
        right. right. right. split; [exact Hq|].
        exists status, data, a, m. split; [exact H|]. split; [exact Hs|].
        split; [exact Hok|]. split; [exact Ha|]. split; [reflexivity|].
        rewrite Hcond. reflexivity.
      * exists [u; m; e]. split; [now rewrite <- app_assoc|].
        split; [repeat (constructor; [now left|]); constructor|].
        right. right. right. split; [exact Hq|].
        exists status, data, a, m. split; [exact H|]. split; [exact Hs|].
        split; [exact Hok|]. split; [exact Ha|]. split; [reflexivity|].
        rewrite Hcond. split; [reflexivity|].
        repeat (constructor; [assumption|]); constructor.
  - exists []. rewrite app_nil_r. unfold handleSubmit. rewrite Ht. cbn [negb].
    split; [reflexivity|]. split; [constructor|].
    left. split; [now apply trim_blank | reflexivity].
Qed.

(** A submit never removes or changes a message of the chat: it appends
    nothing for a blank question, the question alone after a 401, the
    question and the error text after a failure, and after an answer the
    question and the message of the answer.  An answer with sources whose
    message gives the lookup no button for the handler is followed by the
    error text as well, and none of the three messages has a handler.
    What is appended has no handler or has it on elements as the lookup
    found them. *)
Theorem handleSubmit_chat_grows net (p : Page) :
  exists new : list Message,
    chatMessages (handleSubmit net p) = chatMessages p ++ new
    /\ Forall (appended p) new
    /\ ((blank (questionInput_value p) /\ new = [])
        \/ (~ blank (questionInput_value p)
            /\ (exists json, net (typed_request p) = Response 401 json)
            /\ length new = 1)
        \/ (~ blank (questionInput_value p)
            /\ ask_failure (net (typed_request p))
            /\ length new = 2)
        \/ (~ blank (questionInput_value p)
            /\ exists status data a m,
                 net (typed_request p) = Response status (Some data)
                 /\ status <> 401%N /\ ok status = true
                 /\ answer data = Some a
                 /\ new !! 1 = Some m
                 /\ if has_sources (sources data)
                       && negb (toggleButton (querySelector p (innerHTML m)))
                    then length new = 3 /\ Forall inert new
                    else length new = 2)).
Proof. apply handleSubmit_appends. Qed.

End SubmitOutcomes.

(** ** Every page the user can reach *)
Section Reachable.
Import Js Net Script Spec Flow.

Local Opaque lit tpl trim quoteJSONString includes formatAnswer
  createConfidenceBadge createSourcesHtml serialize_text.

Lemma checkAuthentication_keeps_chat (p : Page) :
  chatMessages (checkAuthentication p) = chatMessages p
  /\ fetched (checkAuthentication p) = fetched p.
Proof.
  unfold checkAuthentication.
  cbn [sessionToken set_sessionToken localStorage].
  destruct (falsy (localStorage p !! "stb_session_token")); split; reflexivity.
Qed.

Lemma checkAuthentication_querySelector (p : Page) :
  querySelector (checkAuthentication p) = querySelector p.
Proof.
  unfold checkAuthentication.
  cbn [sessionToken set_sessionToken localStorage].
  destruct (falsy (localStorage p !! "stb_session_token")); reflexivity.
Qed.

(** Submits and clicks leave the lookups as they are. *)
Lemma reachable_querySelector (p0 p : Page) :
  reachable p0 p -> querySelector p = querySelector p0.
Proof.
  induction 1 as [|p net question _ IH|p i _ IH].
  - apply checkAuthentication_querySelector.
  - unfold submit. now rewrite handleSubmit_querySelector.
  - exact IH.
Qed.

Lemma settled_ext (p q : Page) (m : Message) :
  querySelector p = querySelector q -> appended p m -> settled q m.
Proof.
  unfold settled, appended, as_found. intros E [H|H]; [now left; left|].
  left. right. now rewrite <- E.
Qed.

Lemma clickToggle_markup (m : Message) :
  innerHTML (clickToggle m) = innerHTML m
  /\ className (clickToggle m) = className m.
Proof.
  unfold clickToggle.
  destruct (listener m); [|split; reflexivity].
  destruct (content_visible m); split; reflexivity.
Qed.

(** After a click that reaches the content, the arrow agrees with it. *)
Lemma clickToggle_agrees (m : Message) :
  listener m = true ->
  clickToggle m = m \/ arrow_agrees (clickToggle m).
Proof.
  unfold arrow_agrees, clickToggle. intros ->.
  destruct (content_visible m) as [visible|]; [right | now left].
  cbn [content_visible arrow]. destruct (arrow m); [reflexivity | exact I].
Qed.

Lemma clickToggle_listener (m : Message) :
  listener (clickToggle m) = listener m.
Proof.
  unfold clickToggle. destruct (listener m) eqn:E; [|exact E].
  destruct (content_visible m); [reflexivity | exact E].
Qed.

Lemma clickToggle_settled (p : Page) (m : Message) :
  settled p m -> settled p (clickToggle m).
Proof.
  intros H. destruct (listener m) eqn:El.
  - destruct (clickToggle_agrees m El) as [->|Ha]; [exact H|].
    right. split; [now rewrite clickToggle_listener | exact Ha].
  - unfold clickToggle. now rewrite El.
Qed.

(** On every reachable page every message is as it was appended or has
    its arrow set by a click. *)
Lemma reachable_settled (p0 p : Page) :
  reachable p0 p ->
  Forall (settled p0) (chatMessages p0) ->
  Forall (settled p0) (chatMessages p).
Proof.
  intros Hreach H0.
  induction Hreach as [|p net question Hp IH|p i _ IH].
  - now destruct (checkAuthentication_keeps_chat p0) as [-> _].
  - unfold submit.
    destruct (handleSubmit_appends net (set_questionInput_value question p))
      as (new & -> & Hnew & _).
    apply Forall_app. split; [exact IH|].
    eapply Forall_impl; [exact Hnew|]. intros m.
    apply settled_ext. exact (reachable_querySelector p0 p Hp).
  - unfold click. cbn [chatMessages set_chatMessages].
    apply Forall_alter; [exact IH|]. intros x _. apply clickToggle_settled.
Qed.

(** A message whose handler works on the elements [createSourcesHtml]
    wrote has its arrow in agreement with its content, clicked or not. *)
Lemma settled_written (p : Page) (m : Message) :
  settled p m ->
  (listener m = true -> querySelector p (innerHTML m) = written_elements) ->
  arrow_agrees m.
Proof.
  unfold settled, appended, inert, as_found, arrow_agrees.
  intros [[(_ & -> & _)|(Hl & -> & ->)]|(_ & H)] Hw; [exact I| |exact H].
  rewrite (Hw Hl). reflexivity.
Qed.

Lemma clickToggle_twice (m : Message) :
  arrow_agrees m -> clickToggle (clickToggle m) = m.
Proof.
  unfold arrow_agrees, clickToggle. destruct m as [c h [|] [[|]|] [t|]]; cbn;
    intros H; try reflexivity; now rewrite H.
Qed.

Lemma clickToggle_thrice (m : Message) :
  clickToggle (clickToggle (clickToggle m)) = clickToggle m.
Proof.
  unfold clickToggle. destruct m as [c h [|] [[|]|] [t|]]; reflexivity.
Qed.

(** A click on a message acts on what the handler of that message holds:
    the third of three clicks undoes the second, whatever the lookups
    found.  On a reachable page two clicks leave the chat as it was when
    the handler of the message works on the elements [createSourcesHtml]
    wrote; a click on a position that holds no message, or a message
    without a handler, changes nothing. *)
Theorem click_twice_restores (p0 p : Page) (i : nat) :
  reachable p0 p ->
  Forall (settled p0) (chatMessages p0) ->
  chatMessages (click i (click i (click i p))) = chatMessages (click i p)
  /\ ((forall m, chatMessages p !! i = Some m -> listener m = true ->
         querySelector p0 (innerHTML m) = written_elements) ->
      chatMessages (click i (click i p)) = chatMessages p)
  /\ (match chatMessages p !! i with
      | Some m => listener m = false
      | None => True
      end -> chatMessages (click i p) = chatMessages p).
Proof.
  intros Hreach H0. pose proof (reachable_settled p0 p Hreach H0) as Ha.
  unfold click. cbn [chatMessages set_chatMessages]. split; [|split].
  - apply list_eq. intros j.
    destruct (decide (i = j)) as [->|Hne];
      [|now rewrite !list_lookup_alter_ne].
    rewrite !list_lookup_alter_eq.
    destruct (chatMessages p !! j) as [m|] eqn:E; [|reflexivity].
    cbn. f_equal. apply clickToggle_thrice.
  - intros Hw. apply list_eq. intros j.
    destruct (decide (i = j)) as [->|Hne];
      [|now rewrite !list_lookup_alter_ne].
    rewrite !list_lookup_alter_eq.
    destruct (chatMessages p !! j) as [m|] eqn:E; [|reflexivity].
    cbn. f_equal. apply clickToggle_twice, (settled_written p0).
    + rewrite Forall_forall in Ha. apply Ha. eapply list_elem_of_lookup_2, E.
    + now apply Hw.
  - intros Hn. apply list_eq. intros j.
    destruct (decide (i = j)) as [->|Hne];
      [|now rewrite list_lookup_alter_ne].
    rewrite list_lookup_alter_eq.
    destruct (chatMessages p !! j) as [m|] eqn:E; [|reflexivity].
    cbn. f_equal. unfold clickToggle. now rewrite Hn.
Qed.

Lemma click_twice_restores_witness :
  chatMessages
    (click 1 (click 1 (submit Sample.net_200 (lit "Quels documents ?")
                         (checkAuthentication Sample.chat_page))))
  = chatMessages (submit Sample.net_200 (lit "Quels documents ?")
                    (checkAuthentication Sample.chat_page)).
Proof.
  refine (proj1 (proj2 (click_twice_restores Sample.chat_page
                   (submit Sample.net_200 (lit "Quels documents ?")
                      (checkAuthentication Sample.chat_page)) 1 _ _)) _).
  - apply reachable_submit, reachable_loaded.
  - constructor.
  - intros m _ _. reflexivity.
Defined.

(** Over any sequence of submits and clicks the chat only grows: the
    messages that were there stay in place with their markup and class
    unchanged, and the lookups stay as they were.  Every message is as it
    was appended, without a handler or with its handler on elements as
    the lookup found them, or has its arrow set by a click, in agreement
    with the state of its content; so the arrow agrees with the content
    wherever the handler works on the elements [createSourcesHtml]
    wrote. *)
Theorem reachable_chat_kept (p0 p : Page) :
  reachable p0 p ->
  Forall (settled p0) (chatMessages p0) ->
  (innerHTML <$> chatMessages p0) `prefix_of` (innerHTML <$> chatMessages p)
  /\ (className <$> chatMessages p0) `prefix_of` (className <$> chatMessages p)
  /\ querySelector p = querySelector p0
  /\ Forall (settled p0) (chatMessages p)
  /\ Forall (fun m =>
               (listener m = true ->
                querySelector p0 (innerHTML m) = written_elements) ->
               arrow_agrees m) (chatMessages p).
Proof.
  intros Hreach H0.
  split; [|split]; [| |split; [exact (reachable_querySelector p0 p Hreach)|]].
  - clear H0. induction Hreach as [|p net question _ IH|p i _ IH].
    + now destruct (checkAuthentication_keeps_chat p0) as [-> _].
    + unfold submit.
      destruct (handleSubmit_appends net (set_questionInput_value question p))
        as (new & -> & _).
      cbn [chatMessages set_questionInput_value]. rewrite fmap_app.
      now apply prefix_app_r.
    + unfold click. cbn [chatMessages set_chatMessages].
      rewrite (list_fmap_alter innerHTML clickToggle id).
      * now rewrite list_alter_id by reflexivity.
      * apply Forall_forall. intros x _. apply clickToggle_markup.
  - clear H0. induction Hreach as [|p net question _ IH|p i _ IH].
    + now destruct (checkAuthentication_keeps_chat p0) as [-> _].
    + unfold submit.
      destruct (handleSubmit_appends net (set_questionInput_value question p))
        as (new & -> & _).
      cbn [chatMessages set_questionInput_value]. rewrite fmap_app.
      now apply prefix_app_r.
    + unfold click. cbn [chatMessages set_chatMessages].
      rewrite (list_fmap_alter className clickToggle id).
      * now rewrite list_alter_id by reflexivity.
      * apply Forall_forall. intros x _. apply clickToggle_markup.
  - pose proof (reachable_settled p0 p Hreach H0) as Hs.
    split; [exact Hs|].
    eapply Forall_impl; [exact Hs|]. intros m. apply settled_written.
Qed.

Lemma reachable_chat_kept_witness :
  Forall (settled Sample.chat_page)
    (chatMessages
       (click 1 (submit Sample.net_200 (lit "Quels documents ?")
                   (checkAuthentication Sample.chat_page)))).
Proof.
  apply (reachable_chat_kept Sample.chat_page
           (click 1 (submit Sample.net_200 (lit "Quels documents ?")
                       (checkAuthentication Sample.chat_page)))).
  - apply reachable_click, reachable_submit, reachable_loaded.
  - constructor.
Defined.

(** What a submit adds to the requests. *)
Lemma submit_fetched net question (p0 p : Page) (token : jsstring) :
  sessionToken p = Some token -> origin p = origin p0 ->
  (blank question /\ fetched (submit net question p) = fetched p)
  \/ (~ blank question
      /\ fetched (submit net question p)
         = fetched p ++ [expected_request p0 token (trim question)]).
Proof.
  intros Hs Ho. unfold submit.
  destruct (truthy (trim question)) eqn:Ht.
  - right. split; [intros H; apply trim_blank in H; congruence|].
    rewrite (handleSubmit_nonblank net (set_questionInput_value question p) Ht).
    rewrite fetched_sendQuestion.
    cbn [questionInput_value set_questionInput_value].
    erewrite ask_request_expected; [reflexivity | exact Ho | exact Hs].
  - left. assert (Hb : blank question) by now apply trim_blank.
    split; [exact Hb|].
    now rewrite (handleSubmit_blank net (set_questionInput_value question p)).
Qed.

(** Over any sequence of submits and clicks, every request the page has
    sent since it was loaded with a stored token is the request of a
    question that was not blank: a POST to the same URL, with the header
    Authorization: Bearer and that token, and the trimmed question as its
    JSON body.  Nothing else is ever sent, and no request is forgotten. *)
Theorem reachable_requests (p0 p : Page) (token : jsstring) :
  localStorage p0 !! "stb_session_token" = Some token ->
  reachable p0 p ->
  exists new : list Request,
    fetched p = fetched p0 ++ new
    /\ Forall (fun r => exists question,
                 ~ blank question
                 /\ r = expected_request p0 token (trim question)) new.
Proof.
  intros Htok Hreach.
  induction Hreach as [|p net question Hp (new & IH & IHf)|p i _ IH].
  - exists []. destruct (checkAuthentication_keeps_chat p0) as [_ ->].
    rewrite app_nil_r. split; [reflexivity | constructor].
  - destruct (reachable_token p0 p token Htok Hp) as (Hs & Ho).
    destruct (submit_fetched net question p0 p token Hs Ho) as [[_ ->]|[Hq ->]].
    + exists new. split; assumption.
    + exists (new ++ [expected_request p0 token (trim question)]).
      rewrite IH, <- app_assoc. split; [reflexivity|].
      apply Forall_app. split; [exact IHf|].
      constructor; [|constructor]. now exists question.
  - exact IH.
Qed.

Lemma reachable_requests_witness :
  exists new : list Request,
    fetched (submit Sample.net_200 (lit "Quels documents ?")
               (checkAuthentication Sample.chat_page))
    = fetched Sample.chat_page ++ new
    /\ Forall (fun r => exists question,
                 ~ blank question
                 /\ r = expected_request Sample.chat_page (lit "tok-1")
                          (trim question)) new.
Proof.
  apply (reachable_requests Sample.chat_page
           (submit Sample.net_200 (lit "Quels documents ?")
              (checkAuthentication Sample.chat_page)) (lit "tok-1")).
  - reflexivity.
  - apply reachable_submit, reachable_loaded.
Defined.

End Reachable.

(** ** More on the markup of an answer *)
Section Markup.
Import Js Net Script Spec Flow.

Local Transparent formatAnswer serialize_text.
Local Opaque trim.

Lemma length_serialize_text (s : jsstring) :
  length s <= length (serialize_text s).
Proof.
  induction s as [|c s IH]; [reflexivity|].
  rewrite serialize_text_cons, length_app. cbn [length].
  assert (L : 1 <= length (escape_unit c)).
  { destruct (escape_unit_cases c)
      as [[_ ->]|[[_ ->]|[[_ ->]|[[_ ->]|(_ & _ & _ & _ & ->)]]]];
      vm_compute; lia. }
  lia.
Qed.

(** [escapeHtml] returns a text as it is exactly when the text has no
    ampersand, no angle bracket and no no-break space; it never returns a
    shorter text, and two texts with the same result are the same text. *)
Theorem escapeHtml_identity_iff_plain (s : jsstring) :
  (escapeHtml (Some s) = s <-> plain_text s)
  /\ length s <= length (escapeHtml (Some s))
  /\ (forall t : jsstring, escapeHtml (Some s) = escapeHtml (Some t) -> s = t).
Proof.
  unfold escapeHtml. cbn [textContent_of]. split; [|split].
  - unfold plain_text. induction s as [|c s IH]; [split; [constructor | reflexivity]|].
    rewrite serialize_text_cons.
    pose proof (length_serialize_text s) as Hlen.
    destruct (escape_unit_cases c)
      as [[-> ->]|[[-> ->]|[[-> ->]|[[-> ->]|(H1 & H2 & H3 & H4 & ->)]]]].
    + split.
      * change (lit "&amp;") with [38; 97; 109; 112; 59]%N. cbn [app].
        intros [= E]. exfalso. apply (f_equal length) in E.
        cbn [length] in E. lia.
      * inversion 1 as [|? ? (Hc & _) _]. congruence.
    + split.
      * change (lit "&nbsp;") with [38; 110; 98; 115; 112; 59]%N. cbn [app].
        intros E. discriminate E.
      * inversion 1 as [|? ? (_ & _ & _ & Hc) _]. congruence.
    + split.
      * change (lit "&lt;") with [38; 108; 116; 59]%N. cbn [app].
        intros E. discriminate E.
      * inversion 1 as [|? ? (_ & Hc & _) _]. congruence.
    + split.
      * change (lit "&gt;") with [38; 103; 116; 59]%N. cbn [app].
        intros E. discriminate E.
      * inversion 1 as [|? ? (_ & _ & Hc & _) _]. congruence.
    + cbn [app]. split.
      * intros [= E]. constructor; [repeat split; assumption|]. now apply IH.
      * inversion 1 as [|? ? _ Hs]. f_equal. now apply IH.
  - apply length_serialize_text.
  - intros t E. apply (f_equal parse_text) in E.
    now rewrite !parse_serialize_text in E.
Qed.

(** The three shapes of the markup, with the number of items. *)
Lemma formatAnswer_items_internal (answer : jsstring) :
  (Exists (fun line => marked ordinal_marker (trim line)) (nonblank_lines answer)
   /\ exists texts,
        length texts = length (nonblank_lines answer)
        /\ formatAnswer (Some answer)
           = Some (tpl "<ol>" ++ items_markup texts ++ tpl "</ol>"))
  \/ (~ Exists (fun line => marked ordinal_marker (trim line))
          (nonblank_lines answer)
      /\ Exists (fun line => marked bullet_marker (trim line))
           (nonblank_lines answer)
      /\ exists texts,
           length texts = length (nonblank_lines answer)
           /\ formatAnswer (Some answer)
              = Some (tpl "<ul>" ++ items_markup texts ++ tpl "</ul>"))
  \/ (~ Exists (fun line => marked ordinal_marker (trim line))
          (nonblank_lines answer)
      /\ ~ Exists (fun line => marked bullet_marker (trim line))
            (nonblank_lines answer)
      /\ formatAnswer (Some answer)
         = Some (paragraphs_markup (nonblank_lines answer))).
Proof.
  unfold formatAnswer. fold (nonblank_lines answer).
  pose proof (existsb_marked test_ordinal ordinal_marker
                (nonblank_lines answer) test_ordinal_spec) as Ho.
  pose proof (existsb_marked test_bullet bullet_marker
                (nonblank_lines answer) test_bullet_spec) as Hb.
  destruct (existsb (fun line => test_ordinal (trim line)) (nonblank_lines answer)).
  - left. split; [now apply Ho|].
    destruct (rendered_items_of_replace ordinal_marker match_ordinal
                (nonblank_lines answer) match_ordinal_spec) as (texts & F & E).
    exists texts. split; [symmetry; eapply Forall2_length; exact F|].
    rewrite <- E. reflexivity.
  - right.
    assert (Hno : ~ Exists (fun line => marked ordinal_marker (trim line))
                    (nonblank_lines answer)).
    { intros H. apply Ho in H. discriminate. }
    destruct (existsb (fun line => test_bullet (trim line)) (nonblank_lines answer)).
    + left. split; [exact Hno|]. split; [now apply Hb|].
      destruct (rendered_items_of_replace bullet_marker match_bullet
                  (nonblank_lines answer) match_bullet_spec) as (texts & F & E).
      exists texts. split; [symmetry; eapply Forall2_length; exact F|].
      rewrite <- E. reflexivity.
    + right. split; [exact Hno|]. split; [|reflexivity].
      intros H. apply Hb in H. discriminate.
Qed.

(** The text of every list item, with nothing left open: a line that
    begins with the marker renders without it, and every other line
    renders as its trimmed text.  So a line whose marker comes after
    leading white space, which is what makes the answer a list, keeps its
    marker in the item. *)
Theorem formatAnswer_items_exact (answer : jsstring) :
  (Exists (fun line => marked ordinal_marker (trim line)) (nonblank_lines answer)
   /\ exists texts,
        Forall2 (rendered_item ordinal_marker) (nonblank_lines answer) texts
        /\ formatAnswer (Some answer)
           = Some (tpl "<ol>" ++ items_markup texts ++ tpl "</ol>"))
  \/ (~ Exists (fun line => marked ordinal_marker (trim line))
          (nonblank_lines answer)
      /\ Exists (fun line => marked bullet_marker (trim line))
           (nonblank_lines answer)
      /\ exists texts,
           Forall2 (rendered_item bullet_marker) (nonblank_lines answer) texts
           /\ formatAnswer (Some answer)
              = Some (tpl "<ul>" ++ items_markup texts ++ tpl "</ul>"))
  \/ (~ Exists (fun line => marked ordinal_marker (trim line))
          (nonblank_lines answer)
      /\ ~ Exists (fun line => marked bullet_marker (trim line))
            (nonblank_lines answer)
      /\ formatAnswer (Some answer)
         = Some (paragraphs_markup (nonblank_lines answer))).
Proof.
  unfold formatAnswer. fold (nonblank_lines answer).
  pose proof (existsb_marked test_ordinal ordinal_marker
                (nonblank_lines answer) test_ordinal_spec) as Ho.
  pose proof (existsb_marked test_bullet bullet_marker
                (nonblank_lines answer) test_bullet_spec) as Hb.
  destruct (existsb (fun line => test_ordinal (trim line)) (nonblank_lines answer)).
  - left. split; [now apply Ho|].
    destruct (rendered_items_of_replace ordinal_marker match_ordinal
                (nonblank_lines answer) match_ordinal_spec) as (texts & F & E).
    exists texts. split; [exact F|]. rewrite <- E. reflexivity.
  - right.
    assert (Hno : ~ Exists (fun line => marked ordinal_marker (trim line))
                    (nonblank_lines answer)).
    { intros H. apply Ho in H. discriminate. }
    destruct (existsb (fun line => test_bullet (trim line)) (nonblank_lines answer)).
    + left. split; [exact Hno|]. split; [now apply Hb|].
      destruct (rendered_items_of_replace bullet_marker match_bullet
                  (nonblank_lines answer) match_bullet_spec) as (texts & F & E).
      exists texts. split; [exact F|]. rewrite <- E. reflexivity.
    + right. split; [exact Hno|]. split; [|reflexivity].
      intros H. apply Hb in H. discriminate.
Qed.

(** *** Counting the list items of the markup *)

Lemma occurrences_escaped (pat e rest : jsstring) :
  no_angle_bracket e ->
  occurrences (60%N :: pat) (e ++ rest) = occurrences (60%N :: pat) rest.
Proof.
  induction 1 as [|c e [Hc _] _ IH]; [reflexivity|].
  cbn [app occurrences starts_with].
  replace (60 =? c)%N with false by (symmetry; apply N.eqb_neq; congruence).
  cbn [andb]. exact IH.
Qed.

Lemma occurrences_item (t rest : jsstring) :
  list_item_count (tpl "<li>" ++ escapeHtml (Some t) ++ tpl "</li>" ++ rest)
  = S (list_item_count rest).
Proof.
  unfold list_item_count.
  change (lit "<li>") with [60; 108; 105; 62]%N.
  change (tpl "<li>") with [60; 108; 105; 62]%N.
  change (tpl "</li>") with [60; 47; 108; 105; 62]%N.
  cbn [app occurrences starts_with N.eqb Pos.eqb andb Nat.add].
  rewrite occurrences_escaped by apply serialize_text_no_angle_bracket.
  reflexivity.
Qed.

Lemma occurrences_paragraph (l rest : jsstring) :
  list_item_count (tpl "<p>" ++ escapeHtml (Some l) ++ tpl "</p>" ++ rest)
  = list_item_count rest.
Proof.
  unfold list_item_count.
  change (lit "<li>") with [60; 108; 105; 62]%N.
  change (tpl "<p>") with [60; 112; 62]%N.
  change (tpl "</p>") with [60; 47; 112; 62]%N.
  cbn [app occurrences starts_with N.eqb Pos.eqb andb Nat.add].
  rewrite occurrences_escaped by apply serialize_text_no_angle_bracket.
  reflexivity.
Qed.

Lemma occurrences_items (texts : list jsstring) (rest : jsstring) :
  list_item_count (items_markup texts ++ rest)
  = length texts + list_item_count rest.
Proof.
  unfold items_markup.
  induction texts as [|t ts IH]; [reflexivity|].
  cbn [map concat length]. rewrite <- !app_assoc.
  rewrite occurrences_item, IH. reflexivity.
Qed.

Lemma occurrences_paragraphs (lines : list jsstring) (rest : jsstring) :
  list_item_count (paragraphs_markup lines ++ rest) = list_item_count rest.
Proof.
  unfold paragraphs_markup.
  induction lines as [|l ls IH]; [reflexivity|].
  cbn [map concat]. rewrite <- !app_assoc.
  rewrite occurrences_paragraph, IH. reflexivity.
Qed.

(** When the answer is a list, ordered or not, the markup has one list
    item for each non-blank line of the answer, neither more nor fewer,
    whatever the lines contain; when it is prose the markup has no list
    item. *)
Theorem formatAnswer_item_count (answer : jsstring) :
  exists html,
    formatAnswer (Some answer) = Some html
    /\ (((Exists (fun line => marked ordinal_marker (trim line))
            (nonblank_lines answer)
          \/ Exists (fun line => marked bullet_marker (trim line))
               (nonblank_lines answer))
         /\ list_item_count html = length (nonblank_lines answer))
        \/ (~ Exists (fun line => marked ordinal_marker (trim line))
                (nonblank_lines answer)
            /\ ~ Exists (fun line => marked bullet_marker (trim line))
                  (nonblank_lines answer)
            /\ list_item_count html = 0)).
Proof.
  destruct (formatAnswer_items_internal answer)
    as [(Ho & texts & Hl & ->)|[(Hno & Hb & texts & Hl & ->)|(Hno & Hnb & ->)]];
    eexists; (split; [reflexivity|]).
  - left. split; [now left|].
    change (tpl "<ol>") with [60; 111; 108; 62]%N.
    cbn [app]. unfold list_item_count at 1.
    change (lit "<li>") with [60; 108; 105; 62]%N.
    cbn [occurrences starts_with N.eqb Pos.eqb andb Nat.add].
    change (occurrences [60; 108; 105; 62]%N (items_markup texts ++ tpl "</ol>"))
      with (list_item_count (items_markup texts ++ tpl "</ol>")).
    rewrite occurrences_items, Hl.
    change (list_item_count (tpl "</ol>")) with 0. lia.
  - left. split; [now right|].
    change (tpl "<ul>") with [60; 117; 108; 62]%N.
    cbn [app]. unfold list_item_count at 1.
    change (lit "<li>") with [60; 108; 105; 62]%N.
    cbn [occurrences starts_with N.eqb Pos.eqb andb Nat.add].
    change (occurrences [60; 108; 105; 62]%N (items_markup texts ++ tpl "</ul>"))
      with (list_item_count (items_markup texts ++ tpl "</ul>")).
    rewrite occurrences_items, Hl.
    change (list_item_count (tpl "</ul>")) with 0. lia.
  - right. split; [exact Hno|]. split; [exact Hnb|].
    rewrite <- (app_nil_r (paragraphs_markup _)).
    now rewrite occurrences_paragraphs.
Qed.

(** *** The blank answer *)

Lemma split_lines_blank (s : jsstring) :
  blank s <-> Forall blank (split_lines s).
Proof.
  unfold blank. induction s as [|c s IH].
  - split; intros _; repeat constructor.
  - cbn [split_lines]. destruct (N.eqb_spec c 10) as [->|Hc].
    + split.
      * inversion 1; subst. constructor; [constructor | now apply IH].
      * inversion 1; subst. constructor; [reflexivity | now apply IH].
    + destruct (split_lines s) as [|l ls] eqn:E.
      * destruct (split_lines_join s) as (l & ls & E' & _). congruence.
      * split.
        -- inversion 1 as [|? ? Hc' Hs]; subst. apply IH in Hs.
           inversion Hs; subst. constructor; [constructor|]; assumption.
        -- inversion 1 as [|? ? Hl Hls]; subst. inversion Hl; subst.
           constructor; [assumption|]. apply IH. constructor; assumption.
Qed.

Lemma nonblank_lines_nil (answer : jsstring) :
  nonblank_lines answer = [] <-> blank answer.
Proof.
  rewrite split_lines_blank. unfold nonblank_lines.
  induction (split_lines answer) as [|l ls IH]; [split; constructor|].
  cbn [List.filter]. destruct (truthy (trim l)) eqn:E.
  - split; [discriminate|]. inversion 1 as [|? ? Hl _]; subst.
    apply trim_blank in Hl. congruence.
  - rewrite IH. split.
    + intros H. constructor; [now apply trim_blank | exact H].
    + now inversion 1.
Qed.

(** The markup of an answer is empty exactly when the answer is blank,
    that is empty or made of white space and line breaks only; an
    answer with any other character renders as something. *)
Theorem formatAnswer_empty_iff_blank (answer : jsstring) :
  formatAnswer (Some answer) = Some [] <-> blank answer.
Proof.
  rewrite <- nonblank_lines_nil. split.
  - destruct (formatAnswer_items_internal answer)
      as [(_ & texts & _ & ->)|[(_ & _ & texts & _ & ->)|(_ & _ & ->)]].
    + change (tpl "<ol>") with [60; 111; 108; 62]%N. discriminate.
    + change (tpl "<ul>") with [60; 117; 108; 62]%N. discriminate.
    + destruct (nonblank_lines answer) as [|l ls]; [reflexivity|].
      unfold paragraphs_markup. cbn [map concat].
      change (tpl "<p>") with [60; 112; 62]%N. discriminate.
  - intros H. unfold formatAnswer. fold (nonblank_lines answer).
    rewrite H. reflexivity.
Qed.

(** *** The badge of any other label *)

Lemma str_eqb_eq (a b : jsstring) : str_eqb a b = true <-> a = b.
Proof.
  revert b. induction a as [|x a IH]; intros [|y b]; cbn [str_eqb];
    try (split; [discriminate | discriminate]); [split; reflexivity|].
  rewrite andb_true_iff, N.eqb_eq, IH. split; [intros [-> ->] | intros [= -> ->]];
    auto.
Qed.

Lemma strict_eq_false (label : option jsstring) (s : jsstring) :
  label <> Some s -> strict_eq label s = false.
Proof.
  intros H. destruct label as [l|]; [|reflexivity]. cbn [strict_eq].
  destruct (str_eqb l s) eqn:E; [|reflexivity].
  apply str_eqb_eq in E. congruence.
Qed.

(** A label that is neither high nor medium gets the style and the icon
    of low, whatever it is: low itself, a label in another case, any
    other word, or none at all.  The label is shown as it came, and an
    absent label or confidence shows as the word undefined. *)
Theorem createConfidenceBadge_fallback (confidence : option Z)
    (label : option jsstring) :
  label <> Some (lit "high") -> label <> Some (lit "medium") ->
  createConfidenceBadge confidence label
  = tpl "
        <div class='confidence-badge confidence-low'>
            <span class='confidence-icon'>!</span>
            <span class='confidence-text'>Confidence: "
    ++ number_opt_to_string confidence
    ++ tpl "%</span>
            <span class='confidence-label'>("
    ++ to_string label
    ++ tpl ")</span>
        </div>
    "
  /\ number_opt_to_string None = lit "undefined"
  /\ to_string None = lit "undefined".
Proof.
  intros Hh Hm. split; [|split; reflexivity].
  unfold createConfidenceBadge.
  rewrite (strict_eq_false label _ Hh), (strict_eq_false label _ Hm).
  generalize (number_opt_to_string confidence) (to_string label).
  intros n l. vm_compute. reflexivity.
Qed.

Lemma createConfidenceBadge_fallback_witness :
  createConfidenceBadge None (Some (lit "HIGH"))
  = tpl "
        <div class='confidence-badge confidence-low'>
            <span class='confidence-icon'>!</span>
            <span class='confidence-text'>Confidence: undefined%</span>
            <span class='confidence-label'>(HIGH)</span>
        </div>
    ".
Proof.
  destruct (createConfidenceBadge_fallback None (Some (lit "HIGH")))
    as (H & _ & _).
  - intros E. vm_compute in E. discriminate.
  - intros E. vm_compute in E. discriminate.
  - rewrite H. vm_compute. reflexivity.
Defined.

(** *** What of a source reaches the markup *)

Lemma imap_ext2 {A B} (R : A -> A -> Prop) (f g : nat -> A -> B) (l l' : list A) :
  Forall2 R l l' ->
  (forall i a b, R a b -> f i a = g i b) ->
  imap f l = imap g l'.
Proof.
  intros H. revert f g. induction H as [|a b l l' Hab _ IH]; intros f g Hfg;
    [reflexivity|].
  cbn [imap]. f_equal; [now apply Hfg|].
  apply IH. intros i x y Hxy. now apply Hfg.
Qed.

(** The sources section shows of each source its position, its text and
    its document name, and nothing else: the type of a source never
    reaches the markup, and a source without a document, with an empty
    one, or in the old string format is shown as Unknown document. *)
Theorem createSourcesHtml_ignores_type (sources sources' : list Source) :
  Forall2 (fun a b => source_text a = source_text b
                      /\ shown_document a = shown_document b)
    sources sources' ->
  createSourcesHtml sources = createSourcesHtml sources'.
Proof.
  intros H. unfold createSourcesHtml.
  rewrite (Forall2_length _ _ _ H).
  erewrite (imap_ext2 _ _ _ sources sources' H); [reflexivity|].
  intros i a b [Ht Hd]. unfold source_text, shown_document in Ht, Hd.
  cbv beta. now rewrite Ht, Hd.
Qed.

Lemma createSourcesHtml_ignores_type_witness :
  createSourcesHtml
    [NewFormat {| text := Some (lit "a chunk"); document := Some [];
                  type := Some (lit "contact") |}]
  = createSourcesHtml [OldFormat (lit "a chunk")].
Proof.
  apply createSourcesHtml_ignores_type.
  constructor; [split; reflexivity | constructor].
Defined.

End Markup.
